(** * gdevelop-mcp-server: the document/session layer, embedded and verified

    A shallow embedding of the session registry ([ProjectManager]), the
    document session ([ProjectSession]) and the tool handlers of
    [index.ts], [tools/instances.ts] and [tools/behaviors.ts] (event
    tools), over a model of the engine objects declared in
    [types/gdcore.ts].

    Conventions.
    - A JavaScript [number] that the handlers use as an index, a position,
      a depth, a coordinate or a timestamp is modelled at its integer
      values, as a [Z].
    - A thrown [Error], a type error of the runtime, a rejected
      file-system promise and an out-of-contract call into the engine are
      the four constructors of [Exn]; every effectful function returns its outcome together with
      the state it leaves behind, so the state reached when an exception
      is raised is explicit (nothing is rolled back).
    - Only the warning channel of the logger is modelled ([w_warnings]);
      informational log lines carry no state the handlers read. *)

From Stdlib Require Import ZArith Ascii String List DecimalString Lia.
From stdpp Require Import base option list strings gmap.

Open Scope Z_scope.

(* ===================================================================== *)
(** ** JavaScript values *)
(* ===================================================================== *)

Module Js.

(** Truthiness of a string: the empty string is falsy. *)
Definition truthy (s : string) : bool := negb (String.eqb s "").

(** Truthiness of an optional string ([undefined] is falsy). *)
Definition truthy_opt (o : option string) : bool :=
  match o with Some s => truthy s | None => false end.

(** [a || b] on an optional string and a string default. *)
Definition or_else (o : option string) (d : string) : string :=
  match o with
  | Some s => if truthy s then s else d
  | None => d
  end.

(** [a ?? b]. *)
Definition nullish {A} (o : option A) (d : A) : A :=
  match o with Some a => a | None => d end.

(** A string between double quotes, as the error messages print names. *)
Definition quoted (s : string) : string :=
  let q := String (ascii_of_nat 34) EmptyString in
  String.append q (String.append s q).

(** Template-literal rendering of an integer-valued number: its decimal
    digits, which is what JavaScript prints for magnitudes below 10^21
    (from there on it prints a mantissa and an exponent). *)
Definition show (z : Z) : string := NilZero.string_of_int (Z.to_int z).

(** The engine takes sizes and positions as 32-bit unsigned integers;
    a JavaScript number crossing the binding is reduced modulo 2^32. *)
Definition to_uint32 (z : Z) : Z := z mod 4294967296.

End Js.

(* ===================================================================== *)
(** ** Exceptions and the state-and-exception monad *)
(* ===================================================================== *)

Inductive Exn : Type :=
| JsError (message : string)   (* throw new Error(message) *)
| TypeError (message : string) (* raised by the runtime: call of undefined *)
| IOFailure (path : string)    (* a file-system call rejected *)
| EngineFault (call : string). (* engine called outside its contract *)

Inductive Result (A : Type) : Type :=
| Ok (a : A)
| Err (e : Exn).
Arguments Ok {A} a.
Arguments Err {A} e.

Definition is_ok {A} (r : Result A) : bool :=
  match r with Ok _ => true | Err _ => false end.

(** A computation over a state [St]: it returns its outcome and the state
    it leaves, also when the outcome is an exception. *)
Definition M (St A : Type) : Type := St -> Result A * St.

Definition ret {St A} (a : A) : M St A := fun s => (Ok a, s).
Definition throw {St A} (e : Exn) : M St A := fun s => (Err e, s).
Definition bind {St A B} (m : M St A) (k : A -> M St B) : M St B :=
  fun s => match m s with
           | (Ok a, s') => k a s'
           | (Err e, s') => (Err e, s')
           end.
Definition get {St} : M St St := fun s => (Ok s, s).
Definition gets {St A} (f : St -> A) : M St A := fun s => (Ok (f s), s).
Definition modify {St} (f : St -> St) : M St unit := fun s => (Ok tt, f s).
Definition when_ {St} (b : bool) (m : M St unit) : M St unit :=
  if b then m else ret tt.

(** [try { m } catch (error) { h error }]. *)
Definition try_catch {St A} (m : M St A) (h : Exn -> M St A) : M St A :=
  fun s => match m s with
           | (Ok a, s') => (Ok a, s')
           | (Err e, s') => h e s'
           end.

(** [for (const x of xs) { body x }]. *)
Fixpoint for_each {St A} (xs : list A) (body : A -> M St unit) : M St unit :=
  match xs with
  | [] => ret tt
  | x :: rest => bind (body x) (fun _ => for_each rest body)
  end.

Declare Scope js_scope.
Delimit Scope js_scope with js.
Notation "'let!' x ':=' m 'in' k" := (bind m (fun x => k))
  (at level 10, x pattern, m at level 100, k at level 200) : js_scope.
Notation "'do!' m 'in' k" := (bind m (fun _ => k))
  (at level 10, m at level 100, k at level 200) : js_scope.
Open Scope js_scope.

(* ===================================================================== *)
(** ** Node's [path] module (POSIX flavour) *)
(* ===================================================================== *)

Module Path.

Definition slash : ascii := "/"%char.
Definition dot : ascii := "."%char.

Definition is_slash (c : ascii) : bool := Ascii.eqb c slash.

Fixpoint drop_while (p : ascii -> bool) (l : list ascii) : list ascii :=
  match l with
  | [] => []
  | c :: rest => if p c then drop_while p rest else l
  end.

Fixpoint take_while (p : ascii -> bool) (l : list ascii) : list ascii :=
  match l with
  | [] => []
  | c :: rest => if p c then c :: take_while p rest else []
  end.

(** Characters after the last occurrence of [c], and the characters
    before it; [None] when [c] does not occur. *)
Fixpoint split_last (c : ascii) (s : string) : option (string * string) :=
  match s with
  | EmptyString => None
  | String a rest =>
      match split_last c rest with
      | Some (before, after) => Some (String a before, after)
      | None => if Ascii.eqb a c then Some (EmptyString, rest) else None
      end
  end.

(** [path.dirname(p)]: trailing slashes and the last component go; the
    first character is never looked at as a separator of components. *)
Definition dirname (p : string) : string :=
  match list_ascii_of_string p with
  | [] => "."
  | first :: rest =>
      let hasRoot := is_slash first in
      let before :=
        drop_while (fun c => negb (is_slash c))
          (drop_while is_slash (rev rest)) in
      match before with
      | [] => if hasRoot then "/" else "."
      | _ :: kept =>
          if hasRoot && Nat.eqb (length kept) 0 then "//"
          else string_of_list_ascii (first :: rev kept)
      end
  end.

Definition ends_with (s suffix : string) : bool :=
  let n := String.length s in
  let k := String.length suffix in
  (k <=? n)%nat && String.eqb (String.substring (n - k) k s) suffix.

(** The last component of [p], read backwards, and the trailing slashes
    after it. *)
Definition last_component (p : string) : list ascii * list ascii :=
  let r := rev (list_ascii_of_string p) in
  (take_while (fun c => negb (is_slash c)) (drop_while is_slash r),
   take_while is_slash r).

(** The backwards comparison of a component with a suffix:
    [Some (Some rest)] when the suffix is matched, [rest] being what is
    left of the component; [Some None] at the first difference; [None]
    when the component runs out first. *)
Fixpoint strip_suffix (component suffix : list ascii)
  : option (option (list ascii)) :=
  match suffix, component with
  | [], rest => Some (Some rest)
  | _ :: _, [] => None
  | a :: suffix', b :: component' =>
      if Ascii.eqb a b then strip_suffix component' suffix' else Some None
  end.

(** [path.basename(p, ext)]. With a suffix that the last component only
    ends a part of, Node returns the component with the trailing slashes
    of the path; a path of slashes only is returned whole. *)
Definition basename (p : string) (ext : option string) : string :=
  let '(component, trailing) := last_component p in
  let base := string_of_list_ascii (rev component) in
  match ext with
  | Some e =>
      if Nat.eqb (String.length e) 0
         || (String.length p <? String.length e)%nat
      then base
      else if String.eqb e p then ""
      else
        match component with
        | [] => p
        | _ :: _ =>
            match strip_suffix component (rev (list_ascii_of_string e)) with
            | Some (Some []) => base
            | Some (Some rest) => string_of_list_ascii (rev rest)
            | Some None => base
            | None => base +:+ string_of_list_ascii trailing
            end
        end
  | None => base
  end.

(** [path.extname(p)]: from the last dot of the last component on; empty
    when there is no dot, when the dot opens the component, and for the
    component [..]. *)
Definition extname (p : string) : string :=
  match split_last dot (basename p None) with
  | None => ""
  | Some (before, after) =>
      if String.eqb before "" then ""
      else if String.eqb before "." && String.eqb after "" then ""
      else String dot after
  end.

(** The components of a path: what stands between its slashes. *)
Fixpoint components (current : list ascii) (l : list ascii) : list string :=
  match l with
  | [] => [string_of_list_ascii (rev current)]
  | c :: rest =>
      if is_slash c
      then string_of_list_ascii (rev current) :: components [] rest
      else components (c :: current) rest
  end.

(** One step of [path.normalize]: [kept] holds the components kept so
    far, the last one first. *)
Definition normalize_step (allowAboveRoot : bool) (kept : list string)
  (component : string) : list string :=
  if String.eqb component "" || String.eqb component "." then kept
  else if String.eqb component ".." then
    match kept with
    | last :: before =>
        if String.eqb last ".." then component :: kept else before
    | [] => if allowAboveRoot then [component] else []
    end
  else component :: kept.

Fixpoint join_components (l : list string) : string :=
  match l with
  | [] => ""
  | [x] => x
  | x :: rest => x +:+ "/" +:+ join_components rest
  end.

(** [path.normalize(p)]. *)
Definition normalize (p : string) : string :=
  match list_ascii_of_string p with
  | [] => "."
  | first :: rest =>
      let chars := first :: rest in
      let isAbsolute := is_slash first in
      let trailingSeparator :=
        match rev chars with c :: _ => is_slash c | [] => false end in
      let kept :=
        fold_left (normalize_step (negb isAbsolute)) (components [] chars) [] in
      let body := join_components (rev kept) in
      if String.eqb body "" then
        if isAbsolute then "/"
        else if trailingSeparator then "./" else "."
      else
        let body := if trailingSeparator then body +:+ "/" else body in
        if isAbsolute then "/" +:+ body else body
  end.

(** [path.join(dir, file)]: the non-empty arguments, put together with a
    slash and normalized. *)
Definition join (dir file : string) : string :=
  if String.eqb dir "" then
    if String.eqb file "" then "." else normalize file
  else if String.eqb file "" then normalize dir
  else normalize (dir +:+ "/" +:+ file).

End Path.

(* ===================================================================== *)
(** ** The engine objects of [types/gdcore.ts] *)
(* ===================================================================== *)

(** The engine itself is an external library (gdcore-tools); the
    repository declares its interface only. Its objects are modelled by
    the state their declared getters read and their declared setters
    write. Containers are ordered lists, addressed by name (first match)
    or by position; an insertion at a position outside the container
    appends. Layers, variables, behaviors, groups and resources are not
    touched by the operations embedded below and are left out. *)

Module GD.

(** *** Generic container helpers *)

(** Apply [f] to the first element satisfying [p]. *)
Fixpoint update_first {A} (p : A -> bool) (f : A -> A) (l : list A) : list A :=
  match l with
  | [] => []
  | a :: rest => if p a then f a :: rest else a :: update_first p f rest
  end.

(** Remove the first element satisfying [p]. *)
Fixpoint remove_first {A} (p : A -> bool) (l : list A) : list A :=
  match l with
  | [] => []
  | a :: rest => if p a then rest else a :: remove_first p rest
  end.

(** Insert at an unsigned position, or at the end when the position is
    not inside the container. *)
Definition insert_at {A} (pos : Z) (a : A) (l : list A) : list A :=
  let n := Js.to_uint32 pos in
  if n <? Z.of_nat (length l)
  then take (Z.to_nat n) l ++ a :: drop (Z.to_nat n) l
  else l ++ [a].

(** *** Instructions *)

#[local] Unset Elimination Schemes.

Inductive Instruction : Type := mkInstruction {
  ins_type : string;
  ins_inverted : bool;
  ins_parameters : list string;
  ins_subInstructions : list Instruction
}.

(** [new gd.Instruction()]. *)
Definition newInstruction : Instruction := mkInstruction "" false [] [].

Definition setType (t : string) (i : Instruction) : Instruction :=
  mkInstruction t (ins_inverted i) (ins_parameters i) (ins_subInstructions i).

Definition setInverted (b : bool) (i : Instruction) : Instruction :=
  mkInstruction (ins_type i) b (ins_parameters i) (ins_subInstructions i).

(** [setParameter(index, value)] grows the parameter list with empty
    strings when [index] is past its end. *)
Definition setParameter (index : nat) (value : string) (i : Instruction)
  : Instruction :=
  let ps := ins_parameters i in
  let grown := ps ++ replicate (S index - length ps) "" in
  mkInstruction (ins_type i) (ins_inverted i) (<[index := value]> grown)
                (ins_subInstructions i).

(** [for (let i = 0; i < parameters.length; i++)
      instruction.setParameter(i, parameters[i])]. *)
Fixpoint setParametersFrom (index : nat) (values : list string)
  (i : Instruction) : Instruction :=
  match values with
  | [] => i
  | v :: rest => setParametersFrom (S index) rest (setParameter index v i)
  end.

Definition InstructionsList := list Instruction.

Definition size (l : InstructionsList) : Z := Z.of_nat (length l).

(** [list.insert(instruction, position)]. *)
Definition insert (ins : Instruction) (pos : Z) (l : InstructionsList)
  : InstructionsList := insert_at pos ins l.

(** *** Events *)

(** An event, as the engine holds it: its type identifier, its two
    flags, its instruction lists ([None] for the variants that have
    none) and its sub-events. *)
Inductive BaseEvent : Type := mkEvent {
  ev_type : string;
  ev_disabled : bool;
  ev_folded : bool;
  ev_conditions : option InstructionsList;
  ev_actions : option InstructionsList;
  ev_canHaveSubEvents : bool;
  ev_subEvents : list BaseEvent
}.

#[local] Set Elimination Schemes.

Definition EventsList := list BaseEvent.

Definition getEventsCount (l : EventsList) : Z := Z.of_nat (length l).

Definition hasSubEvents (e : BaseEvent) : bool :=
  match ev_subEvents e with [] => false | _ => true end.

(** The event at a position inside the list, which is what
    [getEventAt(index)] addresses there ([lookupEvent] below has the
    call at any position). *)
Definition getEventAt (l : EventsList) (index : Z) : option BaseEvent :=
  if (0 <=? index) && (index <? getEventsCount l)
  then l !! Z.to_nat index
  else None.

(** What JavaScript holds for an event. [getEventAt] and [insertNewEvent]
    answer with an object of the binding's base event class, whatever
    the variant of the event inside the engine: it has the methods of
    [GDBaseEvent] and no others. The cast [as GDStandardEvent] of the
    handlers is erased when they are compiled and adds no method. The
    wrapper is around an event of the list, or around none when the
    engine answered for a position outside the list. *)
Definition EventWrapper : Type := option BaseEvent.

(** [wrapper.getConditions] and [wrapper.getActions], read as properties:
    the base class has neither, so both are [undefined] on every
    wrapper. *)
Definition getConditions (wrapper : EventWrapper) : option InstructionsList :=
  None.

Definition getActions (wrapper : EventWrapper) : option InstructionsList :=
  None.

(** A lookup at a position outside the list is outside the engine's
    contract. The engine does not check the position: the call either
    faults, or answers with a wrapper around no event. *)
Inductive Outside : Type :=
| Faults
| NullWrapper.

(** [getEventAt(index)] at any position; [outside] tells what the engine
    does at the positions outside the list. *)
Definition lookupEvent (outside : Z -> Outside) (l : EventsList) (index : Z)
  : Result EventWrapper :=
  match getEventAt l index with
  | Some e => Ok (Some e)
  | None =>
      match outside index with
      | Faults => Err (EngineFault "getEventAt")
      | NullWrapper => Ok None
      end
  end.

(** Replace the event at a position inside the list (writes made
    through the reference [getEventAt] returned). *)
Definition setEventAt (l : EventsList) (index : Z) (e : BaseEvent)
  : EventsList := <[Z.to_nat index := e]> l.

Definition removeEventAt (index : Z) (l : EventsList) : EventsList :=
  let n := Js.to_uint32 index in
  if n <? getEventsCount l then delete (Z.to_nat n) l else l.

Definition setDisabled (b : bool) (e : BaseEvent) : BaseEvent :=
  mkEvent (ev_type e) b (ev_folded e) (ev_conditions e) (ev_actions e)
          (ev_canHaveSubEvents e) (ev_subEvents e).

Definition setFolded (b : bool) (e : BaseEvent) : BaseEvent :=
  mkEvent (ev_type e) (ev_disabled e) b (ev_conditions e) (ev_actions e)
          (ev_canHaveSubEvents e) (ev_subEvents e).

Definition setConditions (c : InstructionsList) (e : BaseEvent) : BaseEvent :=
  mkEvent (ev_type e) (ev_disabled e) (ev_folded e) (Some c) (ev_actions e)
          (ev_canHaveSubEvents e) (ev_subEvents e).

Definition setActions (a : InstructionsList) (e : BaseEvent) : BaseEvent :=
  mkEvent (ev_type e) (ev_disabled e) (ev_folded e) (ev_conditions e) (Some a)
          (ev_canHaveSubEvents e) (ev_subEvents e).

(** *** Initial instances *)

Record InitialInstance : Type := mkInstance {
  inst_objectName : string;
  inst_x : Z;
  inst_y : Z;
  inst_z : Z;
  inst_angle : Z;
  inst_zOrder : Z;
  inst_layer : string;
  inst_locked : bool;
  inst_hasCustomSize : bool;
  inst_customWidth : Z;
  inst_customHeight : Z;
  inst_flippedX : bool;
  inst_flippedY : bool
}.

(** The instance [insertNewInitialInstance()] creates. *)
Definition newInitialInstance : InitialInstance :=
  mkInstance "" 0 0 0 0 0 "" false false 0 0 false false.

Definition setObjectName (n : string) (i : InitialInstance) : InitialInstance :=
  mkInstance n (inst_x i) (inst_y i) (inst_z i) (inst_angle i)
    (inst_zOrder i) (inst_layer i) (inst_locked i) (inst_hasCustomSize i)
    (inst_customWidth i) (inst_customHeight i) (inst_flippedX i)
    (inst_flippedY i).

Definition setX (v : Z) (i : InitialInstance) : InitialInstance :=
  mkInstance (inst_objectName i) v (inst_y i) (inst_z i) (inst_angle i)
    (inst_zOrder i) (inst_layer i) (inst_locked i) (inst_hasCustomSize i)
    (inst_customWidth i) (inst_customHeight i) (inst_flippedX i)
    (inst_flippedY i).

Definition setY (v : Z) (i : InitialInstance) : InitialInstance :=
  mkInstance (inst_objectName i) (inst_x i) v (inst_z i) (inst_angle i)
    (inst_zOrder i) (inst_layer i) (inst_locked i) (inst_hasCustomSize i)
    (inst_customWidth i) (inst_customHeight i) (inst_flippedX i)
    (inst_flippedY i).

Definition setZ (v : Z) (i : InitialInstance) : InitialInstance :=
  mkInstance (inst_objectName i) (inst_x i) (inst_y i) v (inst_angle i)
    (inst_zOrder i) (inst_layer i) (inst_locked i) (inst_hasCustomSize i)
    (inst_customWidth i) (inst_customHeight i) (inst_flippedX i)
    (inst_flippedY i).

Definition setLayer (v : string) (i : InitialInstance) : InitialInstance :=
  mkInstance (inst_objectName i) (inst_x i) (inst_y i) (inst_z i)
    (inst_angle i) (inst_zOrder i) v (inst_locked i) (inst_hasCustomSize i)
    (inst_customWidth i) (inst_customHeight i) (inst_flippedX i)
    (inst_flippedY i).

Definition setAngle (v : Z) (i : InitialInstance) : InitialInstance :=
  mkInstance (inst_objectName i) (inst_x i) (inst_y i) (inst_z i) v
    (inst_zOrder i) (inst_layer i) (inst_locked i) (inst_hasCustomSize i)
    (inst_customWidth i) (inst_customHeight i) (inst_flippedX i)
    (inst_flippedY i).

Definition setZOrder (v : Z) (i : InitialInstance) : InitialInstance :=
  mkInstance (inst_objectName i) (inst_x i) (inst_y i) (inst_z i)
    (inst_angle i) v (inst_layer i) (inst_locked i) (inst_hasCustomSize i)
    (inst_customWidth i) (inst_customHeight i) (inst_flippedX i)
    (inst_flippedY i).

(** [if (v !== undefined) instance.setter(v)]. *)
Definition set_if_defined {V} (setter : V -> InitialInstance -> InitialInstance)
  (v : option V) (i : InitialInstance) : InitialInstance :=
  match v with Some x => setter x i | None => i end.

Definition InitialInstancesContainer := list InitialInstance.

Definition getInstancesCount (c : InitialInstancesContainer) : Z :=
  Z.of_nat (length c).

(** [renameInstancesOfObject(oldName, newName)]. *)
Definition renameInstancesOfObject (oldName newName : string)
  (c : InitialInstancesContainer) : InitialInstancesContainer :=
  map (fun i => if String.eqb (inst_objectName i) oldName
                then setObjectName newName i else i) c.

(** *** Objects *)

Record Object : Type := mkObject {
  obj_name : string;
  obj_type : string
}.

Definition ObjectsContainer := list Object.

Definition named (n : string) (o : Object) : bool := String.eqb (obj_name o) n.

Definition hasObjectNamed (n : string) (c : ObjectsContainer) : bool :=
  existsb (named n) c.

(** [container.getObject(name).setName(newName)]. *)
Definition renameObject (n newName : string) (c : ObjectsContainer)
  : ObjectsContainer :=
  update_first (named n) (fun o => mkObject newName (obj_type o)) c.

(** *** Layouts (scenes) *)

Record Layout : Type := mkLayout {
  lay_name : string;
  lay_backgroundColor : Z * Z * Z;
  lay_objects : ObjectsContainer;
  lay_initialInstances : InitialInstancesContainer;
  lay_events : EventsList
}.

(** The layout [insertNewLayout] creates. *)
Definition newLayout (n : string) : Layout :=
  mkLayout n (209, 209, 209) [] [] [].

Definition layout_named (n : string) (l : Layout) : bool :=
  String.eqb (lay_name l) n.

Definition setName (n : string) (l : Layout) : Layout :=
  mkLayout n (lay_backgroundColor l) (lay_objects l)
           (lay_initialInstances l) (lay_events l).

(** [setBackgroundColor(r, g, b)]. [lay_backgroundColor] is the colour as
    the engine keeps it, each component a 32-bit unsigned integer; the
    getters hand JavaScript the same 32 bits read as a signed number, and
    the setter takes either reading back to the same component. *)
Definition setBackgroundColor (r g b : Z) (l : Layout) : Layout :=
  mkLayout (lay_name l) (Js.to_uint32 r, Js.to_uint32 g, Js.to_uint32 b)
           (lay_objects l) (lay_initialInstances l) (lay_events l).

Definition setObjects (c : ObjectsContainer) (l : Layout) : Layout :=
  mkLayout (lay_name l) (lay_backgroundColor l) c
           (lay_initialInstances l) (lay_events l).

Definition setInitialInstances (c : InitialInstancesContainer) (l : Layout)
  : Layout :=
  mkLayout (lay_name l) (lay_backgroundColor l) (lay_objects l) c
           (lay_events l).

Definition setEvents (e : EventsList) (l : Layout) : Layout :=
  mkLayout (lay_name l) (lay_backgroundColor l) (lay_objects l)
           (lay_initialInstances l) e.

(** *** External events sheets *)

Record ExternalEvents : Type := mkExternalEvents {
  ext_name : string;
  ext_associatedLayout : string;
  ext_events : EventsList
}.

Definition external_named (n : string) (x : ExternalEvents) : bool :=
  String.eqb (ext_name x) n.

(** *** Project *)

Record Project : Type := mkProject {
  name : string;
  version : string;
  description : string;
  author : string;
  packageName : string;
  windowWidth : Z;
  windowHeight : Z;
  maximumFPS : Z;
  minimumFPS : Z;
  firstLayout : string;
  layouts : list Layout;
  objects : ObjectsContainer;
  externalEvents : list ExternalEvents
}.

Definition getLayoutsCount (p : Project) : Z := Z.of_nat (length (layouts p)).

Definition hasLayoutNamed (n : string) (p : Project) : bool :=
  existsb (layout_named n) (layouts p).

Definition getLayout (n : string) (p : Project) : option Layout :=
  find (layout_named n) (layouts p).

Definition hasExternalEventsNamed (n : string) (p : Project) : bool :=
  existsb (external_named n) (externalEvents p).

Definition getExternalEvents (n : string) (p : Project)
  : option ExternalEvents :=
  find (external_named n) (externalEvents p).

Definition setLayouts (ls : list Layout) (p : Project) : Project :=
  mkProject (name p) (version p) (description p) (author p) (packageName p)
    (windowWidth p) (windowHeight p) (maximumFPS p) (minimumFPS p)
    (firstLayout p) ls (objects p) (externalEvents p).

Definition setGlobalObjects (c : ObjectsContainer) (p : Project) : Project :=
  mkProject (name p) (version p) (description p) (author p) (packageName p)
    (windowWidth p) (windowHeight p) (maximumFPS p) (minimumFPS p)
    (firstLayout p) (layouts p) c (externalEvents p).

Definition setExternalEventsList (xs : list ExternalEvents) (p : Project)
  : Project :=
  mkProject (name p) (version p) (description p) (author p) (packageName p)
    (windowWidth p) (windowHeight p) (maximumFPS p) (minimumFPS p)
    (firstLayout p) (layouts p) (objects p) xs.

Definition setFirstLayout (n : string) (p : Project) : Project :=
  mkProject (name p) (version p) (description p) (author p) (packageName p)
    (windowWidth p) (windowHeight p) (maximumFPS p) (minimumFPS p)
    n (layouts p) (objects p) (externalEvents p).

Definition setProjectName (v : string) (p : Project) : Project :=
  mkProject v (version p) (description p) (author p) (packageName p)
    (windowWidth p) (windowHeight p) (maximumFPS p) (minimumFPS p)
    (firstLayout p) (layouts p) (objects p) (externalEvents p).

Definition setVersion (v : string) (p : Project) : Project :=
  mkProject (name p) v (description p) (author p) (packageName p)
    (windowWidth p) (windowHeight p) (maximumFPS p) (minimumFPS p)
    (firstLayout p) (layouts p) (objects p) (externalEvents p).

Definition setDescription (v : string) (p : Project) : Project :=
  mkProject (name p) (version p) v (author p) (packageName p)
    (windowWidth p) (windowHeight p) (maximumFPS p) (minimumFPS p)
    (firstLayout p) (layouts p) (objects p) (externalEvents p).

Definition setAuthor (v : string) (p : Project) : Project :=
  mkProject (name p) (version p) (description p) v (packageName p)
    (windowWidth p) (windowHeight p) (maximumFPS p) (minimumFPS p)
    (firstLayout p) (layouts p) (objects p) (externalEvents p).

Definition setPackageName (v : string) (p : Project) : Project :=
  mkProject (name p) (version p) (description p) (author p) v
    (windowWidth p) (windowHeight p) (maximumFPS p) (minimumFPS p)
    (firstLayout p) (layouts p) (objects p) (externalEvents p).

Definition setDefaultWidth (v : Z) (p : Project) : Project :=
  mkProject (name p) (version p) (description p) (author p) (packageName p)
    v (windowHeight p) (maximumFPS p) (minimumFPS p)
    (firstLayout p) (layouts p) (objects p) (externalEvents p).

Definition setDefaultHeight (v : Z) (p : Project) : Project :=
  mkProject (name p) (version p) (description p) (author p) (packageName p)
    (windowWidth p) v (maximumFPS p) (minimumFPS p)
    (firstLayout p) (layouts p) (objects p) (externalEvents p).

Definition setMaximumFPS (v : Z) (p : Project) : Project :=
  mkProject (name p) (version p) (description p) (author p) (packageName p)
    (windowWidth p) (windowHeight p) v (minimumFPS p)
    (firstLayout p) (layouts p) (objects p) (externalEvents p).

Definition setMinimumFPS (v : Z) (p : Project) : Project :=
  mkProject (name p) (version p) (description p) (author p) (packageName p)
    (windowWidth p) (windowHeight p) (maximumFPS p) v
    (firstLayout p) (layouts p) (objects p) (externalEvents p).

(** [insertNewLayout(name, position)]. *)
Definition insertNewLayout (n : string) (pos : Z) (p : Project) : Project :=
  setLayouts (insert_at pos (newLayout n) (layouts p)) p.

(** [removeLayout(name)]: the first-layout field is not touched. *)
Definition removeLayout (n : string) (p : Project) : Project :=
  setLayouts (remove_first (layout_named n) (layouts p)) p.

(** Writes made through the reference [getLayout(name)] returned. *)
Definition updateLayout (n : string) (f : Layout -> Layout) (p : Project)
  : Project :=
  setLayouts (update_first (layout_named n) f (layouts p)) p.

(** Writes made through [getExternalEvents(name).getEvents()]. *)
Definition updateExternalEvents (n : string) (f : EventsList -> EventsList)
  (p : Project) : Project :=
  setExternalEventsList
    (update_first (external_named n)
       (fun x => mkExternalEvents (ext_name x) (ext_associatedLayout x)
                   (f (ext_events x)))
       (externalEvents p)) p.

End GD.

(* ===================================================================== *)
(** ** The world outside the process *)
(* ===================================================================== *)

(** Storage maps a path to the document last written there (the decoded
    content of the file); [w_writable] says which paths accept a write;
    [w_now] is the clock read by [new Date()] and [Date.now()];
    [w_warnings] collects the messages logged at warning level;
    [w_released] lists the sessions whose engine document was freed. *)
Record World : Type := mkWorld {
  w_files : gmap string GD.Project;
  w_writable : string -> bool;
  w_now : Z;
  w_warnings : list string;
  w_released : list string
}.

Definition setFiles (f : gmap string GD.Project) (w : World) : World :=
  mkWorld f (w_writable w) (w_now w) (w_warnings w) (w_released w).

Definition addWarning (msg : string) (w : World) : World :=
  mkWorld (w_files w) (w_writable w) (w_now w) (w_warnings w ++ [msg])
          (w_released w).

Definition addReleased (sid : string) (w : World) : World :=
  mkWorld (w_files w) (w_writable w) (w_now w) (w_warnings w)
          (w_released w ++ [sid]).

(** [fs.copyFile(src, dest)]. *)
Definition copyFile (src dest : string) : M World unit :=
  fun w => match w_files w !! src with
           | None => (Err (IOFailure src), w)
           | Some content =>
               if w_writable w dest
               then (Ok tt, setFiles (<[dest := content]> (w_files w)) w)
               else (Err (IOFailure dest), w)
           end.

(** [GDCoreManager.saveProject(project, fileName, filePath)]: the engine
    tools write the serialized document to [filePath/fileName]. *)
Definition saveProject (project : GD.Project) (fileName filePath : string)
  : M World unit :=
  fun w => let target := Path.join filePath fileName in
           if w_writable w target
           then (Ok tt, setFiles (<[target := project]> (w_files w)) w)
           else (Err (IOFailure target), w).

(* ===================================================================== *)
(** ** [ProjectSession] *)
(* ===================================================================== *)

Record ProjectSession : Type := mkSession {
  id : string;
  project : GD.Project;
  projectPath : string;
  dirty : bool;
  createdAt : Z;
  lastModifiedAt : Z
}.

(** Session methods run over the world and the session object. *)
Definition SessionState : Type := World * ProjectSession.

Module Session.

Definition liftWorld {A} (m : M World A) : M SessionState A :=
  fun '(w, s) => let '(r, w') := m w in (r, (w', s)).

Definition this : M SessionState ProjectSession := gets snd.

Definition update (f : ProjectSession -> ProjectSession)
  : M SessionState unit :=
  modify (fun '(w, s) => (w, f s)).

Definition setProject (p : GD.Project) (s : ProjectSession) : ProjectSession :=
  mkSession (id s) p (projectPath s) (dirty s) (createdAt s)
            (lastModifiedAt s).

Definition setProjectPath (p : string) (s : ProjectSession) : ProjectSession :=
  mkSession (id s) (project s) p (dirty s) (createdAt s) (lastModifiedAt s).

Definition setDirty (b : bool) (s : ProjectSession) : ProjectSession :=
  mkSession (id s) (project s) (projectPath s) b (createdAt s)
            (lastModifiedAt s).

Definition setLastModifiedAt (t : Z) (s : ProjectSession) : ProjectSession :=
  mkSession (id s) (project s) (projectPath s) (dirty s) (createdAt s) t.

(** Writes to the engine document the session holds. *)
Definition updateProject (f : GD.Project -> GD.Project)
  : M SessionState unit :=
  update (fun s => setProject (f (project s)) s).

Definition getProject : M SessionState GD.Project :=
  gets (fun st => project (snd st)).

Definition markDirty : M SessionState unit :=
  modify (fun '(w, s) => (w, setLastModifiedAt (w_now w) (setDirty true s))).

Definition isDirty : M SessionState bool := gets (fun st => dirty (snd st)).

(** *** Save and backup *)

Definition save (savePath : option string) : M SessionState string :=
  let! s := this in
  let targetPath := Js.or_else savePath (projectPath s) in
  let dir := Path.dirname targetPath in
  let filename := Path.basename targetPath None in
  do! liftWorld (saveProject (project s) filename dir) in
  do! update (setDirty false) in
  do! match savePath with
      | Some p => when_ (Js.truthy p) (update (setProjectPath p))
      | None => ret tt
      end in
  ret targetPath.

Definition createBackup : M SessionState string :=
  let! timestamp := gets (fun st => w_now (fst st)) in
  let! s := this in
  let ext := Path.extname (projectPath s) in
  let base := Path.basename (projectPath s) (Some ext) in
  let dir := Path.dirname (projectPath s) in
  let backupPath :=
    Path.join dir (base +:+ ".backup-" +:+ Js.show timestamp +:+ ext) in
  do! liftWorld (copyFile (projectPath s) backupPath) in
  ret backupPath.

(** *** Layout (scene) operations *)

Definition getLayoutCount : M SessionState Z :=
  gets (fun st => GD.getLayoutsCount (project (snd st))).

Definition hasLayout (n : string) : M SessionState bool :=
  gets (fun st => GD.hasLayoutNamed n (project (snd st))).

Definition getLayout (n : string) : M SessionState GD.Layout :=
  let! p := getProject in
  match GD.getLayout n p with
  | Some l => ret l
  | None => throw (JsError ("Layout " +:+ Js.quoted n +:+ " not found"))
  end.

Definition createLayout (n : string) (position : option Z)
  : M SessionState unit :=
  let! taken := hasLayout n in
  if taken : bool
  then throw (JsError ("Layout " +:+ Js.quoted n +:+ " already exists"))
  else
    let! count := getLayoutCount in
    let pos := Js.nullish position count in
    do! updateProject (GD.insertNewLayout n pos) in
    markDirty.

Definition deleteLayout (n : string) : M SessionState unit :=
  let! present := hasLayout n in
  if present : bool then
    do! updateProject (GD.removeLayout n) in
    markDirty
  else throw (JsError ("Layout " +:+ Js.quoted n +:+ " not found")).

Definition renameLayout (currentName newName : string)
  : M SessionState unit :=
  let! present := hasLayout currentName in
  if present : bool then
    let! taken := hasLayout newName in
    if taken : bool
    then throw (JsError ("Layout " +:+ Js.quoted newName +:+ " already exists"))
    else
      let! _ := getLayout currentName in
      do! updateProject (GD.updateLayout currentName (GD.setName newName)) in
      let! p := getProject in
      do! when_ (String.eqb (GD.firstLayout p) currentName)
                (updateProject (GD.setFirstLayout newName)) in
      markDirty
  else throw (JsError ("Layout " +:+ Js.quoted currentName +:+ " not found")).

(** *** Global objects *)

Definition hasGlobalObject (n : string) : M SessionState bool :=
  gets (fun st => GD.hasObjectNamed n (GD.objects (project (snd st)))).

(** [dispose()] frees the engine document. *)
Definition dispose : M SessionState unit :=
  modify (fun '(w, s) => (addReleased (id s) w, s)).

End Session.

(* ===================================================================== *)
(** ** [ProjectManager]: the session registry *)
(* ===================================================================== *)

(** The registry is a JavaScript [Map]: keys are unique and are iterated
    in insertion order, so it is kept as an association list. *)
Definition Registry : Type := list (string * ProjectSession).

Definition ManagerState : Type := World * Registry.

Module ProjectManager.

Definition map_get (k : string) (m : Registry) : option ProjectSession :=
  snd <$> find (fun e => String.eqb (fst e) k) m.

Definition map_has (k : string) (m : Registry) : bool :=
  existsb (fun e => String.eqb (fst e) k) m.

(** [set] keeps the position of a key already present. *)
Fixpoint map_set (k : string) (v : ProjectSession) (m : Registry) : Registry :=
  match m with
  | [] => [(k, v)]
  | e :: rest => if String.eqb (fst e) k then (k, v) :: rest
                 else e :: map_set k v rest
  end.

Definition map_delete (k : string) (m : Registry) : Registry :=
  GD.remove_first (fun e => String.eqb (fst e) k) m.

Definition map_keys (m : Registry) : list string := map fst m.

(** [getSession(sessionId)] followed by calls on the session object it
    returns: the object lives in the registry, so what the calls change
    is seen through the registry afterwards. *)
Definition withSession {A} (sessionId : string) (body : M SessionState A)
  : M ManagerState A :=
  fun '(w, reg) =>
    match map_get sessionId reg with
    | None =>
        (Err (JsError ("Session " +:+ Js.quoted sessionId +:+ " not found")),
         (w, reg))
    | Some s =>
        let '(r, (w', s')) := body (w, s) in
        (r, (w', map_set sessionId s' reg))
    end.

Definition hasSession (sessionId : string) : M ManagerState bool :=
  gets (fun st => map_has sessionId (snd st)).

Definition getSessionCount : M ManagerState Z :=
  gets (fun st => Z.of_nat (length (snd st))).

Definition closeSession (sessionId : string) (save : bool)
  : M ManagerState bool :=
  let! found := gets (fun st => map_get sessionId (snd st)) in
  match found with
  | None => ret false
  | Some _ =>
      do! withSession sessionId
            (let! d := Session.isDirty in
             if save && d then (let! _ := Session.save None in ret tt)
             else ret tt) in
      do! withSession sessionId Session.dispose in
      do! modify (fun '(w, reg) => (w, map_delete sessionId reg)) in
      ret true
  end.

(** The loop walks the keys of the live map; the only entry removed
    while it runs is the one being visited, so it visits the keys
    present at the start, in order. *)
Definition closeAllSessions (save : bool) : M ManagerState unit :=
  let! keys := gets (fun st => map_keys (snd st)) in
  for_each keys (fun sessionId =>
                   let! _ := closeSession sessionId save in ret tt).

End ProjectManager.

(* ===================================================================== *)
(** ** Tool handlers of [index.ts] *)
(* ===================================================================== *)

(** Each handler starts with [projectManager.getSession(sessionId)]; the
    definitions below are the rest of the handler, run on the session
    that call returned ([ProjectManager.withSession] puts the two
    together in [tool]). *)

Definition tool {A} (sessionId : string) (handler : M SessionState A)
  : M ManagerState A :=
  ProjectManager.withSession sessionId handler.

Module ProjectTools.

Record SaveResponse : Type := mkSaveResponse {
  savedPath : string;
  backupPath : option string
}.

Definition warn (msg : string) : M SessionState unit :=
  modify (fun '(w, s) => (addWarning msg w, s)).

Definition gdevelop_project_save (savePath : option string)
  (createBackup : bool) : M SessionState SaveResponse :=
  let! backupPath :=
    (if createBackup
     then try_catch
            (let! b := Session.createBackup in ret (Some b))
            (fun _ => do! warn "Failed to create backup" in ret None)
     else ret None) in
  let! savedPath := Session.save savePath in
  ret (mkSaveResponse savedPath backupPath).

Record Settings : Type := mkSettings {
  set_name : option string;
  set_version : option string;
  set_description : option string;
  set_author : option string;
  set_packageName : option string;
  set_windowWidth : option Z;
  set_windowHeight : option Z;
  set_maxFPS : option Z;
  set_minFPS : option Z;
  set_firstLayout : option string
}.

(** [if (settings.f !== undefined) { project.setF(settings.f);
    updated.push(label); }]. *)
Definition apply_setting {V} (v : option V)
  (setter : V -> GD.Project -> GD.Project) (label : string)
  (updated : list string) : M SessionState (list string) :=
  match v with
  | Some x => do! Session.updateProject (setter x) in ret (updated ++ [label])
  | None => ret updated
  end.

Definition gdevelop_project_settings (settings : Settings)
  : M SessionState (list string) :=
  let! u := apply_setting (set_name settings) GD.setProjectName "name" [] in
  let! u := apply_setting (set_version settings) GD.setVersion "version" u in
  let! u := apply_setting (set_description settings) GD.setDescription
              "description" u in
  let! u := apply_setting (set_author settings) GD.setAuthor "author" u in
  let! u := apply_setting (set_packageName settings) GD.setPackageName
              "packageName" u in
  let! u := apply_setting (set_windowWidth settings) GD.setDefaultWidth
              "windowWidth" u in
  let! u := apply_setting (set_windowHeight settings) GD.setDefaultHeight
              "windowHeight" u in
  let! u := apply_setting (set_maxFPS settings) GD.setMaximumFPS "maxFPS" u in
  let! u := apply_setting (set_minFPS settings) GD.setMinimumFPS "minFPS" u in
  let! u :=
    match set_firstLayout settings with
    | Some n =>
        let! present := Session.hasLayout n in
        if present : bool then
          do! Session.updateProject (GD.setFirstLayout n) in
          ret (u ++ ["firstLayout"])
        else throw (JsError ("Layout " +:+ Js.quoted n +:+ " not found"))
    | None => ret u
    end in
  do! when_ (0 <? Z.of_nat (length u)) Session.markDirty in
  ret u.

End ProjectTools.

Module SceneTools.

(** *** [parseInt(text, 16)] *)

Definition is_space (c : ascii) : bool :=
  let n := nat_of_ascii c in
  ((9 <=? n) && (n <=? 13))%nat || (n =? 32)%nat.

Definition hex_digit (c : ascii) : option Z :=
  let n := Z.of_nat (nat_of_ascii c) in
  if (48 <=? n) && (n <=? 57) then Some (n - 48)
  else if (97 <=? n) && (n <=? 102) then Some (n - 87)
  else if (65 <=? n) && (n <=? 70) then Some (n - 55)
  else None.

Fixpoint skip_spaces (s : string) : string :=
  match s with
  | String c rest => if is_space c then skip_spaces rest else s
  | EmptyString => s
  end.

(** The digits at the front of [s], accumulated; [None] when there is
    no digit at all. *)
Fixpoint hex_digits (s : string) (acc : option Z) : option Z :=
  match s with
  | String c rest =>
      match hex_digit c with
      | Some d => hex_digits rest (Some (16 * Js.nullish acc 0 + d))
      | None => acc
      end
  | EmptyString => acc
  end.

Definition strip_0x (s : string) : string :=
  match s with
  | String "0" (String "x" rest) => rest
  | String "0" (String "X" rest) => rest
  | _ => s
  end.

(** [None] stands for NaN. *)
Definition parseInt16 (text : string) : option Z :=
  let s := skip_spaces text in
  let '(sign, s) := match s with
                    | String "-" rest => (-1, rest)
                    | String "+" rest => (1, rest)
                    | _ => (1, s)
                    end in
  (fun v => sign * v) <$> hex_digits (strip_0x s) None.

(** NaN crosses the engine binding as 0. *)
Definition to_engine_int (v : option Z) : Z := Js.nullish v 0.

(** [text.replace('#', '')]: the first occurrence only. *)
Fixpoint remove_first_hash (s : string) : string :=
  match s with
  | String c rest => if Ascii.eqb c "#" then rest
                     else String c (remove_first_hash rest)
  | EmptyString => EmptyString
  end.

(** [text.slice(a, b)] for [0 <= a <= b]. *)
Definition slice (a b : nat) (s : string) : string :=
  String.substring a (b - a) s.

(** [getLayoutPosition(name)]: -1 when there is no such layout. *)
Fixpoint position_from (i : Z) (n : string) (ls : list GD.Layout) : Z :=
  match ls with
  | [] => -1
  | l :: rest => if GD.layout_named n l then i else position_from (i + 1) n rest
  end.

Definition getLayoutPosition (n : string) : M SessionState Z :=
  gets (fun st => position_from 0 n (GD.layouts (project (snd st)))).

Definition gdevelop_scene_create (n : string) (position : option Z)
  (backgroundColor : option string) (setAsFirst : bool)
  : M SessionState (string * Z) :=
  do! Session.createLayout n position in
  do! match backgroundColor with
      | Some color =>
          when_ (Js.truthy color)
            (let hex := remove_first_hash color in
             let r := to_engine_int (parseInt16 (slice 0 2 hex)) in
             let g := to_engine_int (parseInt16 (slice 2 4 hex)) in
             let b := to_engine_int (parseInt16 (slice 4 6 hex)) in
             Session.updateProject
               (GD.updateLayout n (GD.setBackgroundColor r g b)))
      | None => ret tt
      end in
  do! when_ setAsFirst (Session.updateProject (GD.setFirstLayout n)) in
  let! sceneIndex := getLayoutPosition n in
  ret (n, sceneIndex).

Definition gdevelop_scene_delete (sceneName : string)
  : M SessionState string :=
  do! Session.deleteLayout sceneName in
  ret sceneName.

Definition gdevelop_scene_rename (currentName newName : string)
  : M SessionState (string * string) :=
  do! Session.renameLayout currentName newName in
  ret (currentName, newName).

End SceneTools.

Module ObjectTools.

(** The container a handler addresses: a scene's or the global one. *)
Inductive ContainerRef : Type :=
| InScene (sceneName : string)
| Global.

Record RenameResponse : Type := mkRenameResponse {
  oldName : string;
  newName : string;
  referencesUpdated : Z
}.

(** [sceneName ? session.getLayout(sceneName).getObjects()
               : session.getGlobalObjects()]. *)
Definition resolveContainer (sceneName : option string)
  : M SessionState (ContainerRef * GD.ObjectsContainer) :=
  match sceneName with
  | Some n =>
      if Js.truthy n
      then let! l := Session.getLayout n in ret (InScene n, GD.lay_objects l)
      else let! p := Session.getProject in ret (Global, GD.objects p)
  | None => let! p := Session.getProject in ret (Global, GD.objects p)
  end.

(** Writes made through the container reference. *)
Definition updateContainer (ref : ContainerRef)
  (f : GD.ObjectsContainer -> GD.ObjectsContainer) : M SessionState unit :=
  match ref with
  | InScene n =>
      Session.updateProject
        (GD.updateLayout n (fun l => GD.setObjects (f (GD.lay_objects l)) l))
  | Global =>
      Session.updateProject (fun p => GD.setGlobalObjects (f (GD.objects p)) p)
  end.

(** [for (i = 0; i < project.getLayoutsCount(); i++)
      project.getLayoutAt(i).getInitialInstances()
             .renameInstancesOfObject(currentName, newName)]. *)
Definition renameInAllLayouts (currentName newName : string) (p : GD.Project)
  : GD.Project :=
  GD.setLayouts
    (map (fun l => GD.setInitialInstances
                     (GD.renameInstancesOfObject currentName newName
                        (GD.lay_initialInstances l)) l)
         (GD.layouts p)) p.

Definition gdevelop_object_rename (currentName newName : string)
  (sceneName : option string) : M SessionState RenameResponse :=
  let! (ref, container) := resolveContainer sceneName in
  if GD.hasObjectNamed currentName container then
    if GD.hasObjectNamed newName container
    then throw (JsError ("Object " +:+ Js.quoted newName +:+ " already exists"))
    else
      do! updateContainer ref (GD.renameObject currentName newName) in
      let! count := Session.getLayoutCount in
      do! Session.updateProject (renameInAllLayouts currentName newName) in
      do! Session.markDirty in
      ret (mkRenameResponse currentName newName count)
  else throw (JsError ("Object " +:+ Js.quoted currentName +:+ " not found")).

End ObjectTools.

(* ===================================================================== *)
(** ** Tool handlers of [tools/instances.ts] *)
(* ===================================================================== *)

Module InstanceTools.

(** One item of the [instances] argument of [gdevelop_instance_batch]. *)
Record InstanceData : Type := mkInstanceData {
  d_objectName : string;
  d_x : Z;
  d_y : Z;
  d_z : option Z;
  d_layer : option string;
  d_angle : option Z;
  d_zOrder : option Z
}.

(** One entry of the [results] array. *)
Inductive BatchResult : Type :=
| Created (objectName : string) (x y : Z)      (* success: true *)
| Failed (objectName : string) (error : string). (* success: false *)

Definition succeeded (r : BatchResult) : bool :=
  match r with Created _ _ _ => true | Failed _ _ => false end.

(** The message of the entry pushed when the object is unknown. *)
Definition ObjectNotFound : string := "Object not found".

(** [String(error)]. *)
Definition string_of_exn (e : Exn) : string :=
  match e with
  | JsError m => "Error: " +:+ m
  | TypeError m => "TypeError: " +:+ m
  | IOFailure p => "Error: " +:+ p
  | EngineFault c => "Error: " +:+ c
  end.

Record BatchResponse : Type := mkBatchResponse {
  results : list BatchResult;
  createdCount : Z
}.

(** The instance one item describes, as the setters leave it. *)
Definition buildInstance (data : InstanceData) : GD.InitialInstance :=
  GD.set_if_defined GD.setZOrder (d_zOrder data)
    (GD.set_if_defined GD.setAngle (d_angle data)
       (GD.set_if_defined GD.setLayer (d_layer data)
          (GD.set_if_defined GD.setZ (d_z data)
             (GD.setY (d_y data)
                (GD.setX (d_x data)
                   (GD.setObjectName (d_objectName data)
                      GD.newInitialInstance)))))).

(** The [try] block of the loop body. [layout] is the scene resolved
    before the loop; its instance container is reached through the
    project, where the new instance is appended. *)
Definition batch_item (sceneName : string) (layout : GD.Layout)
  (data : InstanceData) (acc : list BatchResult)
  : M SessionState (list BatchResult) :=
  let! isGlobal := Session.hasGlobalObject (d_objectName data) in
  if negb (GD.hasObjectNamed (d_objectName data) (GD.lay_objects layout))
     && negb isGlobal
  then ret (acc ++ [Failed (d_objectName data) ObjectNotFound])
  else
    do! Session.updateProject
          (GD.updateLayout sceneName
             (fun l => GD.setInitialInstances
                         (GD.lay_initialInstances l ++ [buildInstance data])
                         l)) in
    ret (acc ++ [Created (d_objectName data) (d_x data) (d_y data)]).

(** [for (const data of instancesData) { try {...} catch (error) {...} }]. *)
Fixpoint batch_loop (sceneName : string) (layout : GD.Layout)
  (items : list InstanceData) (acc : list BatchResult)
  : M SessionState (list BatchResult) :=
  match items with
  | [] => ret acc
  | data :: rest =>
      let! acc' :=
        try_catch (batch_item sceneName layout data acc)
          (fun e => ret (acc ++ [Failed (d_objectName data)
                                        (string_of_exn e)])) in
      batch_loop sceneName layout rest acc'
  end.

Definition gdevelop_instance_batch (sceneName : string)
  (instancesData : list InstanceData) : M SessionState BatchResponse :=
  let! layout := Session.getLayout sceneName in
  let! rs := batch_loop sceneName layout instancesData [] in
  do! Session.markDirty in
  ret (mkBatchResponse rs (Z.of_nat (length (List.filter succeeded rs)))).

End InstanceTools.

(* ===================================================================== *)
(** ** Event tools of [tools/behaviors.ts] *)
(* ===================================================================== *)

Module EventTools.

(** The [eventType] argument of [gdevelop_event_create]. *)
Inductive EventKind : Type :=
| standard | comment | group | foreach | repeat_ | while_ | link.

Definition EVENT_TYPES (k : EventKind) : string :=
  match k with
  | standard => "BuiltinCommonInstructions::Standard"
  | comment => "BuiltinCommonInstructions::Comment"
  | group => "BuiltinCommonInstructions::Group"
  | foreach => "BuiltinCommonInstructions::ForEach"
  | repeat_ => "BuiltinCommonInstructions::Repeat"
  | while_ => "BuiltinCommonInstructions::While"
  | link => "BuiltinCommonInstructions::Link"
  end.

(** Modelled from the spec: the engine's event factory, which is not in
    the repository. It returns an empty node of the variant: no
    conditions, no actions, no sub-events, flags off. Comment and Group
    nodes carry no instruction lists, every other variant carries both;
    Comment and Link are taken not to nest sub-events. *)
Definition newEvent (k : EventKind) : GD.BaseEvent :=
  let lists := match k with
               | comment | group => None
               | _ => Some []
               end in
  let nests := match k with
               | comment | link => false
               | _ => true
               end in
  GD.mkEvent (EVENT_TYPES k) false false lists lists nests [].

(** *** The events list a handler addresses *)

Inductive EventsRef : Type :=
| SceneEvents (sceneName : string)
| SheetEvents (externalEventsName : string).

Definition must_specify : Exn :=
  JsError "Must specify either sceneName or externalEventsName".

(** Resolution as [gdevelop_event_list] and [gdevelop_event_create]
    do it: the external sheet is looked up only when it exists. *)
Definition resolveChecked (sceneName externalEventsName : option string)
  : M SessionState (EventsRef * GD.EventsList) :=
  if Js.truthy_opt sceneName then
    let n := Js.nullish sceneName EmptyString in
    let! l := Session.getLayout n in ret (SceneEvents n, GD.lay_events l)
  else if Js.truthy_opt externalEventsName then
    let n := Js.nullish externalEventsName EmptyString in
    let! p := Session.getProject in
    match GD.getExternalEvents n p with
    | Some x => ret (SheetEvents n, GD.ext_events x)
    | None =>
        throw (JsError ("External events " +:+ Js.quoted n +:+ " not found"))
    end
  else throw must_specify.

(** Resolution as the delete, update, condition-add and action-add
    handlers do it: the sheet is fetched from the engine unchecked. *)
Definition resolveUnchecked (sceneName externalEventsName : option string)
  : M SessionState (EventsRef * GD.EventsList) :=
  if Js.truthy_opt sceneName then
    let n := Js.nullish sceneName EmptyString in
    let! l := Session.getLayout n in ret (SceneEvents n, GD.lay_events l)
  else if Js.truthy_opt externalEventsName then
    let n := Js.nullish externalEventsName EmptyString in
    let! p := Session.getProject in
    match GD.getExternalEvents n p with
    | Some x => ret (SheetEvents n, GD.ext_events x)
    | None => throw (EngineFault "getExternalEvents")
    end
  else throw must_specify.

(** Writes made through the resolved list. *)
Definition writeEvents (ref : EventsRef)
  (f : GD.EventsList -> GD.EventsList) : M SessionState unit :=
  match ref with
  | SceneEvents n =>
      Session.updateProject
        (GD.updateLayout n (fun l => GD.setEvents (f (GD.lay_events l)) l))
  | SheetEvents n => Session.updateProject (GD.updateExternalEvents n f)
  end.

(** *** Listing *)

Record EventInfo : Type := mkEventInfo {
  index : string;
  type : string;
  disabled : bool;
  folded : bool;
  summary : string;
  conditionCount : option Z;
  actionCount : option Z;
  subEventCount : Z
}.

Definition getEventSummary (event : GD.BaseEvent) : string :=
  let t := GD.ev_type event in
  if String.eqb t (EVENT_TYPES comment) then "[Comment]"
  else if String.eqb t (EVENT_TYPES group) then "[Group]"
  else
    let std : GD.EventWrapper := Some event in
    match GD.getConditions std, GD.getActions std with
    | Some cs, Some acts =>
        Js.show (GD.size cs) +:+ " condition(s), "
          +:+ Js.show (GD.size acts) +:+ " action(s)"
    | _, _ => t
    end.

(** The entry the loop body builds for the event at position [i]; the
    two counts are set under [if (std.getConditions)] and
    [if (std.getActions)]. *)
Definition eventInfo (prefix : string) (i : Z) (event : GD.BaseEvent)
  : EventInfo :=
  let std : GD.EventWrapper := Some event in
  mkEventInfo
    (prefix +:+ Js.show i)
    (GD.ev_type event)
    (GD.ev_disabled event)
    (GD.ev_folded event)
    (getEventSummary event)
    (GD.size <$> GD.getConditions std)
    (GD.size <$> GD.getActions std)
    (if GD.ev_canHaveSubEvents event && GD.hasSubEvents event
     then GD.getEventsCount (GD.ev_subEvents event)
     else 0).

(** One turn of the loop of [collectEvents]: the entries it pushes for
    the event at position [i], those of the nested call first. *)
Fixpoint collectEvent (depth : Z) (includeDisabled : bool)
  (currentDepth : Z) (prefix : string) (i : Z) (event : GD.BaseEvent)
  {struct event} : list EventInfo :=
  if negb includeDisabled && GD.ev_disabled event then []
  else
    let nested :=
      match event with
      | GD.mkEvent _ _ _ _ _ can subs =>
          if can && GD.hasSubEvents event then
            if currentDepth <? depth then
              (fix loop (j : Z) (l : list GD.BaseEvent) : list EventInfo :=
                 match l with
                 | [] => []
                 | e :: rest =>
                     collectEvent depth includeDisabled (currentDepth + 1)
                       (prefix +:+ Js.show i +:+ ".") j e
                     ++ loop (j + 1) rest
                 end) 0 subs
            else []
          else []
      end in
    nested ++ [eventInfo prefix i event].

(** The loop of [collectEvents] from position [j] on. *)
Fixpoint collectFrom (depth : Z) (includeDisabled : bool) (currentDepth : Z)
  (prefix : string) (j : Z) (l : GD.EventsList) : list EventInfo :=
  match l with
  | [] => []
  | e :: rest =>
      collectEvent depth includeDisabled currentDepth prefix j e
      ++ collectFrom depth includeDisabled currentDepth prefix (j + 1) rest
  end.

Definition collectEvents (depth : Z) (includeDisabled : bool)
  (events : GD.EventsList) (currentDepth : Z) (prefix : string)
  : list EventInfo :=
  collectFrom depth includeDisabled currentDepth prefix 0 events.

Definition gdevelop_event_list (sceneName externalEventsName : option string)
  (depth : Z) (includeDisabled : bool) : M SessionState (list EventInfo) :=
  let! (_, eventsList) := resolveChecked sceneName externalEventsName in
  ret (collectEvents depth includeDisabled eventsList 0 EmptyString).

(** *** Creation *)

Record ConditionSpec : Type := mkConditionSpec {
  c_type : string;
  c_parameters : list string;
  c_inverted : option bool
}.

Record ActionSpec : Type := mkActionSpec {
  a_type : string;
  a_parameters : list string
}.

Definition conditionInstruction (c : ConditionSpec) : GD.Instruction :=
  GD.setParametersFrom 0 (c_parameters c)
    (GD.setInverted (Js.nullish (c_inverted c) false)
       (GD.setType (c_type c) GD.newInstruction)).

Definition actionInstruction (a : ActionSpec) : GD.Instruction :=
  GD.setParametersFrom 0 (a_parameters a)
    (GD.setType (a_type a) GD.newInstruction).

(** [for (const x of specs) list.insert(build(x), list.size())]. *)
Definition appendAll {S} (build : S -> GD.Instruction) (specs : list S)
  (l : GD.InstructionsList) : GD.InstructionsList :=
  fold_left (fun acc x => GD.insert (build x) (GD.size acc) acc) specs l.

(** A method called on an object without a test: the call of
    [undefined] is a type error of the runtime. *)
Definition callMethod {St A} (callee : string) (method : option A) : M St A :=
  match method with
  | Some a => ret a
  | None => throw (TypeError (callee +:+ " is not a function"))
  end.

(** Where [insertNewEvent(project, type, pos)] puts the new event. *)
Definition insertedIndex (pos : Z) (l : GD.EventsList) : Z :=
  let n := Js.to_uint32 pos in
  if n <? GD.getEventsCount l then n else GD.getEventsCount l.

(** The handler inserts the engine's empty event first. It then fills
    it, when conditions (or actions) were given and the type is
    [standard]: [std.getConditions()] is called on the wrapper that
    [insertNewEvent] returned, untested. The session is marked dirty
    last. *)
Definition gdevelop_event_create (sceneName externalEventsName : option string)
  (eventType : EventKind) (position : option Z)
  (conditions : option (list ConditionSpec))
  (actions : option (list ActionSpec)) : M SessionState (Z * EventKind) :=
  let! (ref, eventsList) := resolveChecked sceneName externalEventsName in
  let pos := Js.nullish position (GD.getEventsCount eventsList) in
  do! writeEvents ref (GD.insert_at pos (newEvent eventType)) in
  let event := newEvent eventType in
  let std : GD.EventWrapper := Some event in
  let at_ := insertedIndex pos eventsList in
  let! event :=
    match conditions, eventType with
    | Some cs, standard =>
        let! conditionsList :=
          callMethod "std.getConditions" (GD.getConditions std) in
        let filled :=
          GD.setConditions (appendAll conditionInstruction cs conditionsList)
            event in
        do! writeEvents ref (fun l => GD.setEventAt l at_ filled) in
        ret filled
    | _, _ => ret event
    end in
  do! match actions, eventType with
      | Some acts, standard =>
          let! actionsList :=
            callMethod "std.getActions" (GD.getActions std) in
          writeEvents ref
            (fun l => GD.setEventAt l at_
                        (GD.setActions
                           (appendAll actionInstruction acts actionsList)
                           event))
      | _, _ => ret tt
      end in
  do! Session.markDirty in
  ret (pos, eventType).

(** *** Deletion and flag update *)

Definition out_of_bounds (eventIndex : Z) : Exn :=
  JsError ("Event index " +:+ Js.show eventIndex +:+ " out of bounds").

Definition gdevelop_event_delete (sceneName externalEventsName : option string)
  (eventIndex : Z) : M SessionState Z :=
  let! (ref, eventsList) := resolveUnchecked sceneName externalEventsName in
  if (eventIndex <? 0) || (GD.getEventsCount eventsList <=? eventIndex)
  then throw (out_of_bounds eventIndex)
  else
    do! writeEvents ref (GD.removeEventAt eventIndex) in
    do! Session.markDirty in
    ret eventIndex.

Definition gdevelop_event_update (sceneName externalEventsName : option string)
  (eventIndex : Z) (disabled folded : option bool) : M SessionState unit :=
  let! (ref, eventsList) := resolveUnchecked sceneName externalEventsName in
  if (eventIndex <? 0) || (GD.getEventsCount eventsList <=? eventIndex)
  then throw (out_of_bounds eventIndex)
  else
    (* the check above leaves only positions inside the list *)
    match GD.getEventAt eventsList eventIndex with
    | None => throw (EngineFault "getEventAt")
    | Some event =>
        let event := match disabled with
                     | Some b => GD.setDisabled b event
                     | None => event
                     end in
        let event := match folded with
                     | Some b => GD.setFolded b event
                     | None => event
                     end in
        do! writeEvents ref (fun l => GD.setEventAt l eventIndex event) in
        Session.markDirty
    end.

(** *** Adding a condition or an action *)

(** Neither handler checks [eventIndex]: the lookup is made at whatever
    position was given, and the wrapper it returns is then asked for its
    [getConditions] (or [getActions]) property. *)
Section UncheckedLookup.

Variable outside : Z -> GD.Outside.

Definition getEventAt (eventsList : GD.EventsList) (eventIndex : Z)
  : M SessionState GD.EventWrapper :=
  match GD.lookupEvent outside eventsList eventIndex with
  | Ok event => ret event
  | Err e => throw e
  end.

(** Writes made through a wrapper reach the event it is around. *)
Definition writeThrough (ref : EventsRef) (eventIndex : Z)
  (event : GD.EventWrapper) (f : GD.BaseEvent -> GD.BaseEvent)
  : M SessionState unit :=
  match event with
  | Some e => writeEvents ref (fun l => GD.setEventAt l eventIndex (f e))
  | None => ret tt
  end.

Definition gdevelop_condition_add (sceneName externalEventsName : option string)
  (eventIndex : Z) (condition : ConditionSpec) (position : option Z)
  : M SessionState Z :=
  let! (ref, eventsList) := resolveUnchecked sceneName externalEventsName in
  let! event := getEventAt eventsList eventIndex in
  match GD.getConditions event with
  | None => throw (JsError "Event does not support conditions")
  | Some conditionsList =>
      let instruction :=
        GD.setParametersFrom 0 (c_parameters condition)
          (GD.setInverted (Js.nullish (c_inverted condition) false)
             (GD.setType (c_type condition) GD.newInstruction)) in
      let pos := Js.nullish position (GD.size conditionsList) in
      do! writeThrough ref eventIndex event
            (GD.setConditions (GD.insert instruction pos conditionsList)) in
      do! Session.markDirty in
      ret pos
  end.

Definition gdevelop_action_add (sceneName externalEventsName : option string)
  (eventIndex : Z) (action : ActionSpec) (position : option Z)
  : M SessionState Z :=
  let! (ref, eventsList) := resolveUnchecked sceneName externalEventsName in
  let! event := getEventAt eventsList eventIndex in
  match GD.getActions event with
  | None => throw (JsError "Event does not support actions")
  | Some actionsList =>
      let instruction :=
        GD.setParametersFrom 0 (a_parameters action)
          (GD.setType (a_type action) GD.newInstruction) in
      let pos := Js.nullish position (GD.size actionsList) in
      do! writeThrough ref eventIndex event
            (GD.setActions (GD.insert instruction pos actionsList)) in
      do! Session.markDirty in
      ret pos
  end.

End UncheckedLookup.

End EventTools.

(* ===================================================================== *)
(** ** Specification-side definitions *)
(* ===================================================================== *)

(** The file a save of [targetPath] writes: the handler hands the engine
    the directory and the base name of the path. *)
Definition saveLocation (targetPath : string) : string :=
  Path.join (Path.dirname targetPath) (Path.basename targetPath None).

(** A session as a successful save of [targetPath] leaves it. *)
Definition savedSession (targetPath : string) (s : ProjectSession)
  : ProjectSession :=
  mkSession (id s) (project s) targetPath false (createdAt s)
            (lastModifiedAt s).

Definition result_map {A B} (f : A -> B) (r : Result A) : Result B :=
  match r with Ok a => Ok (f a) | Err e => Err e end.

(** The invariant on the first-scene identifier: unset, or the name of a
    scene of the document. *)
Definition firstLayoutValid (p : GD.Project) : bool :=
  String.eqb (GD.firstLayout p) EmptyString
  || GD.hasLayoutNamed (GD.firstLayout p) p.

(** Concrete documents, sessions and worlds used by the examples. *)
Module Examples.

Definition hero : GD.Object := GD.mkObject "Hero" "Sprite".
Definition coin : GD.Object := GD.mkObject "Coin" "Sprite".

Definition heroAt (x y : Z) : GD.InitialInstance :=
  GD.setY y (GD.setX x (GD.setObjectName "Hero" GD.newInitialInstance)).
Definition coinAt (x y : Z) : GD.InitialInstance :=
  GD.setY y (GD.setX x (GD.setObjectName "Coin" GD.newInitialInstance)).

Definition menu : GD.Layout :=
  GD.mkLayout "Menu" (0, 0, 0) [hero] [heroAt 1 2; coinAt 3 4] [].
Definition level : GD.Layout :=
  GD.mkLayout "Level" (0, 0, 0) [] [coinAt 5 6; heroAt 7 8] [].

Definition game : GD.Project :=
  GD.mkProject "Game" "1.0.0" "" "" "com.example.game" 800 600 60 20
               "Menu" [menu; level] [coin] [].

(** Every path accepts writes but the one under [/ro]. *)
Definition world : World :=
  mkWorld ∅ (fun p => negb (String.eqb p "/ro/game.json")) 1000 [] [].

Definition session : ProjectSession :=
  mkSession "s1" game "/work/game.json" true 10 20.

Definition readonlySession : ProjectSession :=
  mkSession "s2" game "/ro/game.json" true 10 20.

Definition cleanSession : ProjectSession :=
  mkSession "s3" game "/work/other.json" false 10 20.

Definition registry : Registry :=
  [("s1", session); ("s2", readonlySession); ("s3", cleanSession)].

End Examples.

(* ===================================================================== *)
(** ** Proof support *)
(* ===================================================================== *)

(** Unfold the monad operations and the session accessors, and nothing of
    the path and engine functions. *)
Ltac step_monad :=
  cbv beta iota zeta delta
    [bind ret throw get gets modify when_ try_catch fst snd
     Session.this Session.update Session.updateProject Session.getProject
     Session.markDirty Session.isDirty Session.liftWorld
     Session.getLayoutCount Session.hasLayout Session.hasGlobalObject
     Session.dispose].

(** Compute, deciding the comparisons of a name with itself. *)
Ltac simplify_keys := repeat (progress (cbn; rewrite ?String.eqb_refl)).

Arguments Session.save : simpl never.
Arguments Session.createBackup : simpl never.
Arguments saveLocation : simpl never.
Arguments Js.quoted : simpl never.
Arguments Js.show : simpl never.

(** A tool call on a registered session runs its handler on that session
    and stores the session the handler leaves; on an unknown session it
    throws and changes nothing. The theorems below are about handlers. *)
Lemma tool_registered {A} (sessionId : string) (handler : M SessionState A)
  (w : World) (reg : Registry) (s : ProjectSession) :
  ProjectManager.map_get sessionId reg = Some s ->
  tool sessionId handler (w, reg) =
    let '(r, (w', s')) := handler (w, s) in
    (r, (w', ProjectManager.map_set sessionId s' reg)).
Proof.
  intros H. unfold tool, ProjectManager.withSession. rewrite H. reflexivity.
Qed.

Lemma tool_unregistered {A} (sessionId : string) (handler : M SessionState A)
  (w : World) (reg : Registry) :
  ProjectManager.map_get sessionId reg = None ->
  tool sessionId handler (w, reg) =
    (Err (JsError ("Session " +:+ Js.quoted sessionId +:+ " not found")),
     (w, reg)).
Proof.
  intros H. unfold tool, ProjectManager.withSession. rewrite H. reflexivity.
Qed.

(* ===================================================================== *)
(** ** Saving *)
(* ===================================================================== *)

Section Saving.

Variables (w : World) (s : ProjectSession).

Lemma or_else_cases (savePath : option string) :
  match savePath with
  | Some p => if String.eqb p EmptyString
              then Js.or_else savePath (projectPath s) = projectPath s
              else Js.or_else savePath (projectPath s) = p
  | None => Js.or_else savePath (projectPath s) = projectPath s
  end.
Proof.
  destruct savePath as [p|]; [|reflexivity].
  unfold Js.or_else, Js.truthy. destruct (String.eqb p EmptyString); reflexivity.
Qed.

Lemma save_ok (savePath : option string) :
  let target := Js.or_else savePath (projectPath s) in
  w_writable w (saveLocation target) = true ->
  Session.save savePath (w, s) =
    (Ok target,
     (setFiles (<[saveLocation target := project s]> (w_files w)) w,
      savedSession target s)).
Proof.
  intros target Hw. subst target. unfold saveLocation in *.
  unfold Session.save, saveProject, savedSession. step_monad. rewrite Hw.
  destruct savePath as [p|]; [|reflexivity].
  unfold Js.or_else, Js.truthy.
  destruct (String.eqb p EmptyString); reflexivity.
Qed.

Lemma save_fail (savePath : option string) :
  let target := Js.or_else savePath (projectPath s) in
  w_writable w (saveLocation target) = false ->
  Session.save savePath (w, s) = (Err (IOFailure (saveLocation target)), (w, s)).
Proof.
  intros target Hw. subst target. unfold saveLocation in *.
  unfold Session.save, saveProject. step_monad. rewrite Hw.
  reflexivity.
Qed.

End Saving.

(** C3. [save(optionalNewPath)] writes the document to the session path,
    or to the new path when a (non-empty) one is supplied, and that path
    is then the session's path. When the write succeeds, the storage
    holds the session's document at the save location and what it held
    elsewhere, the dirty flag is cleared and nothing else of the session
    changes; when it fails the exception of the write is raised and the
    session (dirty flag and path included) and the storage are left as
    they were. *)
Theorem save_clears_dirty_only_on_success :
  forall (w : World) (s : ProjectSession) (savePath : option string),
    let target := Js.or_else savePath (projectPath s) in
    let loc := saveLocation target in
    let '(r, (w', s')) := Session.save savePath (w, s) in
    match savePath with
    | Some p => if String.eqb p EmptyString then target = projectPath s
                else target = p
    | None => target = projectPath s
    end
    /\ (if w_writable w loc
        then r = Ok target
             /\ w_files w' !! loc = Some (project s)
             /\ (forall other : string,
                    other <> loc -> w_files w' !! other = w_files w !! other)
             /\ w' = setFiles (<[loc := project s]> (w_files w)) w
             /\ dirty s' = false
             /\ projectPath s' = target
             /\ project s' = project s
             /\ s' = savedSession target s
        else r = Err (IOFailure loc) /\ w' = w /\ s' = s).
Proof.
  intros w s savePath target loc.
  destruct (w_writable w loc) eqn:Hw.
  - rewrite (save_ok w s savePath Hw). cbv beta iota.
    split; [apply or_else_cases|].
    split; [reflexivity|].
    split; [apply lookup_insert_eq|].
    split; [intros other Hother; apply lookup_insert_ne; intros Heq;
            apply Hother; symmetry; exact Heq|].
    repeat split.
  - rewrite (save_fail w s savePath Hw). cbv beta iota.
    split; [apply or_else_cases|]. repeat split.
Qed.

(* ===================================================================== *)
(** ** Backup before save *)
(* ===================================================================== *)

Section BackupThenSave.

Variables (w : World) (s : ProjectSession).

(** A backup either fails and changes nothing, or copies the on-disk
    file to a writable sibling path and leaves the session alone. *)
Lemma createBackup_cases :
  (exists e, Session.createBackup (w, s) = (Err e, (w, s)))
  \/ (exists bp content,
         Session.createBackup (w, s) =
           (Ok bp, (setFiles (<[bp := content]> (w_files w)) w, s))
         /\ w_writable w bp = true).
Proof.
  unfold Session.createBackup, copyFile. step_monad.
  destruct (w_files w !! projectPath s) as [content|].
  - match goal with
    | |- context [w_writable w ?bp] => destruct (w_writable w bp) eqn:Hbp
    end.
    + right. eexists _, content. split; [reflexivity | exact Hbp].
    + left. eexists. reflexivity.
  - left. eexists. reflexivity.
Qed.

(** The save reads nothing of the warning log. *)
Lemma save_after_warning (msg : string) (savePath : option string) :
  Session.save savePath (addWarning msg w, s) =
    let '(r, (w', s')) := Session.save savePath (w, s) in
    (r, (addWarning msg w', s')).
Proof.
  set (target := Js.or_else savePath (projectPath s)).
  destruct (w_writable w (saveLocation target)) eqn:Hw.
  - rewrite (save_ok w s savePath Hw).
    rewrite (save_ok (addWarning msg w) s savePath); [reflexivity | exact Hw].
  - rewrite (save_fail w s savePath Hw).
    rewrite (save_fail (addWarning msg w) s savePath); [reflexivity | exact Hw].
Qed.

(** A save after a successful backup: same result, same session, same
    content at the save location. *)
Lemma save_after_backup (bp : string) (content : GD.Project)
  (savePath : option string) :
  w_writable w bp = true ->
  let loc := saveLocation (Js.or_else savePath (projectPath s)) in
  let '(r, (w', s')) :=
    Session.save savePath (setFiles (<[bp := content]> (w_files w)) w, s) in
  let '(r0, (w0, s0)) := Session.save savePath (w, s) in
  r = r0 /\ s' = s0 /\ w_files w' !! loc = w_files w0 !! loc.
Proof.
  intros Hbp loc. subst loc.
  set (target := Js.or_else savePath (projectPath s)).
  set (wb := setFiles (<[bp := content]> (w_files w)) w).
  destruct (w_writable w (saveLocation target)) eqn:Hw.
  - rewrite (save_ok w s savePath Hw).
    rewrite (save_ok wb s savePath); [|exact Hw].
    repeat split. cbn. rewrite !lookup_insert_eq. reflexivity.
  - rewrite (save_fail w s savePath Hw).
    rewrite (save_fail wb s savePath); [|exact Hw].
    repeat split. cbn. apply lookup_insert_ne. intros ->.
    fold target in Hbp. congruence.
Qed.

End BackupThenSave.

(** C6. When [gdevelop_project_save] is asked for a backup and the backup
    fails, the failure is logged: the warning log afterwards is the log
    before followed by the one message [Failed to create backup]; and the
    save runs exactly as a save alone would (first part). Whether a
    backup was asked for and whether it succeeded, the save has the
    outcome of a save alone: the same result (saved path or exception),
    the same session afterwards, and the same content at the save
    location. *)
Theorem backup_failure_does_not_block_save :
  forall (w : World) (s : ProjectSession) (savePath : option string),
    (forall e st,
        Session.createBackup (w, s) = (Err e, st) ->
        let run := ProjectTools.gdevelop_project_save savePath true (w, s) in
        run =
          (let '(r, (w', s')) := Session.save savePath (w, s) in
           (result_map (fun p => ProjectTools.mkSaveResponse p None) r,
            (addWarning "Failed to create backup" w', s')))
        /\ w_warnings (fst (snd run)) =
             w_warnings w ++ ["Failed to create backup"])
    /\ (forall createBackup : bool,
          let loc := saveLocation (Js.or_else savePath (projectPath s)) in
          let '(r, (w', s')) :=
            ProjectTools.gdevelop_project_save savePath createBackup (w, s) in
          let '(r0, (w0, s0)) := Session.save savePath (w, s) in
          result_map ProjectTools.savedPath r = r0
          /\ s' = s0
          /\ w_files w' !! loc = w_files w0 !! loc).
Proof.
  intros w s savePath. split.
  - intros e st Hb run.
    assert (Hrun : run =
              (let '(r, (w', s')) := Session.save savePath (w, s) in
               (result_map (fun p => ProjectTools.mkSaveResponse p None) r,
                (addWarning "Failed to create backup" w', s')))).
    { subst run.
      destruct (createBackup_cases w s) as [[e' He]|(bp & c & Hok & _)];
        [|congruence].
      unfold ProjectTools.gdevelop_project_save, ProjectTools.warn.
      step_monad. rewrite He. cbv beta iota.
      change (addWarning "Failed to create backup" w, s)
        with ((addWarning "Failed to create backup" w, s) : SessionState).
      rewrite save_after_warning.
      destruct (Session.save savePath (w, s)) as [[p|e0] [w' s']]; reflexivity. }
    split; [exact Hrun|]. rewrite Hrun.
    destruct (w_writable w
                (saveLocation (Js.or_else savePath (projectPath s)))) eqn:Hw.
    + rewrite (save_ok w s savePath Hw). reflexivity.
    + rewrite (save_fail w s savePath Hw). reflexivity.
  - intros [|] loc.
    + destruct (createBackup_cases w s) as [[e' He]|(bp & c & Hok & Hbp)].
      * unfold ProjectTools.gdevelop_project_save, ProjectTools.warn.
        step_monad. rewrite He. cbv beta iota.
        rewrite save_after_warning.
        destruct (Session.save savePath (w, s)) as [[p|e0] [w' s']];
          repeat split.
      * pose proof (save_after_backup w s bp c savePath Hbp) as Hs.
        unfold ProjectTools.gdevelop_project_save. step_monad.
        rewrite Hok. cbv beta iota.
        cbv zeta in Hs. fold loc in Hs.
        destruct (Session.save savePath
                    (setFiles (<[bp := c]> (w_files w)) w, s))
          as [[p|e0] [w' s']];
          destruct (Session.save savePath (w, s)) as [[p0|e1] [w0 s0]];
          destruct Hs as (Hr & Hs' & Hf); repeat split;
            solve [congruence | assumption].
    + unfold ProjectTools.gdevelop_project_save. step_monad.
      destruct (Session.save savePath (w, s)) as [[p|e0] [w' s']];
        repeat split.
Qed.

(* ===================================================================== *)
(** ** Scenes and the first-scene identifier *)
(* ===================================================================== *)

(** The mutations the first-scene invariant is stated for, as the tools
    expose them. *)
Inductive Mutation : Type :=
| SceneCreate (sceneName : string) (position : option Z)
    (backgroundColor : option string) (setAsFirst : bool)
| SceneDelete (sceneName : string)
| SceneRename (currentName newName : string)
| ProjectSettings (settings : ProjectTools.Settings).

Definition perform (m : Mutation) : M SessionState unit :=
  match m with
  | SceneCreate n position color setAsFirst =>
      let! _ := SceneTools.gdevelop_scene_create n position color setAsFirst in
      ret tt
  | SceneDelete n => let! _ := SceneTools.gdevelop_scene_delete n in ret tt
  | SceneRename a b => let! _ := SceneTools.gdevelop_scene_rename a b in ret tt
  | ProjectSettings settings =>
      let! _ := ProjectTools.gdevelop_project_settings settings in ret tt
  end.

Definition setNow (t : Z) (w : World) : World :=
  mkWorld (w_files w) (w_writable w) t (w_warnings w) (w_released w).

(** One tool call, made when the clock shows [t]; the state it leaves is
    observable whether the call returned or threw. *)
Definition call (t : Z) (m : Mutation) (st : SessionState) : SessionState :=
  snd (perform m (setNow t (fst st), snd st)).

(** The states a client can observe along a sequence of calls. *)
Fixpoint observable (calls : list (Z * Mutation)) (st : SessionState)
  : list SessionState :=
  st :: match calls with
        | [] => []
        | (t, m) :: rest => observable rest (call t m st)
        end.

(** The call deletes the scene the first-scene identifier names. *)
Definition deletesFirstScene (m : Mutation) (p : GD.Project) : bool :=
  match m with
  | SceneDelete n => Js.truthy (GD.firstLayout p) && String.eqb n (GD.firstLayout p)
  | _ => false
  end.

(** No call of the sequence deletes the scene that is the first scene at
    the time of the call. *)
Fixpoint sparesFirstScene (calls : list (Z * Mutation)) (st : SessionState)
  : bool :=
  match calls with
  | [] => true
  | (t, m) :: rest =>
      negb (deletesFirstScene m (project (snd st)))
      && sparesFirstScene rest (call t m st)
  end.

Section ListsOfNamedThings.

Context {A : Type}.
Implicit Types (p q : A -> bool) (f : A -> A) (l : list A).

Lemma existsb_insert_at q pos a l :
  existsb q (GD.insert_at pos a l) = q a || existsb q l.
Proof.
  unfold GD.insert_at.
  destruct (Js.to_uint32 pos <? Z.of_nat (length l)).
  - rewrite <- (take_drop (Z.to_nat (Js.to_uint32 pos)) l) at 3.
    rewrite !existsb_app. cbn [existsb].
    destruct (q a), (existsb q (take _ l)), (existsb q (drop _ l)); reflexivity.
  - rewrite existsb_app. cbn. rewrite orb_false_r. apply orb_comm.
Qed.

Lemma existsb_update_first_preserved p q f l :
  (forall a, q (f a) = q a) ->
  existsb q (GD.update_first p f l) = existsb q l.
Proof.
  intros Hq. induction l as [|a l IH]; cbn; [reflexivity|].
  destruct (p a); cbn; [rewrite Hq | rewrite IH]; reflexivity.
Qed.

Lemma existsb_update_first_hit p q f l :
  (forall a, q (f a) = true) ->
  existsb p l = true ->
  existsb q (GD.update_first p f l) = true.
Proof.
  intros Hq. induction l as [|a l IH]; cbn; [discriminate|].
  destruct (p a); cbn; intros H.
  - rewrite Hq. reflexivity.
  - rewrite IH by exact H. apply orb_true_r.
Qed.

Lemma existsb_update_first_miss p q f l :
  (forall a, q a = true -> p a = false) ->
  existsb q l = true ->
  existsb q (GD.update_first p f l) = true.
Proof.
  intros Hpq. induction l as [|a l IH]; cbn; [discriminate|].
  intros H. destruct (p a) eqn:Hp; cbn.
  - destruct (q a) eqn:Hqa.
    + rewrite (Hpq a Hqa) in Hp. discriminate.
    + cbn in H. rewrite H. apply orb_true_r.
  - destruct (q a); cbn in *; [reflexivity | auto].
Qed.

Lemma existsb_remove_first_miss p q l :
  (forall a, q a = true -> p a = false) ->
  existsb q (GD.remove_first p l) = existsb q l.
Proof.
  intros Hpq. induction l as [|a l IH]; cbn; [reflexivity|].
  destruct (p a) eqn:Hp; cbn.
  - destruct (q a) eqn:Hqa; [|reflexivity].
    rewrite (Hpq a Hqa) in Hp. discriminate.
  - rewrite IH. reflexivity.
Qed.

Lemma length_update_first p f l :
  length (GD.update_first p f l) = length l.
Proof.
  induction l as [|a l IH]; cbn; [reflexivity|].
  destruct (p a); cbn; [|rewrite IH]; reflexivity.
Qed.

Lemma update_first_none f l :
  GD.update_first (fun _ => false) f l = l.
Proof. induction l as [|a l IH]; cbn; [|rewrite IH]; reflexivity. Qed.

End ListsOfNamedThings.

(** The scene found under a name after a change, made through that name,
    that keeps scene names. *)
Lemma getLayout_updateLayout (n : string) (f : GD.Layout -> GD.Layout)
  (p : GD.Project) :
  (forall l, GD.lay_name (f l) = GD.lay_name l) ->
  GD.getLayout n (GD.updateLayout n f p) = f <$> GD.getLayout n p.
Proof.
  intros Hname. unfold GD.getLayout, GD.updateLayout. cbn.
  induction (GD.layouts p) as [|l ls IH]; cbn; [reflexivity|].
  destruct (GD.layout_named n l) eqn:Hl; cbn.
  - unfold GD.layout_named in *. rewrite Hname, Hl. reflexivity.
  - rewrite Hl. exact IH.
Qed.

Lemma layout_named_other (n m : string) (l : GD.Layout) :
  n <> m -> GD.layout_named m l = true -> GD.layout_named n l = false.
Proof.
  unfold GD.layout_named. intros Hne Hm.
  apply String.eqb_eq in Hm. apply String.eqb_neq. congruence.
Qed.

Section FirstLayout.

Lemma firstLayoutValid_setLayouts (p : GD.Project) (ls : list GD.Layout) :
  firstLayoutValid p = true ->
  (existsb (GD.layout_named (GD.firstLayout p)) (GD.layouts p) = true ->
   existsb (GD.layout_named (GD.firstLayout p)) ls = true) ->
  firstLayoutValid (GD.setLayouts ls p) = true.
Proof.
  unfold firstLayoutValid, GD.hasLayoutNamed. cbn.
  intros Hv Hmono. apply orb_true_iff in Hv as [Hv|Hv].
  - rewrite Hv. reflexivity.
  - rewrite (Hmono Hv). apply orb_true_r.
Qed.

Lemma firstLayoutValid_setFirstLayout (p : GD.Project) (n : string) :
  GD.hasLayoutNamed n p = true ->
  firstLayoutValid (GD.setFirstLayout n p) = true.
Proof.
  unfold firstLayoutValid, GD.hasLayoutNamed. cbn.
  intros ->. apply orb_true_r.
Qed.

Lemma hasLayoutNamed_insertNewLayout (n : string) (pos : Z) (p : GD.Project) :
  GD.hasLayoutNamed n (GD.insertNewLayout n pos p) = true.
Proof.
  unfold GD.hasLayoutNamed, GD.insertNewLayout. cbn.
  rewrite existsb_insert_at. unfold GD.layout_named at 1. cbn.
  rewrite String.eqb_refl. reflexivity.
Qed.

Lemma hasLayoutNamed_recolor (n m : string) (r g b : Z) (p : GD.Project) :
  GD.hasLayoutNamed m (GD.updateLayout n (GD.setBackgroundColor r g b) p)
  = GD.hasLayoutNamed m p.
Proof.
  unfold GD.hasLayoutNamed, GD.updateLayout. cbn.
  apply existsb_update_first_preserved. reflexivity.
Qed.

Lemma firstLayoutValid_insertNewLayout (n : string) (pos : Z) (p : GD.Project) :
  firstLayoutValid p = true ->
  firstLayoutValid (GD.insertNewLayout n pos p) = true.
Proof.
  intros Hv. apply firstLayoutValid_setLayouts; [exact Hv|].
  intros H. rewrite existsb_insert_at, H. apply orb_true_r.
Qed.

Lemma firstLayoutValid_recolor (n : string) (r g b : Z) (p : GD.Project) :
  firstLayoutValid p = true ->
  firstLayoutValid (GD.updateLayout n (GD.setBackgroundColor r g b) p) = true.
Proof.
  intros Hv. apply firstLayoutValid_setLayouts; [exact Hv|].
  intros H. rewrite existsb_update_first_preserved; [exact H | reflexivity].
Qed.

(** Creating a scene keeps the first-scene identifier valid, also when
    the new scene is made the first one. *)
Lemma scene_create_keeps_first (w : World) (s : ProjectSession) (n : string)
  (position : option Z) (color : option string) (setAsFirst : bool) :
  firstLayoutValid (project s) = true ->
  firstLayoutValid
    (project (snd (snd (SceneTools.gdevelop_scene_create
                          n position color setAsFirst (w, s))))) = true.
Proof.
  intros Hv.
  unfold SceneTools.gdevelop_scene_create, Session.createLayout,
    SceneTools.getLayoutPosition.
  step_monad. destruct (GD.hasLayoutNamed n (project s)) eqn:Hn; [exact Hv|].
  set (p1 := GD.insertNewLayout n _ (project s)).
  assert (Hv1 : firstLayoutValid p1 = true)
    by (apply firstLayoutValid_insertNewLayout; exact Hv).
  assert (Hn1 : GD.hasLayoutNamed n p1 = true)
    by apply hasLayoutNamed_insertNewLayout.
  destruct color as [c|]; [destruct (Js.truthy c)|]; destruct setAsFirst;
    cbn [project Session.setProject Session.setDirty Session.setLastModifiedAt];
    first [ exact Hv1
          | apply firstLayoutValid_recolor; exact Hv1
          | apply firstLayoutValid_setFirstLayout;
            first [ exact Hn1 | rewrite hasLayoutNamed_recolor; exact Hn1 ] ].
Qed.

(** Deleting a scene other than the first one keeps the identifier
    valid. *)
Lemma scene_delete_keeps_first (w : World) (s : ProjectSession) (n : string) :
  firstLayoutValid (project s) = true ->
  deletesFirstScene (SceneDelete n) (project s) = false ->
  firstLayoutValid
    (project (snd (snd (SceneTools.gdevelop_scene_delete n (w, s))))) = true.
Proof.
  intros Hv Hd.
  unfold SceneTools.gdevelop_scene_delete, Session.deleteLayout.
  step_monad. destruct (GD.hasLayoutNamed n (project s)) eqn:Hn; [|exact Hv].
  cbn [project Session.setProject Session.setDirty Session.setLastModifiedAt].
  cbn in Hd. unfold Js.truthy in Hd.
  destruct (String.eqb (GD.firstLayout (project s)) EmptyString) eqn:He.
  - unfold firstLayoutValid. cbn. rewrite He. reflexivity.
  - cbn in Hd. apply String.eqb_neq in Hd.
    apply firstLayoutValid_setLayouts; [exact Hv|].
    intros H. rewrite existsb_remove_first_miss; [exact H|].
    intros a. apply layout_named_other. exact Hd.
Qed.

(** Renaming a scene keeps the identifier valid: it follows the renamed
    scene. *)
Lemma scene_rename_keeps_first (w : World) (s : ProjectSession)
  (a b : string) :
  firstLayoutValid (project s) = true ->
  firstLayoutValid
    (project (snd (snd (SceneTools.gdevelop_scene_rename a b (w, s))))) = true.
Proof.
  intros Hv.
  unfold SceneTools.gdevelop_scene_rename, Session.renameLayout,
    Session.getLayout.
  step_monad. destruct (GD.hasLayoutNamed a (project s)) eqn:Ha; [|exact Hv].
  destruct (GD.hasLayoutNamed b (project s)) eqn:Hb; [exact Hv|].
  destruct (GD.getLayout a (project s)) as [l|] eqn:Hl; [|exact Hv].
  step_monad.
  cbn [project Session.setProject Session.setDirty Session.setLastModifiedAt
       GD.firstLayout GD.updateLayout GD.setLayouts].
  destruct (String.eqb (GD.firstLayout (project s)) a) eqn:Hf;
    cbn [project Session.setProject Session.setDirty Session.setLastModifiedAt].
  - apply firstLayoutValid_setFirstLayout.
    unfold GD.hasLayoutNamed. cbn.
    apply existsb_update_first_hit; [|exact Ha].
    intros x. unfold GD.layout_named. cbn. apply String.eqb_refl.
  - apply String.eqb_neq in Hf.
    apply (firstLayoutValid_setLayouts (project s)); [exact Hv|].
    intros H. apply existsb_update_first_miss; [|exact H].
    intros x Hx. apply (layout_named_other a (GD.firstLayout (project s)));
      [congruence | exact Hx].
Qed.

End FirstLayout.

(** *** A small invariant logic for handlers *)

Section Preservation.

Context {St : Type} (I : St -> Prop).

(** [m] leaves a state satisfying [I], whether it returns or throws. *)
Definition preserves {A} (m : M St A) : Prop :=
  forall st, I st -> I (snd (m st)).

Lemma preserves_ret {A} (a : A) : preserves (ret a).
Proof. intros st H. exact H. Qed.

Lemma preserves_throw {A} (e : Exn) : preserves (@throw St A e).
Proof. intros st H. exact H. Qed.

Lemma preserves_gets {A} (f : St -> A) : preserves (gets f).
Proof. intros st H. exact H. Qed.

Lemma preserves_bind {A B} (m : M St A) (k : A -> M St B) :
  preserves m -> (forall a, preserves (k a)) -> preserves (bind m k).
Proof.
  intros Hm Hk st H. unfold bind. specialize (Hm st H).
  destruct (m st) as [[a|e] st']; cbn in *; [apply Hk|]; exact Hm.
Qed.

Lemma preserves_when (b : bool) (m : M St unit) :
  preserves m -> preserves (when_ b m).
Proof. destruct b; [auto | intros _; apply preserves_ret]. Qed.

End Preservation.

Definition firstLayoutHolds (st : SessionState) : Prop :=
  firstLayoutValid (project (snd st)) = true.

Lemma preserves_updateProject (f : GD.Project -> GD.Project) :
  (forall p, firstLayoutValid p = true -> firstLayoutValid (f p) = true) ->
  preserves firstLayoutHolds (Session.updateProject f).
Proof. intros Hf [w s] H. apply Hf. exact H. Qed.

Lemma preserves_markDirty : preserves firstLayoutHolds Session.markDirty.
Proof. intros [w s] H. exact H. Qed.

Lemma preserves_apply_setting {V} (v : option V)
  (setter : V -> GD.Project -> GD.Project) (label : string)
  (updated : list string) :
  (forall x p, firstLayoutValid (setter x p) = firstLayoutValid p) ->
  preserves firstLayoutHolds
    (ProjectTools.apply_setting v setter label updated).
Proof.
  intros Hs. unfold ProjectTools.apply_setting. destruct v as [x|].
  - apply preserves_bind; [|intros; apply preserves_ret].
    apply preserves_updateProject. intros p Hp. rewrite Hs. exact Hp.
  - apply preserves_ret.
Qed.

(** A settings update keeps the first-scene identifier valid: it sets it
    only to the name of an existing scene. *)
Lemma project_settings_keeps_first (settings : ProjectTools.Settings) :
  preserves firstLayoutHolds (ProjectTools.gdevelop_project_settings settings).
Proof.
  unfold ProjectTools.gdevelop_project_settings.
  repeat (apply preserves_bind;
          [apply preserves_apply_setting; reflexivity | intros ?]).
  apply preserves_bind.
  - destruct (ProjectTools.set_firstLayout settings) as [n|];
      [|apply preserves_ret].
    intros [w s] H. unfold Session.hasLayout. step_monad.
    destruct (GD.hasLayoutNamed n (project s)) eqn:Hn; [|exact H].
    apply firstLayoutValid_setFirstLayout. exact Hn.
  - intros u. apply preserves_bind; [|intros; apply preserves_ret].
    apply preserves_when, preserves_markDirty.
Qed.

(** Every mutation other than the deletion of the first scene keeps the
    first-scene identifier valid. *)
Lemma call_keeps_first (t : Z) (m : Mutation) (st : SessionState) :
  firstLayoutHolds st ->
  deletesFirstScene m (project (snd st)) = false ->
  firstLayoutHolds (call t m st).
Proof.
  destruct st as [w s]. unfold firstLayoutHolds, call, perform.
  cbn [fst snd]. intros Hv Hd.
  destruct m as [n position color setAsFirst | n | a b | settings].
  - pose proof (scene_create_keeps_first (setNow t w) s n position color
                  setAsFirst Hv) as H.
    unfold bind.
    destruct (SceneTools.gdevelop_scene_create _ _ _ _ _) as [[x|e] st'];
      exact H.
  - pose proof (scene_delete_keeps_first (setNow t w) s n Hv Hd) as H.
    unfold bind.
    destruct (SceneTools.gdevelop_scene_delete _ _) as [[x|e] st']; exact H.
  - pose proof (scene_rename_keeps_first (setNow t w) s a b Hv) as H.
    unfold bind.
    destruct (SceneTools.gdevelop_scene_rename _ _ _) as [[x|e] st']; exact H.
  - pose proof (project_settings_keeps_first settings (setNow t w, s) Hv) as H.
    unfold bind.
    destruct (ProjectTools.gdevelop_project_settings _ _) as [[x|e] st'];
      exact H.
Qed.

(** C2, as the code has it. Along every sequence of scene creations,
    deletions, renamings and settings updates in which no call deletes
    the scene currently named by the first-scene identifier, every
    observable state satisfies the invariant: the identifier is empty or
    names a scene of the document. *)
Theorem first_scene_valid_unless_deleted :
  forall (calls : list (Z * Mutation)) (st : SessionState),
    firstLayoutValid (project (snd st)) = true ->
    sparesFirstScene calls st = true ->
    Forall (fun st' => firstLayoutValid (project (snd st')) = true)
           (observable calls st).
Proof.
  induction calls as [|[t m] rest IH]; intros st Hv Hs; cbn.
  - constructor; [exact Hv | constructor].
  - cbn in Hs. apply andb_true_iff in Hs as [Hd Hrest].
    apply negb_true_iff in Hd.
    constructor; [exact Hv|].
    apply IH; [|exact Hrest].
    apply call_keeps_first; assumption.
Qed.

(** The theorem at a sequence that creates a scene and makes it first,
    renames the first scene, updates the settings and deletes a scene
    that is not the first one. *)
Lemma first_scene_valid_unless_deleted_witness :
  let calls :=
    [ (1, SceneCreate "Shop" (Some 0) (Some "#ff8000") true);
      (2, SceneRename "Shop" "Store");
      (3, ProjectSettings
            (ProjectTools.mkSettings (Some "Quest") None None None None
               (Some 1024) None None None (Some "Level")));
      (4, SceneDelete "Menu") ] in
  let st := (Examples.world, Examples.session) in
  firstLayoutValid (project (snd st)) = true
  /\ sparesFirstScene calls st = true
  /\ Forall (fun st' => firstLayoutValid (project (snd st')) = true)
            (observable calls st).
Proof.
  split; [reflexivity|]. split; [reflexivity|].
  apply first_scene_valid_unless_deleted; reflexivity.
Defined.

(** C2 as stated fails: deleting the scene that is the first scene
    succeeds and leaves the first-scene identifier naming a scene that no
    longer exists. *)
Lemma first_scene_dangles_after_delete :
  let st := (Examples.world, Examples.session) in
  let r := SceneTools.gdevelop_scene_delete "Menu" st in
  firstLayoutValid (project (snd st)) = true
  /\ fst r = Ok "Menu"
  /\ GD.firstLayout (project (snd (snd r))) = "Menu"
  /\ GD.hasLayoutNamed "Menu" (project (snd (snd r))) = false
  /\ firstLayoutValid (project (snd (snd r))) = false.
Proof. repeat split. Qed.

(** C9. Renaming a scene to the name it already has fails with the
    duplicate-name error, and the session (the document included) and
    the world are left as they were. *)
Theorem rename_scene_to_itself_fails :
  forall (w : World) (s : ProjectSession) (n : string),
    GD.hasLayoutNamed n (project s) = true ->
    SceneTools.gdevelop_scene_rename n n (w, s) =
      (Err (JsError ("Layout " +:+ Js.quoted n +:+ " already exists")), (w, s))
    /\ Session.renameLayout n n (w, s) =
      (Err (JsError ("Layout " +:+ Js.quoted n +:+ " already exists")), (w, s)).
Proof.
  intros w s n Hn.
  unfold SceneTools.gdevelop_scene_rename, Session.renameLayout.
  step_monad. rewrite !Hn. step_monad. split; reflexivity.
Qed.

Lemma rename_scene_to_itself_fails_witness :
  GD.hasLayoutNamed "Menu" (project Examples.session) = true
  /\ SceneTools.gdevelop_scene_rename "Menu" "Menu"
       (Examples.world, Examples.session) =
     (Err (JsError ("Layout " +:+ Js.quoted "Menu" +:+ " already exists")),
      (Examples.world, Examples.session)).
Proof.
  split; [reflexivity|].
  apply (rename_scene_to_itself_fails Examples.world Examples.session "Menu").
  reflexivity.
Defined.

(* ===================================================================== *)
(** ** Closing all sessions *)
(* ===================================================================== *)

(** Closing with [save] makes the session's save fail: the session is
    dirty and its file does not accept the write. *)
Definition saveFails (save : bool) (w : World) (s : ProjectSession) : bool :=
  save && dirty s && negb (w_writable w (saveLocation (projectPath s))).

(** Position, in registry order, of the first session whose save fails. *)
Fixpoint firstFailing (save : bool) (w : World) (reg : Registry) : option nat :=
  match reg with
  | [] => None
  | (_, s) :: rest =>
      if saveFails save w s then Some 0%nat
      else S <$> firstFailing save w rest
  end.

(** The world after a session was closed without a failure. *)
Definition closedWorld (save : bool) (w : World) (s : ProjectSession) : World :=
  addReleased (id s)
    (if save && dirty s
     then setFiles (<[saveLocation (projectPath s) := project s]> (w_files w)) w
     else w).

(** The sessions the loop closes: all of them when no save fails, and
    otherwise those before the first session whose save fails. *)
Definition closedSessions (save : bool) (w : World) (reg : Registry)
  : Registry :=
  match firstFailing save w reg with
  | None => reg
  | Some k => take k reg
  end.

(** The world after the sessions [closed] were closed one after the
    other. *)
Definition closedAll (save : bool) (closed : Registry) (w : World) : World :=
  fold_left (fun w e => closedWorld save w (snd e)) closed w.

(** What closing one session does to the files: with [save], the document
    of a dirty session is written at its save location. *)
Definition savedFile (save : bool) (files : gmap string GD.Project)
  (e : string * ProjectSession) : gmap string GD.Project :=
  if save && dirty (snd e)
  then <[saveLocation (projectPath (snd e)) := project (snd e)]> files
  else files.

Section ClosingSessions.

Variable save : bool.

Lemma closeSession_head (w : World) (k : string) (s : ProjectSession)
  (rest : Registry) :
  ProjectManager.closeSession k save (w, (k, s) :: rest) =
    if saveFails save w s
    then (Err (IOFailure (saveLocation (projectPath s))), (w, (k, s) :: rest))
    else (Ok true, (closedWorld save w s, rest)).
Proof.
  unfold ProjectManager.closeSession, ProjectManager.withSession,
    ProjectManager.map_get, ProjectManager.map_delete, saveFails, closedWorld,
    Session.isDirty, Session.dispose, bind, gets, modify, ret.
  simplify_keys.
  destruct (save && dirty s) eqn:Hsd; simplify_keys.
  - destruct (w_writable w (saveLocation (projectPath s))) eqn:Hw.
    + rewrite (save_ok w s None Hw). simplify_keys. reflexivity.
    + rewrite (save_fail w s None Hw). reflexivity.
  - reflexivity.
Qed.

Lemma firstFailing_closedWorld (w : World) (s : ProjectSession)
  (reg : Registry) :
  firstFailing save (closedWorld save w s) reg = firstFailing save w reg.
Proof.
  induction reg as [|[k s'] rest IH]; cbn [firstFailing]; [reflexivity|].
  rewrite IH.
  replace (saveFails save (closedWorld save w s) s') with (saveFails save w s');
    [reflexivity|].
  unfold saveFails, closedWorld. destruct (save && dirty s); reflexivity.
Qed.

(** The loop of [closeAllSessions] over the registry it started with. *)
Lemma closing_loop (reg : Registry) (w : World) :
  let '(r, (w', reg')) :=
    for_each (ProjectManager.map_keys reg)
      (fun sessionId =>
         let! _ := ProjectManager.closeSession sessionId save in ret tt)
      (w, reg) in
  match firstFailing save w reg with
  | None =>
      r = Ok tt /\ reg' = []
      /\ w_released w' = w_released w ++ map (fun e => id (snd e)) reg
  | Some k =>
      (exists e, reg !! k = Some e
                 /\ r = Err (IOFailure (saveLocation (projectPath (snd e)))))
      /\ reg' = drop k reg
  end.
Proof.
  revert w. induction reg as [|[k s] rest IH]; intros w.
  - cbn. rewrite app_nil_r. auto.
  - cbn [ProjectManager.map_keys map fst for_each firstFailing].
    unfold bind at 1. unfold bind at 1.
    rewrite closeSession_head.
    destruct (saveFails save w s) eqn:Hf.
    + split; [|reflexivity]. exists (k, s). split; reflexivity.
    + cbv beta iota delta [ret].
      specialize (IH (closedWorld save w s)).
      rewrite firstFailing_closedWorld in IH.
      change (map fst rest) with (ProjectManager.map_keys rest).
      destruct (for_each _ _ _) as [r [w' reg']].
      destruct (firstFailing save w rest) as [n|]; cbn [fmap option_fmap option_map].
      * exact IH.
      * destruct IH as (Hr & Hreg & Hrel). repeat split; [exact Hr | exact Hreg |].
        rewrite Hrel. unfold closedWorld. cbn.
        destruct (save && dirty s); cbn; rewrite <- app_assoc; reflexivity.
Qed.

(** The world the loop leaves: the one after closing the sessions before
    the first failure, whatever the loop returned. *)
Lemma closing_loop_world (reg : Registry) (w : World) :
  fst (snd (for_each (ProjectManager.map_keys reg)
              (fun sessionId =>
                 let! _ := ProjectManager.closeSession sessionId save in ret tt)
              (w, reg)))
  = closedAll save (closedSessions save w reg) w.
Proof.
  revert w. induction reg as [|[k s] rest IH]; intros w.
  - reflexivity.
  - unfold closedSessions.
    cbn [ProjectManager.map_keys map fst for_each firstFailing].
    unfold bind at 1. unfold bind at 1.
    rewrite closeSession_head.
    destruct (saveFails save w s) eqn:Hf.
    + reflexivity.
    + cbv beta iota delta [ret].
      specialize (IH (closedWorld save w s)). unfold closedSessions in IH.
      rewrite firstFailing_closedWorld in IH.
      change (map fst rest) with (ProjectManager.map_keys rest).
      destruct (for_each _ _ _) as [r [w' reg']]. cbn [fst snd] in *.
      rewrite IH. destruct (firstFailing save w rest); reflexivity.
Qed.

Lemma closedAll_files (closed : Registry) (w : World) :
  w_files (closedAll save closed w)
  = fold_left (savedFile save) closed (w_files w).
Proof.
  revert w. induction closed as [|e closed IH]; intros w; [reflexivity|].
  change (closedAll save (e :: closed) w)
    with (closedAll save closed (closedWorld save w (snd e))).
  rewrite IH. cbn [fold_left]. f_equal. unfold closedWorld, savedFile.
  destruct (save && dirty (snd e)); reflexivity.
Qed.

Lemma closedAll_released (closed : Registry) (w : World) :
  w_released (closedAll save closed w)
  = w_released w ++ map (fun e => id (snd e)) closed.
Proof.
  revert w. induction closed as [|e closed IH]; intros w.
  - cbn. rewrite app_nil_r. reflexivity.
  - change (closedAll save (e :: closed) w)
      with (closedAll save closed (closedWorld save w (snd e))).
    rewrite IH. cbn [map]. unfold closedWorld.
    destruct (save && dirty (snd e)); cbn; rewrite <- app_assoc; reflexivity.
Qed.

(** A location no closed session saves to holds what it held. *)
Lemma savedFiles_elsewhere (closed : Registry)
  (files : gmap string GD.Project) (loc : string) :
  (forall e, In e closed -> save && dirty (snd e) = true ->
             saveLocation (projectPath (snd e)) <> loc) ->
  fold_left (savedFile save) closed files !! loc = files !! loc.
Proof.
  revert files. induction closed as [|e closed IH]; intros files Hother;
    [reflexivity|].
  cbn [fold_left]. rewrite IH by (intros e' Hin; apply Hother; right; exact Hin).
  unfold savedFile. destruct (save && dirty (snd e)) eqn:Hsd; [|reflexivity].
  apply lookup_insert_ne. apply Hother; [left; reflexivity | exact Hsd].
Qed.

(** The location a closed session saved to holds its document, unless a
    session closed later saved to the same location. *)
Lemma savedFiles_here (before after : Registry) (e : string * ProjectSession)
  (files : gmap string GD.Project) :
  save && dirty (snd e) = true ->
  (forall e', In e' after -> save && dirty (snd e') = true ->
              saveLocation (projectPath (snd e'))
              <> saveLocation (projectPath (snd e))) ->
  fold_left (savedFile save) (before ++ e :: after) files
    !! saveLocation (projectPath (snd e))
  = Some (project (snd e)).
Proof.
  intros Hsd Hafter. rewrite fold_left_app. cbn [fold_left].
  rewrite savedFiles_elsewhere by exact Hafter.
  unfold savedFile at 1. rewrite Hsd. apply lookup_insert_eq.
Qed.

End ClosingSessions.

(** C1, as the code has it. [closeAllSessions(save)] closes the sessions
    in registry order. When no save fails (always so without [save]) it
    returns, no session remains registered and every session was
    disposed of. When the save of a session fails, the failure is
    raised to the caller and the loop stops there: the sessions before
    it are closed, and it and every session after it remain
    registered. In both cases the registry it started with is the closed
    sessions followed by those still registered, and exactly the closed
    sessions were disposed of, in order. A closed session is saved if
    dirty and [save] is set: its save location then holds its document
    (unless a session closed after it saved to the same location), a
    location no closed dirty session saves to holds what it held, and
    without [save] no file changes. *)
Theorem closeAllSessions_stops_at_first_failure :
  forall (save : bool) (w : World) (reg : Registry),
    let '(r, (w', reg')) := ProjectManager.closeAllSessions save (w, reg) in
    let closed := closedSessions save w reg in
    match firstFailing save w reg with
    | None =>
        r = Ok tt /\ reg' = []
        /\ w_released w' = w_released w ++ map (fun e => id (snd e)) reg
    | Some k =>
        (exists e, reg !! k = Some e
                   /\ r = Err (IOFailure (saveLocation (projectPath (snd e)))))
        /\ reg' = drop k reg
    end
    /\ reg = closed ++ reg'
    /\ w_released w' = w_released w ++ map (fun e => id (snd e)) closed
    /\ w_files w' = fold_left (savedFile save) closed (w_files w)
    /\ (forall before e after,
           closed = before ++ e :: after ->
           save && dirty (snd e) = true ->
           (forall e', In e' after -> save && dirty (snd e') = true ->
                       saveLocation (projectPath (snd e'))
                       <> saveLocation (projectPath (snd e))) ->
           w_files w' !! saveLocation (projectPath (snd e))
           = Some (project (snd e)))
    /\ (forall loc : string,
           (forall e, In e closed -> save && dirty (snd e) = true ->
                      saveLocation (projectPath (snd e)) <> loc) ->
           w_files w' !! loc = w_files w !! loc)
    /\ (save = false -> w_files w' = w_files w).
Proof.
  intros save w reg. unfold ProjectManager.closeAllSessions.
  unfold bind at 1. unfold gets. cbv beta iota. cbn [snd].
  pose proof (closing_loop save reg w) as Hloop.
  pose proof (closing_loop_world save reg w) as Hworld.
  destruct (for_each _ _ _) as [r [w' reg']]. cbn [fst snd] in Hworld.
  cbv zeta. split; [exact Hloop|].
  assert (Hfiles : w_files w'
                   = fold_left (savedFile save) (closedSessions save w reg)
                       (w_files w))
    by (rewrite Hworld; apply closedAll_files).
  split; [|split; [|split; [|split; [|split]]]].
  - unfold closedSessions. destruct (firstFailing save w reg) as [k|].
    + destruct Hloop as [_ ->]. symmetry. apply take_drop.
    + destruct Hloop as (_ & -> & _). symmetry. apply app_nil_r.
  - rewrite Hworld. apply closedAll_released.
  - exact Hfiles.
  - intros before e after Hclosed Hsd Hafter. rewrite Hfiles, Hclosed.
    apply savedFiles_here; assumption.
  - intros loc Hother. rewrite Hfiles.
    apply savedFiles_elsewhere. exact Hother.
  - intros ->. rewrite Hfiles. clear.
    generalize (closedSessions false w reg) as closed.
    induction closed as [|e closed IH]; [reflexivity | exact IH].
Qed.

(** C1 as stated fails: with a session whose file rejects the write,
    [closeAllSessions(true)] raises the failure of that save, and that
    session and the one after it are still registered. *)
Lemma closeAllSessions_aborts_on_save_failure :
  let r := ProjectManager.closeAllSessions true
             (Examples.world, Examples.registry) in
  fst r = Err (IOFailure "/ro/game.json")
  /\ ProjectManager.map_keys (snd (snd r)) = ["s2"; "s3"].
Proof. split; reflexivity. Qed.

(* ===================================================================== *)
(** ** Renaming an object *)
(* ===================================================================== *)

(** What the rename does to one instance: an instance of the renamed
    object now names the new object and is otherwise as it was; any other
    instance is as it was. *)
Definition retargeted (currentName newName : string)
  (before after : GD.InitialInstance) : Prop :=
  if String.eqb (GD.inst_objectName before) currentName
  then GD.inst_objectName after = newName
       /\ GD.inst_x after = GD.inst_x before
       /\ GD.inst_y after = GD.inst_y before
       /\ GD.inst_z after = GD.inst_z before
       /\ GD.inst_angle after = GD.inst_angle before
       /\ GD.inst_zOrder after = GD.inst_zOrder before
       /\ GD.inst_layer after = GD.inst_layer before
       /\ GD.inst_locked after = GD.inst_locked before
       /\ GD.inst_hasCustomSize after = GD.inst_hasCustomSize before
       /\ GD.inst_customWidth after = GD.inst_customWidth before
       /\ GD.inst_customHeight after = GD.inst_customHeight before
       /\ GD.inst_flippedX after = GD.inst_flippedX before
       /\ GD.inst_flippedY after = GD.inst_flippedY before
  else after = before.

(** The same, for every instance of a scene, position by position. *)
Definition sceneRetargeted (currentName newName : string)
  (before after : GD.Layout) : Prop :=
  GD.lay_name after = GD.lay_name before
  /\ Forall2 (retargeted currentName newName)
             (GD.lay_initialInstances before) (GD.lay_initialInstances after).

Section ObjectRename.

Variables currentName newName : string.

Lemma renameInstancesOfObject_retargets (c : GD.InitialInstancesContainer) :
  Forall2 (retargeted currentName newName) c
          (GD.renameInstancesOfObject currentName newName c).
Proof.
  induction c as [|i c IH]; cbn; constructor; [|exact IH].
  unfold retargeted.
  destruct (String.eqb (GD.inst_objectName i) currentName);
    [repeat split | reflexivity].
Qed.

(** The sweep over all scenes, after a change [f] of one scene that
    leaves its name and its instances alone. *)
Lemma sweep_retargets (p : GD.Layout -> bool) (f : GD.Layout -> GD.Layout)
  (ls : list GD.Layout) :
  (forall l, GD.lay_name (f l) = GD.lay_name l) ->
  (forall l, GD.lay_initialInstances (f l) = GD.lay_initialInstances l) ->
  Forall2 (sceneRetargeted currentName newName) ls
    (map (fun l => GD.setInitialInstances
                     (GD.renameInstancesOfObject currentName newName
                        (GD.lay_initialInstances l)) l)
         (GD.update_first p f ls)).
Proof.
  intros Hname Hinst.
  assert (Hone : forall l l', GD.lay_name l' = GD.lay_name l ->
                   GD.lay_initialInstances l' = GD.lay_initialInstances l ->
                   sceneRetargeted currentName newName l
                     (GD.setInitialInstances
                        (GD.renameInstancesOfObject currentName newName
                           (GD.lay_initialInstances l')) l')).
  { intros l l' Hn Hi. split; [exact Hn|]. cbn. rewrite Hi.
    apply renameInstancesOfObject_retargets. }
  induction ls as [|l ls IH]; cbn; [constructor|].
  destruct (p l); cbn; constructor; auto.
  clear IH. induction ls as [|l2 ls IH2]; cbn; constructor; auto.
Qed.

End ObjectRename.

(** C4. When the object [currentName] exists in the addressed container
    and [newName] does not, [gdevelop_object_rename] succeeds, reports
    one sweep per scene, and in every scene of the document every
    instance whose object name was [currentName] now names [newName]
    (nothing else of it changed) while every other instance is
    unchanged. *)
Theorem object_rename_retargets_every_scene :
  forall (w : World) (s : ProjectSession) (currentName newName : string)
         (sceneName : option string) (ref : ObjectTools.ContainerRef)
         (container : GD.ObjectsContainer),
    ObjectTools.resolveContainer sceneName (w, s) = (Ok (ref, container), (w, s)) ->
    GD.hasObjectNamed currentName container = true ->
    GD.hasObjectNamed newName container = false ->
    exists s',
      ObjectTools.gdevelop_object_rename currentName newName sceneName (w, s) =
        (Ok (ObjectTools.mkRenameResponse currentName newName
               (GD.getLayoutsCount (project s))),
         (w, s'))
      /\ Forall2 (sceneRetargeted currentName newName)
                 (GD.layouts (project s)) (GD.layouts (project s')).
Proof.
  intros w s currentName newName sceneName ref container Hres Hcur Hnew.
  unfold ObjectTools.gdevelop_object_rename.
  unfold bind at 1. rewrite Hres. cbv beta iota. rewrite Hcur, Hnew.
  destruct ref as [n|]; unfold ObjectTools.updateContainer; step_monad;
    (eexists; split;
     [ unfold GD.getLayoutsCount; cbn; rewrite ?length_update_first; reflexivity
     | cbn ]).
  - apply sweep_retargets; reflexivity.
  - rewrite <- (update_first_none (fun l => l) (GD.layouts (project s))) at 2.
    apply sweep_retargets; reflexivity.
Qed.

(** Renaming [Hero], an object of the scene [Menu], to [Knight]: the two
    instances of [Hero], one in each scene, name [Knight] afterwards. *)
Lemma object_rename_retargets_every_scene_witness :
  ObjectTools.resolveContainer (Some "Menu") (Examples.world, Examples.session)
  = (Ok (ObjectTools.InScene "Menu", [Examples.hero]),
     (Examples.world, Examples.session))
  /\ GD.hasObjectNamed "Hero" [Examples.hero] = true
  /\ GD.hasObjectNamed "Knight" [Examples.hero] = false
  /\ exists s',
      ObjectTools.gdevelop_object_rename "Hero" "Knight" (Some "Menu")
        (Examples.world, Examples.session) =
        (Ok (ObjectTools.mkRenameResponse "Hero" "Knight" 2),
         (Examples.world, s'))
      /\ Forall2 (sceneRetargeted "Hero" "Knight")
                 (GD.layouts (project Examples.session))
                 (GD.layouts (project s'))
      /\ map (fun l => map GD.inst_objectName (GD.lay_initialInstances l))
             (GD.layouts (project Examples.session))
         = [["Hero"; "Coin"]; ["Coin"; "Hero"]]
      /\ map (fun l => map GD.inst_objectName (GD.lay_initialInstances l))
             (GD.layouts (project s'))
         = [["Knight"; "Coin"]; ["Coin"; "Knight"]].
Proof.
  split; [reflexivity|]. split; [reflexivity|]. split; [reflexivity|].
  destruct (object_rename_retargets_every_scene Examples.world Examples.session
              "Hero" "Knight" (Some "Menu") (ObjectTools.InScene "Menu")
              [Examples.hero] eq_refl eq_refl eq_refl) as (s' & Hrun & Hall).
  exists s'. split; [exact Hrun|]. split; [exact Hall|].
  split; [reflexivity|].
  replace s' with
    (snd (snd (ObjectTools.gdevelop_object_rename "Hero" "Knight" (Some "Menu")
                 (Examples.world, Examples.session))))
    by (rewrite Hrun; reflexivity).
  reflexivity.
Defined.

(* ===================================================================== *)
(** ** Batch creation of instances *)
(* ===================================================================== *)

Section Batch.

Variables (sceneName : string) (layout : GD.Layout)
          (globals : GD.ObjectsContainer).

(** The object an item names exists in the scene or globally. *)
Definition known (data : InstanceTools.InstanceData) : bool :=
  GD.hasObjectNamed (InstanceTools.d_objectName data) (GD.lay_objects layout)
  || GD.hasObjectNamed (InstanceTools.d_objectName data) globals.

(** The entry an item gets, whatever the other items are. *)
Definition outcome (data : InstanceTools.InstanceData)
  : InstanceTools.BatchResult :=
  if known data
  then InstanceTools.Created (InstanceTools.d_objectName data)
         (InstanceTools.d_x data) (InstanceTools.d_y data)
  else InstanceTools.Failed (InstanceTools.d_objectName data)
         InstanceTools.ObjectNotFound.

Definition place (data : InstanceTools.InstanceData) (p : GD.Project)
  : GD.Project :=
  GD.updateLayout sceneName
    (fun l => GD.setInitialInstances
                (GD.lay_initialInstances l ++ [InstanceTools.buildInstance data])
                l) p.

(** The document after the items were handled in order. *)
Fixpoint placeAll (items : list InstanceTools.InstanceData) (p : GD.Project)
  : GD.Project :=
  match items with
  | [] => p
  | data :: rest => placeAll rest (if known data then place data p else p)
  end.

Lemma setProject_same (s : ProjectSession) : Session.setProject (project s) s = s.
Proof. destruct s; reflexivity. Qed.

Lemma batch_loop_spec (w : World) (items : list InstanceTools.InstanceData) :
  forall (acc : list InstanceTools.BatchResult) (s : ProjectSession),
    GD.objects (project s) = globals ->
    InstanceTools.batch_loop sceneName layout items acc (w, s) =
      (Ok (acc ++ map outcome items),
       (w, Session.setProject (placeAll items (project s)) s)).
Proof.
  induction items as [|data rest IH]; intros acc s Hg.
  - cbn. unfold ret. rewrite app_nil_r, setProject_same. reflexivity.
  - cbn [InstanceTools.batch_loop map placeAll].
    unfold InstanceTools.batch_item, outcome at 1, known. step_monad.
    rewrite Hg.
    destruct (GD.hasObjectNamed (InstanceTools.d_objectName data)
                (GD.lay_objects layout));
      destruct (GD.hasObjectNamed (InstanceTools.d_objectName data) globals);
      cbn [negb andb orb];
      rewrite IH by exact Hg; rewrite <- app_assoc; reflexivity.
Qed.

Lemma placeAll_unknown (items : list InstanceTools.InstanceData) (p : GD.Project) :
  Forall (fun data => known data = false) items -> placeAll items p = p.
Proof.
  induction 1 as [|data rest Hd _ IH]; cbn; [reflexivity|].
  rewrite Hd. exact IH.
Qed.

Lemma getLayout_place data p :
  GD.getLayout sceneName (place data p) =
    (fun l => GD.setInitialInstances
                (GD.lay_initialInstances l ++ [InstanceTools.buildInstance data])
                l) <$> GD.getLayout sceneName p.
Proof. apply getLayout_updateLayout. reflexivity. Qed.

Lemma getLayout_placeAll (items : list InstanceTools.InstanceData) :
  forall (p : GD.Project) (l : GD.Layout),
    GD.getLayout sceneName p = Some l ->
    exists l',
      GD.getLayout sceneName (placeAll items p) = Some l'
      /\ GD.lay_initialInstances l' =
           GD.lay_initialInstances l
           ++ map InstanceTools.buildInstance (List.filter known items).
Proof.
  induction items as [|data rest IH]; intros p l Hl; cbn.
  - exists l. rewrite app_nil_r. auto.
  - destruct (known data); [|apply IH; exact Hl].
    destruct (IH (place data p) _
                ltac:(rewrite getLayout_place, Hl; reflexivity))
      as (l' & Hl' & Hi).
    exists l'. split; [exact Hl'|]. rewrite Hi. cbn.
    rewrite <- app_assoc. reflexivity.
Qed.

Lemma created_count (items : list InstanceTools.InstanceData) :
  length (List.filter InstanceTools.succeeded (map outcome items))
  = length (List.filter known items).
Proof.
  induction items as [|data rest IH]; cbn; [reflexivity|].
  unfold outcome at 1. destruct (known data); cbn; rewrite IH; reflexivity.
Qed.

End Batch.

Lemma batch_run (w : World) (s : ProjectSession) (sceneName : string)
  (layout : GD.Layout) (items : list InstanceTools.InstanceData) :
  GD.getLayout sceneName (project s) = Some layout ->
  InstanceTools.gdevelop_instance_batch sceneName items (w, s) =
    (Ok (InstanceTools.mkBatchResponse
           (map (outcome layout (GD.objects (project s))) items)
           (Z.of_nat
              (length (List.filter (known layout (GD.objects (project s)))
                         items)))),
     (w, Session.setLastModifiedAt (w_now w)
           (Session.setDirty true
              (Session.setProject
                 (placeAll sceneName layout (GD.objects (project s)) items
                    (project s)) s)))).
Proof.
  intros Hl. unfold InstanceTools.gdevelop_instance_batch, Session.getLayout.
  step_monad. rewrite Hl. step_monad.
  rewrite (batch_loop_spec sceneName layout (GD.objects (project s)) w items
             [] s eq_refl).
  cbn [app]. rewrite created_count. reflexivity.
Qed.

(** C5. In a batch every item is handled on its own: the result list has
    one entry per item, in order, a success entry when the object the
    item names exists in the scene or globally and otherwise a failure
    entry carrying the object-not-found error; the scene's instance
    container gains one instance per success entry, and nothing is
    undone because another item failed. In particular, a batch of one
    item naming an existing object and one naming a nonexistent object
    returns one success entry and one such failure entry, and the
    container gains exactly one instance. *)
Theorem batch_items_succeed_or_fail_independently :
  forall (w : World) (s : ProjectSession) (sceneName : string)
         (layout : GD.Layout) (items : list InstanceTools.InstanceData),
    GD.getLayout sceneName (project s) = Some layout ->
    let exists_ := known layout (GD.objects (project s)) in
    let entry := outcome layout (GD.objects (project s)) in
    exists s' layout',
      InstanceTools.gdevelop_instance_batch sceneName items (w, s) =
        (Ok (InstanceTools.mkBatchResponse
               (map entry items)
               (Z.of_nat (length (List.filter exists_ items)))),
         (w, s'))
      /\ GD.getLayout sceneName (project s') = Some layout'
      /\ GD.lay_initialInstances layout' =
           GD.lay_initialInstances layout
           ++ map InstanceTools.buildInstance (List.filter exists_ items)
      /\ (forall a b,
             items = [a; b] -> exists_ a = true -> exists_ b = false ->
             map entry items =
               [ InstanceTools.Created (InstanceTools.d_objectName a)
                   (InstanceTools.d_x a) (InstanceTools.d_y a);
                 InstanceTools.Failed (InstanceTools.d_objectName b)
                   InstanceTools.ObjectNotFound ]
             /\ length (GD.lay_initialInstances layout') =
                  S (length (GD.lay_initialInstances layout))).
Proof.
  intros w s sceneName layout items Hl exists_ entry.
  destruct (getLayout_placeAll sceneName layout (GD.objects (project s))
              items (project s) layout Hl) as (layout' & Hl' & Hi).
  eexists _, layout'. split; [apply batch_run; exact Hl|].
  split; [exact Hl'|]. split; [exact Hi|].
  intros a b -> Ha Hb. subst exists_ entry. split.
  - cbn. unfold outcome. rewrite Ha, Hb. reflexivity.
  - rewrite Hi. cbn. rewrite Ha, Hb. cbn. rewrite length_app. cbn. lia.
Qed.

Lemma batch_items_succeed_or_fail_independently_witness :
  let items :=
    [ InstanceTools.mkInstanceData "Hero" 10 20 None (Some "") None None;
      InstanceTools.mkInstanceData "Ghost" 30 40 None None None None ] in
  GD.getLayout "Menu" (project Examples.session) = Some Examples.menu
  /\ exists s' layout',
      InstanceTools.gdevelop_instance_batch "Menu" items
        (Examples.world, Examples.session) =
        (Ok (InstanceTools.mkBatchResponse
               [ InstanceTools.Created "Hero" 10 20;
                 InstanceTools.Failed "Ghost" InstanceTools.ObjectNotFound ]
               1),
         (Examples.world, s'))
      /\ GD.getLayout "Menu" (project s') = Some layout'
      /\ GD.lay_initialInstances layout' =
           GD.lay_initialInstances Examples.menu
           ++ [InstanceTools.buildInstance
                 (InstanceTools.mkInstanceData "Hero" 10 20 None (Some "")
                    None None)].
Proof.
  intros items. split; [reflexivity|].
  destruct (batch_items_succeed_or_fail_independently
              Examples.world Examples.session "Menu" Examples.menu items
              eq_refl) as (s' & layout' & Hrun & Hl & Hi & _).
  exists s', layout'. split; [exact Hrun|]. split; [exact Hl | exact Hi].
Defined.

(** C10. When no item of a batch names an object that exists in the
    scene or globally, every result entry is a failure, the document
    (so the scene's instance container) is exactly as before, and yet the
    session is marked dirty and its last-modified time is set to the
    time of the call. *)
Theorem failed_batch_still_marks_dirty :
  forall (w : World) (s : ProjectSession) (sceneName : string)
         (layout : GD.Layout) (items : list InstanceTools.InstanceData),
    GD.getLayout sceneName (project s) = Some layout ->
    Forall (fun data =>
              GD.hasObjectNamed (InstanceTools.d_objectName data)
                (GD.lay_objects layout) = false
              /\ GD.hasObjectNamed (InstanceTools.d_objectName data)
                   (GD.objects (project s)) = false) items ->
    exists s',
      InstanceTools.gdevelop_instance_batch sceneName items (w, s) =
        (Ok (InstanceTools.mkBatchResponse
               (map (fun data =>
                       InstanceTools.Failed (InstanceTools.d_objectName data)
                         InstanceTools.ObjectNotFound) items)
               0),
         (w, s'))
      /\ project s' = project s
      /\ dirty s' = true
      /\ lastModifiedAt s' = w_now w
      /\ projectPath s' = projectPath s.
Proof.
  intros w s sceneName layout items Hl Hall.
  assert (Hunknown : Forall (fun data =>
            known layout (GD.objects (project s)) data = false) items).
  { eapply Forall_impl; [exact Hall|]. intros data [H1 H2].
    unfold known. rewrite H1, H2. reflexivity. }
  assert (Hentries :
            map (outcome layout (GD.objects (project s))) items =
            map (fun data =>
                   InstanceTools.Failed (InstanceTools.d_objectName data)
                     InstanceTools.ObjectNotFound) items).
  { apply map_ext_Forall. eapply Forall_impl; [exact Hunknown|].
    intros data Hd. unfold outcome. rewrite Hd. reflexivity. }
  assert (Hnone :
            List.filter (known layout (GD.objects (project s))) items = []).
  { clear Hall Hentries. induction Hunknown as [|data rest Hd _ IH]; cbn;
      [reflexivity|]. rewrite Hd. exact IH. }
  eexists. split.
  - rewrite (batch_run w s sceneName layout items Hl), Hentries, Hnone.
    reflexivity.
  - cbn. rewrite placeAll_unknown by exact Hunknown. auto.
Qed.

Lemma failed_batch_still_marks_dirty_witness :
  let items :=
    [ InstanceTools.mkInstanceData "Ghost" 1 2 None None None None;
      InstanceTools.mkInstanceData "Troll" 3 4 (Some 5) None None (Some 2) ] in
  GD.getLayout "Level" (project Examples.cleanSession) = Some Examples.level
  /\ Forall (fun data =>
               GD.hasObjectNamed (InstanceTools.d_objectName data)
                 (GD.lay_objects Examples.level) = false
               /\ GD.hasObjectNamed (InstanceTools.d_objectName data)
                    (GD.objects (project Examples.cleanSession)) = false)
            items
  /\ exists s',
      InstanceTools.gdevelop_instance_batch "Level" items
        (Examples.world, Examples.cleanSession) =
        (Ok (InstanceTools.mkBatchResponse
               [ InstanceTools.Failed "Ghost" InstanceTools.ObjectNotFound;
                 InstanceTools.Failed "Troll" InstanceTools.ObjectNotFound ]
               0),
         (Examples.world, s'))
      /\ project s' = project Examples.cleanSession
      /\ dirty s' = true
      /\ lastModifiedAt s' = 1000
      /\ projectPath s' = projectPath Examples.cleanSession.
Proof.
  intros items.
  assert (Hall : Forall (fun data =>
               GD.hasObjectNamed (InstanceTools.d_objectName data)
                 (GD.lay_objects Examples.level) = false
               /\ GD.hasObjectNamed (InstanceTools.d_objectName data)
                    (GD.objects (project Examples.cleanSession)) = false)
            items)
    by (repeat constructor).
  split; [reflexivity|]. split; [exact Hall|].
  exact (failed_batch_still_marks_dirty Examples.world Examples.cleanSession
           "Level" Examples.level items eq_refl Hall).
Defined.

(* ===================================================================== *)
(** ** Event positions out of range *)
(* ===================================================================== *)

Lemma getEventAt_out_of_range (l : GD.EventsList) (i : Z) :
  i < 0 \/ GD.getEventsCount l <= i -> GD.getEventAt l i = None.
Proof.
  intros H. unfold GD.getEventAt.
  destruct (0 <=? i) eqn:H0; [|reflexivity].
  destruct (i <? GD.getEventsCount l) eqn:H1; [|reflexivity].
  apply Z.leb_le in H0. apply Z.ltb_lt in H1. lia.
Qed.

(** C8. For an event index outside the addressed list, the delete and
    update handlers throw their own out-of-bounds error before touching
    the list. The condition-add and action-add handlers have no such
    check and go straight to the engine lookup, so they never raise that
    error and they leave the session as it was. Where the engine faults
    on the lookup outside the list, that fault is what the call raises:
    the lookup is the first point of failure. Where the engine answers
    with a wrapper around no event, the call fails at the next step, the
    test for the instruction list, with the handler's own
    [Event does not support ...] error. *)
Theorem instruction_add_skips_bounds_check :
  forall (outside : Z -> GD.Outside) (w : World) (s : ProjectSession)
         (sceneName externalEventsName : option string)
         (ref : EventTools.EventsRef) (eventsList : GD.EventsList)
         (eventIndex : Z) (condition : EventTools.ConditionSpec)
         (action : EventTools.ActionSpec) (position : option Z)
         (disabled folded : option bool),
    EventTools.resolveUnchecked sceneName externalEventsName (w, s) =
      (Ok (ref, eventsList), (w, s)) ->
    eventIndex < 0 \/ GD.getEventsCount eventsList <= eventIndex ->
    let added :=
      EventTools.gdevelop_condition_add outside sceneName externalEventsName
        eventIndex condition position (w, s) in
    let added' :=
      EventTools.gdevelop_action_add outside sceneName externalEventsName
        eventIndex action position (w, s) in
    EventTools.gdevelop_event_delete sceneName externalEventsName eventIndex
      (w, s) = (Err (EventTools.out_of_bounds eventIndex), (w, s))
    /\ EventTools.gdevelop_event_update sceneName externalEventsName eventIndex
         disabled folded (w, s)
       = (Err (EventTools.out_of_bounds eventIndex), (w, s))
    /\ is_ok (fst added) = false
    /\ is_ok (fst added') = false
    /\ fst added <> Err (EventTools.out_of_bounds eventIndex)
    /\ fst added' <> Err (EventTools.out_of_bounds eventIndex)
    /\ snd added = (w, s)
    /\ snd added' = (w, s)
    /\ match outside eventIndex with
       | GD.Faults =>
           GD.lookupEvent outside eventsList eventIndex
           = Err (EngineFault "getEventAt")
           /\ fst added = Err (EngineFault "getEventAt")
           /\ fst added' = Err (EngineFault "getEventAt")
       | GD.NullWrapper =>
           GD.lookupEvent outside eventsList eventIndex = Ok None
           /\ fst added = Err (JsError "Event does not support conditions")
           /\ fst added' = Err (JsError "Event does not support actions")
       end.
Proof.
  intros outside w s sceneName externalEventsName ref eventsList eventIndex
    condition action position disabled folded Hres Hout added added'.
  pose proof (getEventAt_out_of_range eventsList eventIndex Hout) as Hnone.
  assert (Hguard : (eventIndex <? 0)
                   || (GD.getEventsCount eventsList <=? eventIndex) = true).
  { apply orb_true_iff. destruct Hout as [H|H];
      [left; apply Z.ltb_lt | right; apply Z.leb_le]; exact H. }
  subst added added'.
  unfold EventTools.gdevelop_event_delete, EventTools.gdevelop_event_update,
    EventTools.gdevelop_condition_add, EventTools.gdevelop_action_add,
    EventTools.getEventAt, GD.lookupEvent.
  unfold bind. rewrite Hres. cbv beta iota. rewrite Hguard, Hnone.
  unfold EventTools.out_of_bounds.
  destruct (outside eventIndex); cbn;
    repeat split; discriminate.
Qed.

(** The theorem in the scene [Menu], which has no events, for an engine
    that faults on a lookup at a negative position and answers with a
    wrapper around no event past the end: at position -1 the lookup is
    what fails; at position 5 it is the test that follows it. Deleting at
    either position raises the out-of-bounds error. *)
Lemma instruction_add_skips_bounds_check_witness :
  let st := (Examples.world, Examples.session) in
  let outside (i : Z) := if i <? 0 then GD.Faults else GD.NullWrapper in
  let condition :=
    EventTools.mkConditionSpec "KeyPressed" ["Left"] (Some false) in
  let action := EventTools.mkActionSpec "Delete" ["Hero"] in
  EventTools.resolveUnchecked (Some "Menu") None st =
    (Ok (EventTools.SceneEvents "Menu", []), st)
  /\ (-1 < 0 \/ GD.getEventsCount [] <= -1)
  /\ (5 < 0 \/ GD.getEventsCount [] <= 5)
  /\ EventTools.gdevelop_event_delete (Some "Menu") None (-1) st
     = (Err (JsError "Event index -1 out of bounds"), st)
  /\ EventTools.gdevelop_condition_add outside (Some "Menu") None (-1)
       condition None st
     = (Err (EngineFault "getEventAt"), st)
  /\ EventTools.gdevelop_action_add outside (Some "Menu") None (-1)
       action None st
     = (Err (EngineFault "getEventAt"), st)
  /\ EventTools.gdevelop_event_delete (Some "Menu") None 5 st
     = (Err (JsError "Event index 5 out of bounds"), st)
  /\ EventTools.gdevelop_condition_add outside (Some "Menu") None 5
       condition None st
     = (Err (JsError "Event does not support conditions"), st)
  /\ EventTools.gdevelop_action_add outside (Some "Menu") None 5
       action None st
     = (Err (JsError "Event does not support actions"), st).
Proof.
  intros st outside condition action.
  assert (Hbefore : -1 < 0 \/ GD.getEventsCount [] <= -1) by (left; lia).
  assert (Hafter : 5 < 0 \/ GD.getEventsCount [] <= 5)
    by (right; unfold GD.getEventsCount; cbn; lia).
  destruct (instruction_add_skips_bounds_check outside
              Examples.world Examples.session (Some "Menu") None
              (EventTools.SceneEvents "Menu") [] (-1) condition action
              None None None eq_refl Hbefore)
    as (Hdel & _ & _ & _ & _ & _ & Hst & Hst' & _ & Hcond & Hact).
  destruct (instruction_add_skips_bounds_check outside
              Examples.world Examples.session (Some "Menu") None
              (EventTools.SceneEvents "Menu") [] 5 condition action
              None None None eq_refl Hafter)
    as (Hdel5 & _ & _ & _ & _ & _ & Hst5 & Hst5' & _ & Hcond5 & Hact5).
  split; [reflexivity|]. split; [exact Hbefore|]. split; [exact Hafter|].
  split; [exact Hdel|].
  split; [apply injective_projections; [exact Hcond | exact Hst]|].
  split; [apply injective_projections; [exact Hact | exact Hst']|].
  split; [exact Hdel5|].
  split; [apply injective_projections; [exact Hcond5 | exact Hst5]|].
  apply injective_projections; [exact Hact5 | exact Hst5'].
Defined.

(* ===================================================================== *)
(** ** Listing events to a depth *)
(* ===================================================================== *)

(** The nested tree of a node: its sub-events when its variant can have
    any. *)
Definition nestedTree (e : GD.BaseEvent) : GD.EventsList :=
  if GD.ev_canHaveSubEvents e then GD.ev_subEvents e else [].

(** The node reached from a tree by a path of positions: the first
    position selects a node of the tree, the next ones descend into
    nested trees. *)
Fixpoint nodeAt (l : GD.EventsList) (path : list nat) : option GD.BaseEvent :=
  match path with
  | [] => None
  | i :: rest =>
      match rest with
      | [] => l !! i
      | _ :: _ =>
          match l !! i with
          | Some e => nodeAt (nestedTree e) rest
          | None => None
          end
      end
  end.

(** The listing shows an event unless it is disabled and disabled events
    were left out. *)
Definition shown (includeDisabled : bool) (e : GD.BaseEvent) : bool :=
  includeDisabled || negb (GD.ev_disabled e).

(** The node reached by a path all of whose nodes, the last one
    included, are shown. *)
Fixpoint shownAt (includeDisabled : bool) (l : GD.EventsList)
  (path : list nat) : option GD.BaseEvent :=
  match path with
  | [] => None
  | i :: rest =>
      match l !! i with
      | Some e =>
          if shown includeDisabled e then
            match rest with
            | [] => Some e
            | _ :: _ => shownAt includeDisabled (nestedTree e) rest
            end
          else None
      | None => None
      end
  end.

(** Nesting depth of the node a path leads to: 0 for a node of the tree
    itself. *)
Definition depthOf (path : list nat) : Z := Z.of_nat (length path) - 1.

(** The summary of the node at [path]: its index is the dotted path. *)
Fixpoint entryAt (prefix : string) (path : list nat) (e : GD.BaseEvent)
  : EventTools.EventInfo :=
  match path with
  | [] => EventTools.eventInfo prefix 0 e
  | i :: rest =>
      match rest with
      | [] => EventTools.eventInfo prefix (Z.of_nat i) e
      | _ :: _ =>
          entryAt (prefix +:+ Js.show (Z.of_nat i) +:+ ".") rest e
      end
  end.

(** Induction on an event with the hypothesis for all its sub-events. *)
Fixpoint BaseEvent_nested_ind (P : GD.BaseEvent -> Prop)
  (step : forall e, Forall P (GD.ev_subEvents e) -> P e)
  (e : GD.BaseEvent) {struct e} : P e :=
  step e
    (match e return Forall P (GD.ev_subEvents e) with
     | GD.mkEvent _ _ _ _ _ _ subs =>
         (fix all (l : list GD.BaseEvent) : Forall P l :=
            match l with
            | [] => @List.Forall_nil _ P
            | x :: r =>
                @List.Forall_cons _ P x r (BaseEvent_nested_ind P step x)
                                  (all r)
            end) subs
     end).

Section Listing.

Variables (depth : Z) (includeDisabled : bool).

Lemma collectEvent_unfold (currentDepth : Z) (prefix : string) (i : Z)
  (event : GD.BaseEvent) :
  EventTools.collectEvent depth includeDisabled currentDepth prefix i event =
    if negb includeDisabled && GD.ev_disabled event then []
    else
      (if GD.ev_canHaveSubEvents event && GD.hasSubEvents event
       then if currentDepth <? depth
            then EventTools.collectFrom depth includeDisabled
                   (currentDepth + 1) (prefix +:+ Js.show i +:+ ".") 0
                   (GD.ev_subEvents event)
            else []
       else [])
      ++ [EventTools.eventInfo prefix i event].
Proof.
  destruct event as [t d f c a can subs]. cbn [EventTools.collectEvent].
  cbn [GD.ev_disabled GD.ev_canHaveSubEvents GD.ev_subEvents].
  destruct (negb includeDisabled && d); [reflexivity|].
  destruct (can && GD.hasSubEvents _); [|reflexivity].
  destruct (currentDepth <? depth); [|reflexivity].
  f_equal. generalize 0. induction subs as [|e rest IH]; intros j.
  - reflexivity.
  - cbn [EventTools.collectFrom]. rewrite <- IH. reflexivity.
Qed.

(** Whatever the loop pushes for the event at position [i] is in the
    listing of the list from position [j]. *)
Lemma collectFrom_contains (currentDepth : Z) (prefix : string)
  (l : GD.EventsList) :
  forall (j : Z) (i : nat) (e : GD.BaseEvent) (info : EventTools.EventInfo),
    l !! i = Some e ->
    In info (EventTools.collectEvent depth includeDisabled currentDepth prefix
               (j + Z.of_nat i) e) ->
    In info (EventTools.collectFrom depth includeDisabled currentDepth prefix
               j l).
Proof.
  induction l as [|x rest IH]; intros j i e info Hi Hin; [discriminate|].
  cbn [EventTools.collectFrom]. apply in_or_app.
  destruct i as [|i]; cbn in Hi.
  - left. injection Hi as ->. rewrite Z.add_0_r in Hin. exact Hin.
  - right. apply (IH (j + 1) i e info Hi).
    replace (j + 1 + Z.of_nat i) with (j + Z.of_nat (S i)) by lia. exact Hin.
Qed.

(** Conversely, an entry of the listing was pushed for some event of the
    list. *)
Lemma collectFrom_source (currentDepth : Z) (prefix : string)
  (l : GD.EventsList) :
  forall (j : Z) (info : EventTools.EventInfo),
    In info (EventTools.collectFrom depth includeDisabled currentDepth prefix
               j l) ->
    exists (i : nat) (e : GD.BaseEvent),
      l !! i = Some e
      /\ In info (EventTools.collectEvent depth includeDisabled currentDepth
                    prefix (j + Z.of_nat i) e).
Proof.
  induction l as [|x rest IH]; intros j info Hin; [destruct Hin|].
  cbn [EventTools.collectFrom] in Hin. apply in_app_or in Hin as [Hin|Hin].
  - exists 0%nat, x. split; [reflexivity|]. rewrite Z.add_0_r. exact Hin.
  - destruct (IH (j + 1) info Hin) as (i & e & Hi & He).
    exists (S i), e. split; [exact Hi|].
    replace (j + Z.of_nat (S i)) with (j + 1 + Z.of_nat i) by lia. exact He.
Qed.

End Listing.

Lemma depthOf_cons (i : nat) (path : list nat) :
  depthOf (i :: path) = depthOf path + 1.
Proof. unfold depthOf. cbn [length]. lia. Qed.

Lemma depthOf_nonneg (i : nat) (path : list nat) : 0 <= depthOf (i :: path).
Proof. unfold depthOf. cbn [length]. lia. Qed.

(** A non-empty nested tree is one the listing looks into. *)
Lemma nestedTree_descended (e0 : GD.BaseEvent) (i : nat) (e1 : GD.BaseEvent) :
  nestedTree e0 !! i = Some e1 ->
  GD.ev_canHaveSubEvents e0 && GD.hasSubEvents e0 = true
  /\ nestedTree e0 = GD.ev_subEvents e0.
Proof.
  unfold nestedTree, GD.hasSubEvents.
  destruct (GD.ev_canHaveSubEvents e0); [|discriminate].
  destruct (GD.ev_subEvents e0); [discriminate|]. auto.
Qed.

Section ListingToDepth.

Variables (depth : Z) (includeDisabled : bool).

Lemma skipped_iff_not_shown (e : GD.BaseEvent) :
  negb includeDisabled && GD.ev_disabled e = negb (shown includeDisabled e).
Proof.
  unfold shown. destruct includeDisabled, (GD.ev_disabled e); reflexivity.
Qed.

(** Every shown node within the depth limit is listed. *)
Lemma listing_complete (path : list nat) :
  forall (l : GD.EventsList) (currentDepth : Z) (prefix : string)
         (e : GD.BaseEvent),
    shownAt includeDisabled l path = Some e ->
    currentDepth + depthOf path <= depth ->
    In (entryAt prefix path e)
       (EventTools.collectFrom depth includeDisabled currentDepth prefix 0 l).
Proof.
  induction path as [|i rest IH]; intros l cd prefix e Hnode Hdepth;
    [discriminate|].
  cbn [shownAt] in Hnode. destruct (l !! i) as [e0|] eqn:Hi; [|discriminate].
  destruct (shown includeDisabled e0) eqn:Hshown; [|discriminate].
  apply (collectFrom_contains depth includeDisabled cd prefix l 0 i e0);
    [exact Hi|].
  rewrite collectEvent_unfold, skipped_iff_not_shown, Hshown. cbn [negb].
  apply in_or_app. destruct rest as [|i2 r2].
  - right. injection Hnode as ->. left. reflexivity.
  - left.
    assert (Hsub : exists e1, nestedTree e0 !! i2 = Some e1).
    { cbn [shownAt] in Hnode.
      destruct (nestedTree e0 !! i2); [eauto | discriminate]. }
    destruct Hsub as [e1 He1].
    destruct (nestedTree_descended e0 i2 e1 He1) as [Hcan Htree].
    rewrite Hcan. rewrite Htree in Hnode.
    rewrite depthOf_cons in Hdepth.
    pose proof (depthOf_nonneg i2 r2) as Hnn.
    replace (cd <? depth) with true by (symmetry; apply Z.ltb_lt; lia).
    cbn [entryAt]. rewrite Z.add_0_l.
    apply IH; [exact Hnode | lia].
Qed.

(** An entry pushed for an event is its own summary, or the summary of a
    shown node of its nested tree that lies within the depth limit; in
    both cases the event itself is shown. *)
Lemma collectEvent_sound (e0 : GD.BaseEvent) :
  forall (currentDepth : Z) (prefix : string) (k : Z)
         (info : EventTools.EventInfo),
    In info (EventTools.collectEvent depth includeDisabled currentDepth
               prefix k e0) ->
    shown includeDisabled e0 = true
    /\ (info = EventTools.eventInfo prefix k e0
        \/ exists (i : nat) (rest : list nat) (e : GD.BaseEvent),
            shownAt includeDisabled (nestedTree e0) (i :: rest) = Some e
            /\ info = entryAt (prefix +:+ Js.show k +:+ ".") (i :: rest) e
            /\ currentDepth + 1 + depthOf (i :: rest) <= depth).
Proof.
  induction e0 as [e0 IHsubs] using BaseEvent_nested_ind.
  intros cd prefix k info Hin.
  rewrite collectEvent_unfold, skipped_iff_not_shown in Hin.
  destruct (shown includeDisabled e0) eqn:Hshown; [|destruct Hin].
  split; [reflexivity|]. cbn [negb] in Hin.
  apply in_app_or in Hin as [Hin|Hin].
  - right.
    destruct (GD.ev_canHaveSubEvents e0 && GD.hasSubEvents e0) eqn:Hcan;
      [|destruct Hin].
    destruct (cd <? depth) eqn:Hlt; [|destruct Hin]. apply Z.ltb_lt in Hlt.
    apply collectFrom_source in Hin as (i & e1 & Hi & Hin).
    rewrite Z.add_0_l in Hin.
    assert (Htree : nestedTree e0 = GD.ev_subEvents e0).
    { unfold nestedTree. apply andb_true_iff in Hcan as [-> _]. reflexivity. }
    pose proof (proj1 (Forall_lookup _ _) IHsubs i e1 Hi) as IH1.
    destruct (IH1 _ _ _ _ Hin)
      as [Hshown1 [Hown | (i2 & r2 & e & Hnode & Hinfo & Hd)]].
    + exists i, [], e1. rewrite Htree. cbn [shownAt]. rewrite Hi, Hshown1.
      split; [reflexivity|].
      split; [exact Hown|]. unfold depthOf. cbn [length]. lia.
    + exists i, (i2 :: r2), e. rewrite Htree. cbn [shownAt].
      rewrite Hi, Hshown1.
      split; [exact Hnode|]. split; [exact Hinfo|].
      rewrite (depthOf_cons i). lia.
  - left. destruct Hin as [Hin|[]]. symmetry. exact Hin.
Qed.

(** Every entry of a listing is the summary of a shown node of the tree
    within the depth limit (the nodes of the tree itself are listed
    whatever the limit). *)
Lemma listing_sound (l : GD.EventsList) (info : EventTools.EventInfo) :
  In info (EventTools.collectEvents depth includeDisabled l 0 EmptyString) ->
  exists (path : list nat) (e : GD.BaseEvent),
    shownAt includeDisabled l path = Some e
    /\ info = entryAt EmptyString path e
    /\ depthOf path <= Z.max depth 0.
Proof.
  unfold EventTools.collectEvents. intros Hin.
  apply collectFrom_source in Hin as (i & e0 & Hi & Hin).
  rewrite Z.add_0_l in Hin.
  destruct (collectEvent_sound e0 _ _ _ _ Hin)
    as [Hshown [Hown | (i2 & r2 & e & Hnode & Hinfo & Hd)]].
  - exists [i], e0. cbn [shownAt]. rewrite Hi, Hshown.
    split; [reflexivity|]. split; [exact Hown|].
    unfold depthOf. cbn [length]. lia.
  - exists (i :: i2 :: r2), e. cbn [shownAt]. rewrite Hi, Hshown.
    split; [exact Hnode|]. split; [exact Hinfo|].
    rewrite (depthOf_cons i). lia.
Qed.

End ListingToDepth.

(** With disabled events included every node is shown. *)
Lemma shownAt_all (path : list nat) :
  forall l : GD.EventsList, shownAt true l path = nodeAt l path.
Proof.
  induction path as [|i rest IH]; intros l; [reflexivity|].
  cbn [shownAt nodeAt shown orb].
  destruct rest as [|i2 r2]; destruct (l !! i) as [e|]; try reflexivity.
  apply IH.
Qed.

(** A shown node is a node of the tree. *)
Lemma shownAt_nodeAt (includeDisabled : bool) (path : list nat) :
  forall (l : GD.EventsList) (e : GD.BaseEvent),
    shownAt includeDisabled l path = Some e -> nodeAt l path = Some e.
Proof.
  induction path as [|i rest IH]; intros l e H; [discriminate|].
  cbn [shownAt nodeAt] in *.
  destruct (l !! i) as [e0|]; [|discriminate].
  destruct (shown includeDisabled e0); [|discriminate].
  destruct rest as [|i2 r2]; [exact H | apply IH; exact H].
Qed.

(** What a summary reports of its node: the wrapper of an event has no
    [getConditions] and no [getActions], so neither count is set. *)
Lemma entryAt_reports (prefix : string) (i : nat) (rest : list nat)
  (e : GD.BaseEvent) :
  let info := entryAt prefix (i :: rest) e in
  EventTools.type info = GD.ev_type e
  /\ EventTools.disabled info = GD.ev_disabled e
  /\ EventTools.folded info = GD.ev_folded e
  /\ EventTools.conditionCount info = None
  /\ EventTools.actionCount info = None
  /\ EventTools.subEventCount info = GD.getEventsCount (nestedTree e).
Proof.
  revert prefix i. induction rest as [|i2 r2 IH]; intros prefix i.
  - cbn. repeat split. unfold nestedTree, GD.hasSubEvents.
    destruct (GD.ev_canHaveSubEvents e); [|reflexivity].
    destruct (GD.ev_subEvents e); reflexivity.
  - cbn [entryAt]. apply IH.
Qed.

(** *** Listing after an insertion *)

Lemma length_insert_at {A} (pos : Z) (a : A) (l : list A) :
  length (GD.insert_at pos a l) = S (length l).
Proof.
  unfold GD.insert_at. destruct (Js.to_uint32 pos <? Z.of_nat (length l)).
  - rewrite <- (take_drop (Z.to_nat (Js.to_uint32 pos)) l) at 3.
    rewrite !length_app. cbn [length]. lia.
  - rewrite length_app. cbn [length]. lia.
Qed.

(** X17. Listing events with depth limit [depth]. With disabled events
    included (the default), every node whose nesting depth is at most
    [depth] has its summary in the listing. Whatever the flag, every
    shown node within the limit is listed (a node is shown when no node
    on the way to it, itself included, is a disabled event that the flag
    leaves out), and every entry of a listing is the summary of a shown
    node at depth at most [depth] (at most 0 for a negative limit): the
    nested tree of a node at depth [depth] is never descended into. A
    summary reports its node's type, flags and the size of its nested
    tree, and neither of the two instruction counts. *)
Theorem event_listing_is_depth_limited :
  (forall (depth : Z) (l : GD.EventsList) (path : list nat) (e : GD.BaseEvent),
      nodeAt l path = Some e ->
      depthOf path <= depth ->
      In (entryAt EmptyString path e)
         (EventTools.collectEvents depth true l 0 EmptyString))
  /\ (forall (depth : Z) (includeDisabled : bool) (l : GD.EventsList)
             (path : list nat) (e : GD.BaseEvent),
         shownAt includeDisabled l path = Some e ->
         depthOf path <= depth ->
         In (entryAt EmptyString path e)
            (EventTools.collectEvents depth includeDisabled l 0 EmptyString))
  /\ (forall (depth : Z) (includeDisabled : bool) (l : GD.EventsList)
             (info : EventTools.EventInfo),
         In info (EventTools.collectEvents depth includeDisabled l 0 EmptyString) ->
         exists (path : list nat) (e : GD.BaseEvent),
           shownAt includeDisabled l path = Some e
           /\ nodeAt l path = Some e
           /\ info = entryAt EmptyString path e
           /\ depthOf path <= Z.max depth 0)
  /\ (forall (prefix : string) (i : nat) (rest : list nat) (e : GD.BaseEvent),
         let info := entryAt prefix (i :: rest) e in
         EventTools.type info = GD.ev_type e
         /\ EventTools.disabled info = GD.ev_disabled e
         /\ EventTools.folded info = GD.ev_folded e
         /\ EventTools.conditionCount info = None
         /\ EventTools.actionCount info = None
         /\ EventTools.subEventCount info = GD.getEventsCount (nestedTree e)).
Proof.
  split; [|split; [|split]].
  - intros depth l path e Hnode Hdepth. unfold EventTools.collectEvents.
    apply listing_complete; [rewrite shownAt_all; exact Hnode | lia].
  - intros depth includeDisabled l path e Hnode Hdepth.
    unfold EventTools.collectEvents.
    apply listing_complete; [exact Hnode | lia].
  - intros depth includeDisabled l info Hin.
    destruct (listing_sound depth includeDisabled l info Hin)
      as (path & e & Hshown & Hinfo & Hdepth).
    exists path, e. split; [exact Hshown|].
    split; [exact (shownAt_nodeAt includeDisabled path l e Hshown)|].
    split; [exact Hinfo | exact Hdepth].
  - intros prefix i rest e. apply entryAt_reports.
Qed.

(** The theorem at a group holding one standard event, as a project file
    can have it: listed at depth 1, the inner event has an entry; at
    depth 0 only the group has one, which counts one sub-event. *)
Lemma event_listing_is_depth_limited_witness :
  let inner :=
    GD.mkEvent (EventTools.EVENT_TYPES EventTools.standard) false false
               (Some [GD.setType "KeyPressed" GD.newInstruction])
               (Some [GD.setType "Delete" GD.newInstruction]) true [] in
  let outer :=
    GD.mkEvent (EventTools.EVENT_TYPES EventTools.group) false false None None
               true [inner] in
  nodeAt [outer] [0%nat; 0%nat] = Some inner
  /\ depthOf [0%nat; 0%nat] <= 1
  /\ In (entryAt EmptyString [0%nat; 0%nat] inner)
        (EventTools.collectEvents 1 true [outer] 0 EmptyString)
  /\ EventTools.index (entryAt EmptyString [0%nat; 0%nat] inner) = "0.0"
  /\ EventTools.collectEvents 0 true [outer] 0 EmptyString
     = [entryAt EmptyString [0%nat] outer]
  /\ EventTools.subEventCount (entryAt EmptyString [0%nat] outer) = 1.
Proof.
  intros inner outer.
  destruct event_listing_is_depth_limited as (Hcomplete & _).
  assert (Hdepth : depthOf [0%nat; 0%nat] <= 1) by (unfold depthOf; cbn; lia).
  split; [reflexivity|]. split; [exact Hdepth|].
  split; [exact (Hcomplete 1 [outer] [0%nat; 0%nat] inner eq_refl Hdepth)|].
  split; [reflexivity|]. split; reflexivity.
Defined.

(** C7. The listing never reports a condition or an action count, and a
    standard event cannot be created with conditions or actions. At the
    specification's example, in a clean session whose scene [Menu] has no
    events: creating a standard event with two conditions and one action
    throws, on the call of [getConditions], after the engine inserted its
    empty event and before the session is marked dirty; listing the
    scene at depth 0 then shows that one event, without conditions and
    without either count. Whatever the events list, the depth and the
    flag, no entry of a listing carries a condition count or an action
    count. *)
Theorem event_listing_reports_no_instruction_counts :
  let c1 := EventTools.mkConditionSpec "KeyPressed" ["Left"] None in
  let c2 := EventTools.mkConditionSpec "CollisionNP" ["Hero"; "Coin"]
              (Some true) in
  let a1 := EventTools.mkActionSpec "Delete" ["Coin"] in
  let standardType := EventTools.EVENT_TYPES EventTools.standard in
  let created :=
    EventTools.gdevelop_event_create (Some "Menu") None EventTools.standard
      None (Some [c1; c2]) (Some [a1])
      (Examples.world, Examples.cleanSession) in
  fst created = Err (TypeError "std.getConditions is not a function")
  /\ dirty (snd (snd created)) = false
  /\ GD.lay_events <$> GD.getLayout "Menu" (project (snd (snd created)))
     = Some [EventTools.newEvent EventTools.standard]
  /\ EventTools.gdevelop_event_list (Some "Menu") None 0 true (snd created)
     = (Ok [EventTools.mkEventInfo "0" standardType false false standardType
              None None 0],
        snd created)
  /\ (forall (depth : Z) (includeDisabled : bool) (l : GD.EventsList)
             (info : EventTools.EventInfo),
         In info (EventTools.collectEvents depth includeDisabled l 0 EmptyString) ->
         EventTools.conditionCount info = None
         /\ EventTools.actionCount info = None).
Proof.
  intros c1 c2 a1 standardType created.
  split; [reflexivity|]. split; [reflexivity|]. split; [reflexivity|].
  split; [reflexivity|].
  intros depth includeDisabled l info Hin.
  destruct (listing_sound depth includeDisabled l info Hin)
    as (path & e & Hshown & -> & _).
  destruct path as [|i rest]; [discriminate|].
  destruct (entryAt_reports EmptyString i rest e) as (_ & _ & _ & Hc & Ha & _).
  split; [exact Hc | exact Ha].
Qed.

(* ===================================================================== *)
(** ** The theorems without hypotheses, at concrete inputs *)
(* ===================================================================== *)

(** A save under a new path: the storage then holds the document at that
    path, and the session is clean and carries the path. A save that the
    storage rejects: the session stays dirty and nothing is written. *)
Lemma save_clears_dirty_only_on_success_witness :
  (let run :=
     Session.save (Some "/work/copy.json") (Examples.world, Examples.session) in
   fst run = Ok "/work/copy.json"
   /\ w_files (fst (snd run)) !! "/work/copy.json" = Some Examples.game
   /\ w_files (fst (snd run)) !! "/work/game.json" = None
   /\ dirty (snd (snd run)) = false
   /\ projectPath (snd (snd run)) = "/work/copy.json")
  /\ (let run := Session.save None (Examples.world, Examples.readonlySession) in
      fst run = Err (IOFailure "/ro/game.json")
      /\ w_files (fst (snd run)) !! "/ro/game.json" = None
      /\ dirty (snd (snd run)) = true
      /\ snd run = (Examples.world, Examples.readonlySession)).
Proof.
  split.
  - intros run.
    pose proof (save_clears_dirty_only_on_success
                  Examples.world Examples.session (Some "/work/copy.json"))
      as H.
    cbv zeta in H. fold run in H. destruct run as [r [w' s']].
    destruct H as [_ H].
    change (w_writable Examples.world (saveLocation "/work/copy.json"))
      with true in H.
    change (saveLocation "/work/copy.json") with "/work/copy.json" in H.
    destruct H as (Hr & Hfile & Hframe & _ & Hdirty & Hpath & _).
    cbn [fst snd]. split; [exact Hr|]. split; [exact Hfile|].
    split; [rewrite (Hframe "/work/game.json") by discriminate; reflexivity|].
    split; [exact Hdirty | exact Hpath].
  - intros run.
    pose proof (save_clears_dirty_only_on_success
                  Examples.world Examples.readonlySession None) as H.
    cbv zeta in H. fold run in H. destruct run as [r [w' s']].
    destruct H as [_ H].
    change (w_writable Examples.world (saveLocation "/ro/game.json"))
      with false in H.
    change (saveLocation "/ro/game.json") with "/ro/game.json" in H.
    destruct H as (Hr & -> & ->).
    cbn [fst snd]. split; [exact Hr|]. repeat split.
Defined.

(** A project created in memory has no file on disk yet: the backup
    fails, the warning is the one message of the log, and the save goes
    through: the file holds the document. *)
Lemma backup_failure_does_not_block_save_witness :
  let run :=
    ProjectTools.gdevelop_project_save None true
      (Examples.world, Examples.session) in
  Session.createBackup (Examples.world, Examples.session)
  = (Err (IOFailure "/work/game.json"), (Examples.world, Examples.session))
  /\ fst run = Ok (ProjectTools.mkSaveResponse "/work/game.json" None)
  /\ w_warnings (fst (snd run)) = ["Failed to create backup"]
  /\ w_files (fst (snd run)) !! "/work/game.json" = Some Examples.game
  /\ snd (snd run) = mkSession "s1" Examples.game "/work/game.json" false 10 20.
Proof.
  intros run. split; [reflexivity|].
  destruct (proj1 (backup_failure_does_not_block_save
                     Examples.world Examples.session None)
              (IOFailure "/work/game.json") (Examples.world, Examples.session)
              eq_refl) as [Hrun Hlog].
  fold run in Hrun, Hlog.
  split; [rewrite Hrun; reflexivity|].
  split; [exact Hlog|].
  split; rewrite Hrun; reflexivity.
Defined.

(** Closing with [save] a registry of a clean session, a dirty session
    and a dirty session whose file rejects the write: the failure of the
    last save is raised and that session stays registered; the two
    before it were disposed of, and of them the dirty one was saved. *)
Lemma closeAllSessions_stops_at_first_failure_witness :
  let reg : Registry :=
    [("s3", Examples.cleanSession); ("s1", Examples.session);
     ("s2", Examples.readonlySession)] in
  let run := ProjectManager.closeAllSessions true (Examples.world, reg) in
  fst run = Err (IOFailure "/ro/game.json")
  /\ ProjectManager.map_keys (snd (snd run)) = ["s2"]
  /\ w_released (fst (snd run)) = ["s3"; "s1"]
  /\ w_files (fst (snd run)) !! "/work/game.json" = Some Examples.game
  /\ w_files (fst (snd run)) !! "/work/other.json" = None
  /\ w_files (fst (snd run)) !! "/ro/game.json" = None.
Proof.
  intros reg run.
  pose proof (closeAllSessions_stops_at_first_failure
                true Examples.world reg) as H.
  fold run in H. destruct run as [res [w' reg']]. cbv zeta in H.
  change (firstFailing true Examples.world reg) with (Some 2%nat) in H.
  change (closedSessions true Examples.world reg)
    with [("s3", Examples.cleanSession); ("s1", Examples.session)] in H.
  destruct H as (((e & He & Hres) & Hreg) & _ & Hrel & _ & Hhere & Hother & _).
  cbn [fst snd].
  injection He as <-.
  split; [exact Hres|].
  split; [rewrite Hreg; reflexivity|].
  split; [exact Hrel|].
  split; [|split].
  - apply (Hhere [("s3", Examples.cleanSession)] ("s1", Examples.session) []);
      [reflexivity | reflexivity | intros e' []].
  - rewrite (Hother "/work/other.json"); [reflexivity|].
    intros e [<-|[<-|[]]]; [discriminate | intros _; discriminate].
  - rewrite (Hother "/ro/game.json"); [reflexivity|].
    intros e [<-|[<-|[]]]; [discriminate | intros _; discriminate].
Defined.

(* ===================================================================== *)
(** * Further properties of the session layer *)
(* ===================================================================== *)

(** ** Named containers: uniqueness of names *)

Section UniqueNames.

Context {A : Type} (key : A -> string).

(** The test the engine containers use to find an element by name. *)
Definition keyed (n : string) (a : A) : bool := String.eqb (key a) n.

Lemma existsb_keyed_false (n : string) (l : list A) :
  existsb (keyed n) l = false <-> ~ In n (map key l).
Proof.
  unfold keyed. induction l as [|a l IH]; cbn; [tauto|].
  rewrite orb_false_iff, IH, String.eqb_neq. tauto.
Qed.

Lemma existsb_keyed_true (n : string) (l : list A) :
  existsb (keyed n) l = true <-> In n (map key l).
Proof.
  unfold keyed. induction l as [|a l IH]; cbn; [split; [discriminate|tauto]|].
  rewrite orb_true_iff, IH, String.eqb_eq. tauto.
Qed.

Lemma insert_at_Permutation (pos : Z) (a : A) (l : list A) :
  Permutation (GD.insert_at pos a l) (a :: l).
Proof.
  unfold GD.insert_at. destruct (Js.to_uint32 pos <? Z.of_nat (length l)).
  - rewrite <- (take_drop (Z.to_nat (Js.to_uint32 pos)) l) at 3.
    symmetry. apply Permutation_middle.
  - symmetry. apply Permutation_cons_append.
Qed.

Lemma NoDup_insert_at (pos : Z) (a : A) (l : list A) :
  ~ In (key a) (map key l) ->
  List.NoDup (map key l) ->
  List.NoDup (map key (GD.insert_at pos a l)).
Proof.
  intros Hnew Hl.
  apply (Permutation_NoDup (l := map key (a :: l))).
  - apply Permutation_map. symmetry. apply insert_at_Permutation.
  - cbn. apply List.NoDup_cons; assumption.
Qed.

Lemma In_remove_first (p : A -> bool) (x : string) (l : list A) :
  In x (map key (GD.remove_first p l)) -> In x (map key l).
Proof.
  induction l as [|a l IH]; cbn; [tauto|].
  destruct (p a); cbn; tauto.
Qed.

Lemma NoDup_remove_first (p : A -> bool) (l : list A) :
  List.NoDup (map key l) -> List.NoDup (map key (GD.remove_first p l)).
Proof.
  induction l as [|a l IH]; cbn; [auto|].
  intros H. apply List.NoDup_cons_iff in H as [Ha Hl].
  destruct (p a); cbn; [exact Hl|].
  apply List.NoDup_cons; [|auto].
  intros Hin. apply Ha. eapply In_remove_first. exact Hin.
Qed.

Lemma map_key_update_first_keep (p : A -> bool) (f : A -> A) (l : list A) :
  (forall a, key (f a) = key a) ->
  map key (GD.update_first p f l) = map key l.
Proof.
  intros Hf. induction l as [|a l IH]; cbn; [reflexivity|].
  destruct (p a); cbn; [rewrite Hf | rewrite IH]; reflexivity.
Qed.

Lemma In_update_first_rename (p : A -> bool) (f : A -> A) (new x : string)
  (l : list A) :
  (forall a, key (f a) = new) ->
  In x (map key (GD.update_first p f l)) -> x = new \/ In x (map key l).
Proof.
  intros Hf. induction l as [|a l IH]; cbn; [tauto|].
  destruct (p a); cbn; [rewrite Hf|]; intuition auto.
Qed.

Lemma NoDup_update_first_rename (p : A -> bool) (f : A -> A) (new : string)
  (l : list A) :
  (forall a, key (f a) = new) ->
  ~ In new (map key l) ->
  List.NoDup (map key l) ->
  List.NoDup (map key (GD.update_first p f l)).
Proof.
  intros Hf. induction l as [|a l IH]; cbn; [auto|].
  intros Hnew H. apply List.NoDup_cons_iff in H as [Ha Hl].
  destruct (p a); cbn.
  - rewrite Hf. apply List.NoDup_cons; [tauto | exact Hl].
  - apply List.NoDup_cons; [|apply IH; tauto].
    intros Hin. apply (In_update_first_rename p f new) in Hin as [Heq|Hin];
      [tauto | tauto | exact Hf].
Qed.

(** Passing over a prefix in which nothing matches. *)
Lemma remove_first_app_miss (p : A -> bool) (l1 l2 : list A) :
  existsb p l1 = false ->
  GD.remove_first p (l1 ++ l2) = l1 ++ GD.remove_first p l2.
Proof.
  induction l1 as [|a l1 IH]; cbn; [reflexivity|].
  intros H. apply orb_false_iff in H as [-> H]. rewrite IH by exact H.
  reflexivity.
Qed.

Lemma update_first_app_miss (p : A -> bool) (f : A -> A) (l1 l2 : list A) :
  existsb p l1 = false ->
  GD.update_first p f (l1 ++ l2) = l1 ++ GD.update_first p f l2.
Proof.
  induction l1 as [|a l1 IH]; cbn; [reflexivity|].
  intros H. apply orb_false_iff in H as [-> H]. rewrite IH by exact H.
  reflexivity.
Qed.

Lemma existsb_take_drop (p : A -> bool) (k : nat) (l : list A) :
  existsb p l = false ->
  existsb p (take k l) = false /\ existsb p (drop k l) = false.
Proof.
  intros H. rewrite <- (take_drop k l), existsb_app in H.
  apply orb_false_iff in H. exact H.
Qed.

(** Removing the element just inserted gives the container back, when no
    other element matches; a change [f] made to it in between does not
    matter as long as it still matches. *)
Lemma remove_first_update_insert_at (p : A -> bool) (f : A -> A) (pos : Z)
  (a : A) (l : list A) :
  existsb p l = false -> p a = true -> p (f a) = true ->
  GD.remove_first p (GD.update_first p f (GD.insert_at pos a l)) = l.
Proof.
  intros Hl Ha Hfa. unfold GD.insert_at.
  destruct (Js.to_uint32 pos <? Z.of_nat (length l)).
  - destruct (existsb_take_drop p (Z.to_nat (Js.to_uint32 pos)) l Hl)
      as [Ht Hd].
    rewrite update_first_app_miss by exact Ht. cbn. rewrite Ha.
    rewrite remove_first_app_miss by exact Ht. cbn. rewrite Hfa.
    apply take_drop.
  - rewrite update_first_app_miss by exact Hl. cbn. rewrite Ha.
    rewrite remove_first_app_miss by exact Hl. cbn. rewrite Hfa.
    apply app_nil_r.
Qed.

Lemma remove_first_insert_at (p : A -> bool) (pos : Z) (a : A) (l : list A) :
  existsb p l = false -> p a = true ->
  GD.remove_first p (GD.insert_at pos a l) = l.
Proof.
  intros Hl Ha. unfold GD.insert_at.
  destruct (Js.to_uint32 pos <? Z.of_nat (length l)).
  - destruct (existsb_take_drop p (Z.to_nat (Js.to_uint32 pos)) l Hl)
      as [Ht Hd].
    rewrite remove_first_app_miss by exact Ht. cbn. rewrite Ha.
    apply take_drop.
  - rewrite remove_first_app_miss by exact Hl. cbn. rewrite Ha.
    apply app_nil_r.
Qed.

End UniqueNames.

(** ** Scene names stay unique *)

Definition scenesUnique (p : GD.Project) : Prop :=
  List.NoDup (map GD.lay_name (GD.layouts p)).

Definition scenesUniqueIn (st : SessionState) : Prop :=
  scenesUnique (project (snd st)).

Lemma hasLayoutNamed_false (n : string) (p : GD.Project) :
  GD.hasLayoutNamed n p = false -> ~ In n (map GD.lay_name (GD.layouts p)).
Proof. apply (existsb_keyed_false GD.lay_name n (GD.layouts p)). Qed.

Lemma scenesUnique_insertNewLayout (n : string) (pos : Z) (p : GD.Project) :
  GD.hasLayoutNamed n p = false ->
  scenesUnique p -> scenesUnique (GD.insertNewLayout n pos p).
Proof.
  intros Hn Hp. unfold scenesUnique, GD.insertNewLayout. cbn.
  apply NoDup_insert_at; [|exact Hp]. apply hasLayoutNamed_false. exact Hn.
Qed.

Lemma scenesUnique_updateLayout (n : string) (f : GD.Layout -> GD.Layout)
  (p : GD.Project) :
  (forall l, GD.lay_name (f l) = GD.lay_name l) ->
  scenesUnique p -> scenesUnique (GD.updateLayout n f p).
Proof.
  intros Hf Hp. unfold scenesUnique, GD.updateLayout. cbn.
  rewrite map_key_update_first_keep; assumption.
Qed.

Lemma scene_create_keeps_unique (w : World) (s : ProjectSession) (n : string)
  (position : option Z) (color : option string) (setAsFirst : bool) :
  scenesUnique (project s) ->
  scenesUnique
    (project (snd (snd (SceneTools.gdevelop_scene_create
                          n position color setAsFirst (w, s))))).
Proof.
  intros Hu.
  unfold SceneTools.gdevelop_scene_create, Session.createLayout,
    SceneTools.getLayoutPosition.
  step_monad. destruct (GD.hasLayoutNamed n (project s)) eqn:Hn; [exact Hu|].
  set (p1 := GD.insertNewLayout n _ (project s)).
  assert (Hu1 : scenesUnique p1)
    by (apply scenesUnique_insertNewLayout; assumption).
  destruct color as [c|]; [destruct (Js.truthy c)|]; destruct setAsFirst;
    cbn [project Session.setProject Session.setDirty Session.setLastModifiedAt];
    first [ exact Hu1
          | apply scenesUnique_updateLayout; [reflexivity | exact Hu1] ].
Qed.

Lemma scene_delete_keeps_unique (w : World) (s : ProjectSession) (n : string) :
  scenesUnique (project s) ->
  scenesUnique
    (project (snd (snd (SceneTools.gdevelop_scene_delete n (w, s))))).
Proof.
  intros Hu. unfold SceneTools.gdevelop_scene_delete, Session.deleteLayout.
  step_monad. destruct (GD.hasLayoutNamed n (project s)); [|exact Hu].
  cbn [project Session.setProject Session.setDirty Session.setLastModifiedAt].
  unfold scenesUnique, GD.removeLayout. cbn. apply NoDup_remove_first.
  exact Hu.
Qed.

Lemma scene_rename_keeps_unique (w : World) (s : ProjectSession)
  (a b : string) :
  scenesUnique (project s) ->
  scenesUnique
    (project (snd (snd (SceneTools.gdevelop_scene_rename a b (w, s))))).
Proof.
  intros Hu.
  unfold SceneTools.gdevelop_scene_rename, Session.renameLayout,
    Session.getLayout.
  step_monad. destruct (GD.hasLayoutNamed a (project s)) eqn:Ha; [|exact Hu].
  destruct (GD.hasLayoutNamed b (project s)) eqn:Hb; [exact Hu|].
  destruct (GD.getLayout a (project s)) as [l|] eqn:Hl; [|exact Hu].
  step_monad.
  assert (Hu1 : scenesUnique
                  (GD.updateLayout a (GD.setName b) (project s))).
  { unfold scenesUnique, GD.updateLayout. cbn.
    apply (NoDup_update_first_rename GD.lay_name _ _ b);
      [reflexivity | apply hasLayoutNamed_false; exact Hb | exact Hu]. }
  cbn [project Session.setProject Session.setDirty Session.setLastModifiedAt
       GD.firstLayout GD.updateLayout GD.setLayouts].
  destruct (String.eqb (GD.firstLayout (project s)) a);
    cbn [project Session.setProject Session.setDirty Session.setLastModifiedAt];
    exact Hu1.
Qed.

Lemma preserves_unique_updateProject (f : GD.Project -> GD.Project) :
  (forall p, GD.layouts (f p) = GD.layouts p) ->
  preserves scenesUniqueIn (Session.updateProject f).
Proof.
  intros Hf [w s] H. unfold scenesUniqueIn, scenesUnique in *. cbn.
  rewrite Hf. exact H.
Qed.

Lemma project_settings_keeps_unique (settings : ProjectTools.Settings) :
  preserves scenesUniqueIn (ProjectTools.gdevelop_project_settings settings).
Proof.
  unfold ProjectTools.gdevelop_project_settings, ProjectTools.apply_setting.
  repeat (apply preserves_bind;
          [ match goal with
            | |- preserves _ (match ?v with _ => _ end) =>
                destruct v;
                [ apply preserves_bind;
                  [ apply preserves_unique_updateProject; reflexivity
                  | intros; apply preserves_ret ]
                | apply preserves_ret ]
            end
          | intros ? ]).
  apply preserves_bind.
  - destruct (ProjectTools.set_firstLayout settings) as [n|];
      [|apply preserves_ret].
    intros [w s] H. unfold Session.hasLayout. step_monad.
    destruct (GD.hasLayoutNamed n (project s)); exact H.
  - intros u. apply preserves_bind; [|intros; apply preserves_ret].
    apply preserves_when. intros [w s] H. exact H.
Qed.

Lemma call_keeps_unique (t : Z) (m : Mutation) (st : SessionState) :
  scenesUniqueIn st -> scenesUniqueIn (call t m st).
Proof.
  destruct st as [w s]. unfold scenesUniqueIn, call, perform.
  cbn [fst snd]. intros Hu.
  destruct m as [n position color setAsFirst | n | a b | settings].
  - pose proof (scene_create_keeps_unique (setNow t w) s n position color
                  setAsFirst Hu) as H.
    unfold bind.
    destruct (SceneTools.gdevelop_scene_create _ _ _ _ _) as [[x|e] st'];
      exact H.
  - pose proof (scene_delete_keeps_unique (setNow t w) s n Hu) as H.
    unfold bind.
    destruct (SceneTools.gdevelop_scene_delete _ _) as [[x|e] st']; exact H.
  - pose proof (scene_rename_keeps_unique (setNow t w) s a b Hu) as H.
    unfold bind.
    destruct (SceneTools.gdevelop_scene_rename _ _ _) as [[x|e] st']; exact H.
  - pose proof (project_settings_keeps_unique settings (setNow t w, s) Hu) as H.
    unfold bind.
    destruct (ProjectTools.gdevelop_project_settings _ _) as [[x|e] st'];
      exact H.
Qed.

(** X1. Scene names stay unique: along every sequence of scene creations,
    deletions, renamings and settings updates, whether the calls return
    or throw, no two scenes of the document have the same name, provided
    that held at the start. *)
Theorem scene_names_stay_unique :
  forall (calls : list (Z * Mutation)) (st : SessionState),
    List.NoDup (map GD.lay_name (GD.layouts (project (snd st)))) ->
    Forall (fun st' =>
              List.NoDup (map GD.lay_name (GD.layouts (project (snd st')))))
           (observable calls st).
Proof.
  induction calls as [|[t m] rest IH]; intros st Hu; cbn.
  - constructor; [exact Hu | constructor].
  - constructor; [exact Hu|]. apply IH.
    apply (call_keeps_unique t m st). exact Hu.
Qed.

(** Names of a concrete container are pairwise different. *)
Ltac distinct_names :=
  repeat (apply List.NoDup_cons; [cbn; intuition discriminate|]);
  apply List.NoDup_nil.

Lemma scene_names_stay_unique_witness :
  let calls :=
    [ (1, SceneCreate "Shop" (Some 0) (Some "#ff8000") true);
      (2, SceneCreate "Menu" None None false);
      (3, SceneRename "Shop" "Level");
      (4, SceneRename "Shop" "Store");
      (5, SceneDelete "Menu") ] in
  let st := (Examples.world, Examples.session) in
  List.NoDup (map GD.lay_name (GD.layouts (project (snd st))))
  /\ Forall (fun st' =>
               List.NoDup (map GD.lay_name (GD.layouts (project (snd st')))))
            (observable calls st).
Proof.
  intros calls st.
  assert (H : List.NoDup (map GD.lay_name (GD.layouts (project (snd st)))))
    by (cbn; distinct_names).
  split; [exact H|]. exact (scene_names_stay_unique calls st H).
Defined.

(** ** Round trips on scenes *)

Lemma setLayouts_same (p : GD.Project) : GD.setLayouts (GD.layouts p) p = p.
Proof. destruct p; reflexivity. Qed.

(** X2. Creating a scene under a free name (at any position, with any
    background colour) and then deleting it gives back the document as
    it was: the other scenes, their order and the first-scene identifier
    are untouched. *)
Theorem scene_create_then_delete_restores_document :
  forall (w : World) (s : ProjectSession) (n : string) (position : option Z)
         (color : option string),
    GD.hasLayoutNamed n (project s) = false ->
    let created := SceneTools.gdevelop_scene_create n position color false
                     (w, s) in
    let deleted := SceneTools.gdevelop_scene_delete n (snd created) in
    is_ok (fst created) = true
    /\ GD.hasLayoutNamed n (project (snd (snd created))) = true
    /\ fst deleted = Ok n
    /\ project (snd (snd deleted)) = project s.
Proof.
  intros w s n position color Hn created deleted. subst deleted created.
  assert (Hname : GD.layout_named n (GD.newLayout n) = true)
    by (unfold GD.layout_named; cbn; apply String.eqb_refl).
  unfold SceneTools.gdevelop_scene_create, Session.createLayout,
    SceneTools.getLayoutPosition, SceneTools.gdevelop_scene_delete,
    Session.deleteLayout.
  step_monad. rewrite Hn. step_monad.
  set (p1 := GD.insertNewLayout n _ (project s)).
  assert (H1 : GD.hasLayoutNamed n p1 = true)
    by apply hasLayoutNamed_insertNewLayout.
  destruct color as [c|]; [destruct (Js.truthy c)|];
    cbn [project Session.setProject Session.setDirty Session.setLastModifiedAt];
    rewrite ?hasLayoutNamed_recolor, H1;
    cbn [project Session.setProject Session.setDirty Session.setLastModifiedAt];
    (split; [reflexivity|]); (split; [reflexivity|]); (split; [reflexivity|]);
    subst p1; clear H1; revert Hn; generalize (project s) as p; intros p Hn;
    destruct p;
    unfold GD.removeLayout, GD.updateLayout, GD.insertNewLayout,
      GD.hasLayoutNamed, GD.setLayouts in *;
    cbn [GD.layouts GD.name GD.version GD.description GD.author
         GD.packageName GD.windowWidth GD.windowHeight GD.maximumFPS
         GD.minimumFPS GD.firstLayout GD.objects GD.externalEvents] in *;
    f_equal;
    first [ apply remove_first_update_insert_at; [exact Hn | exact Hname |
                                                   exact Hname]
          | apply remove_first_insert_at; [exact Hn | exact Hname] ].
Qed.

Lemma scene_create_then_delete_restores_document_witness :
  let created := SceneTools.gdevelop_scene_create "Shop" (Some 1)
                   (Some "#102030") false
                   (Examples.world, Examples.session) in
  let deleted := SceneTools.gdevelop_scene_delete "Shop" (snd created) in
  GD.hasLayoutNamed "Shop" (project Examples.session) = false
  /\ map GD.lay_name (GD.layouts (project (snd (snd created))))
     = ["Menu"; "Shop"; "Level"]
  /\ fst deleted = Ok "Shop"
  /\ project (snd (snd deleted)) = project Examples.session.
Proof.
  intros created deleted.
  destruct (scene_create_then_delete_restores_document
              Examples.world Examples.session "Shop" (Some 1)
              (Some "#102030") eq_refl) as (_ & _ & Hd & Hp).
  split; [reflexivity|]. split; [reflexivity|].
  split; [exact Hd | exact Hp].
Defined.

Lemma setName_back (a b : string) (l : GD.Layout) :
  GD.layout_named a l = true -> GD.setName a (GD.setName b l) = l.
Proof.
  unfold GD.layout_named. intros H. apply String.eqb_eq in H.
  destruct l; cbn in *. subst. reflexivity.
Qed.

Lemma rename_there_and_back (a b : string) (ls : list GD.Layout) :
  existsb (GD.layout_named b) ls = false ->
  GD.update_first (GD.layout_named b) (GD.setName a)
    (GD.update_first (GD.layout_named a) (GD.setName b) ls) = ls.
Proof.
  induction ls as [|l rest IH]; cbn; [reflexivity|].
  intros H. apply orb_false_iff in H as [Hl Hrest].
  destruct (GD.layout_named a l) eqn:Ha; cbn.
  - unfold GD.layout_named at 1. cbn. rewrite String.eqb_refl.
    rewrite setName_back by exact Ha. reflexivity.
  - rewrite Hl, IH by exact Hrest. reflexivity.
Qed.

(** After the only scene named [a] was renamed, no scene is named [a]. *)
Lemma renamed_name_is_free (a b : string) (ls : list GD.Layout) :
  a <> b ->
  List.NoDup (map GD.lay_name ls) ->
  existsb (GD.layout_named a)
    (GD.update_first (GD.layout_named a) (GD.setName b) ls) = false.
Proof.
  intros Hab. induction ls as [|l rest IH]; cbn; [reflexivity|].
  intros H. apply List.NoDup_cons_iff in H as [Hl Hrest].
  destruct (GD.layout_named a l) eqn:Ha; cbn.
  - unfold GD.layout_named at 1. cbn.
    replace (String.eqb b a) with false
      by (symmetry; apply String.eqb_neq; congruence).
    cbn. apply (existsb_keyed_false GD.lay_name a rest).
    unfold GD.layout_named in Ha. apply String.eqb_eq in Ha. congruence.
  - rewrite Ha. cbn. apply IH. exact Hrest.
Qed.

(** The document after a successful rename of a scene. *)
Definition renamedScene (a b : string) (p : GD.Project) : GD.Project :=
  let p1 := GD.updateLayout a (GD.setName b) p in
  if String.eqb (GD.firstLayout p) a then GD.setFirstLayout b p1 else p1.

Lemma getLayout_present (n : string) (p : GD.Project) :
  GD.hasLayoutNamed n p = true -> exists l, GD.getLayout n p = Some l.
Proof.
  unfold GD.getLayout, GD.hasLayoutNamed. intros H.
  destruct (find _ _) eqn:Hf; [eauto|].
  apply existsb_exists in H as (x & Hx & Hnx).
  pose proof (find_none _ _ Hf x Hx) as Hn. cbv beta in Hn. congruence.
Qed.

Lemma scene_rename_run (w : World) (s : ProjectSession) (a b : string) :
  GD.hasLayoutNamed a (project s) = true ->
  GD.hasLayoutNamed b (project s) = false ->
  SceneTools.gdevelop_scene_rename a b (w, s) =
    (Ok (a, b),
     (w, Session.setLastModifiedAt (w_now w)
           (Session.setDirty true
              (Session.setProject (renamedScene a b (project s)) s)))).
Proof.
  intros Ha Hb. destruct (getLayout_present a (project s) Ha) as [l Hl].
  unfold SceneTools.gdevelop_scene_rename, Session.renameLayout,
    Session.getLayout, renamedScene.
  step_monad. rewrite Ha, Hb. step_monad. rewrite Hl. step_monad.
  cbn [project Session.setProject Session.setDirty Session.setLastModifiedAt
       GD.firstLayout GD.updateLayout GD.setLayouts].
  destruct (String.eqb (GD.firstLayout (project s)) a); reflexivity.
Qed.

Lemma renamedScene_back (a b : string) (p : GD.Project) :
  a <> b ->
  GD.hasLayoutNamed b p = false ->
  GD.firstLayout p <> b ->
  renamedScene b a (renamedScene a b p) = p.
Proof.
  intros Hab Hb Hfirst. unfold renamedScene, GD.hasLayoutNamed in *.
  destruct p as [n v d au pk ww wh mx mn first ls objs exts].
  cbn [GD.firstLayout GD.layouts] in *.
  destruct (String.eqb first a) eqn:Hfa.
  - apply String.eqb_eq in Hfa. subst first.
    unfold GD.updateLayout, GD.setFirstLayout, GD.setLayouts. cbn.
    rewrite String.eqb_refl. cbn.
    rewrite rename_there_and_back by exact Hb. reflexivity.
  - unfold GD.updateLayout, GD.setFirstLayout, GD.setLayouts. cbn.
    replace (String.eqb first b) with false
      by (symmetry; apply String.eqb_neq; exact Hfirst).
    rewrite rename_there_and_back by exact Hb. reflexivity.
Qed.

(** X3. Renaming a scene to a free name and back gives the document as it
    was, the first-scene identifier included, when scene names are
    unique and the first-scene identifier is not the free name. *)
Theorem scene_rename_there_and_back :
  forall (w : World) (s : ProjectSession) (a b : string),
    List.NoDup (map GD.lay_name (GD.layouts (project s))) ->
    GD.hasLayoutNamed a (project s) = true ->
    GD.hasLayoutNamed b (project s) = false ->
    GD.firstLayout (project s) <> b ->
    let there := SceneTools.gdevelop_scene_rename a b (w, s) in
    let back := SceneTools.gdevelop_scene_rename b a (snd there) in
    fst there = Ok (a, b)
    /\ fst back = Ok (b, a)
    /\ project (snd (snd back)) = project s.
Proof.
  intros w s a b Hu Ha Hb Hfirst there back. subst back there.
  assert (Hab : a <> b) by (intros ->; congruence).
  rewrite (scene_rename_run w s a b Ha Hb). cbn [fst snd].
  set (s1 := Session.setLastModifiedAt _ _).
  assert (Hp1 : project s1 = renamedScene a b (project s)) by reflexivity.
  assert (Hls : GD.layouts (project s1)
                = GD.update_first (GD.layout_named a) (GD.setName b)
                    (GD.layouts (project s))).
  { rewrite Hp1. unfold renamedScene.
    destruct (String.eqb (GD.firstLayout (project s)) a); reflexivity. }
  assert (Hb1 : GD.hasLayoutNamed b (project s1) = true).
  { unfold GD.hasLayoutNamed. rewrite Hls.
    apply existsb_update_first_hit; [|exact Ha].
    intros x. unfold GD.layout_named. cbn. apply String.eqb_refl. }
  assert (Ha1 : GD.hasLayoutNamed a (project s1) = false).
  { unfold GD.hasLayoutNamed. rewrite Hls.
    apply renamed_name_is_free; assumption. }
  rewrite (scene_rename_run w s1 b a Hb1 Ha1). cbn [fst snd].
  split; [reflexivity|]. split; [reflexivity|].
  cbn [project Session.setProject Session.setDirty Session.setLastModifiedAt].
  rewrite Hp1. apply renamedScene_back; assumption.
Qed.

Lemma scene_rename_there_and_back_witness :
  let there := SceneTools.gdevelop_scene_rename "Menu" "Title"
                 (Examples.world, Examples.session) in
  let back := SceneTools.gdevelop_scene_rename "Title" "Menu" (snd there) in
  GD.firstLayout (project (snd (snd there))) = "Title"
  /\ fst back = Ok ("Title", "Menu")
  /\ project (snd (snd back)) = project Examples.session.
Proof.
  intros there back.
  assert (Hu : List.NoDup
                 (map GD.lay_name (GD.layouts (project Examples.session))))
    by (cbn; distinct_names).
  assert (Hfirst : GD.firstLayout (project Examples.session) <> "Title")
    by discriminate.
  destruct (scene_rename_there_and_back Examples.world Examples.session
              "Menu" "Title" Hu eq_refl eq_refl Hfirst) as (_ & Hb & Hp).
  split; [reflexivity|]. split; [exact Hb | exact Hp].
Defined.

(** ** Saving twice, and what a backup holds *)

(** X4. A save that succeeded can be repeated: a second save with no new
    path succeeds with the same path and leaves the stored files and the
    session exactly as the first save left them (the dirty flag is false
    both times). *)
Theorem save_twice_changes_nothing :
  forall (w : World) (s : ProjectSession) (savePath : option string),
    w_writable w (saveLocation (Js.or_else savePath (projectPath s))) = true ->
    let first := Session.save savePath (w, s) in
    fst first = Ok (Js.or_else savePath (projectPath s))
    /\ dirty (snd (snd first)) = false
    /\ Session.save None (snd first) = first.
Proof.
  intros w s savePath Hw first. subst first.
  rewrite (save_ok w s savePath Hw). cbn [fst snd].
  split; [reflexivity|]. split; [reflexivity|].
  set (target := Js.or_else savePath (projectPath s)).
  rewrite (save_ok _ (savedSession target s) None); [|exact Hw].
  cbn [Js.or_else projectPath savedSession project id createdAt
       lastModifiedAt w_files setFiles].
  f_equal. f_equal. unfold setFiles. cbn.
  rewrite insert_insert_eq. reflexivity.
Qed.

Lemma save_twice_changes_nothing_witness :
  let first := Session.save (Some "/work/copy.json")
                 (Examples.world, Examples.session) in
  w_writable Examples.world
    (saveLocation (Js.or_else (Some "/work/copy.json")
                     (projectPath Examples.session))) = true
  /\ fst first = Ok "/work/copy.json"
  /\ Session.save None (snd first) = first.
Proof.
  intros first.
  destruct (save_twice_changes_nothing Examples.world Examples.session
              (Some "/work/copy.json") eq_refl) as (H1 & _ & H2).
  split; [reflexivity|]. split; [exact H1 | exact H2].
Defined.

(** The path a backup made at time [t] is written to. *)
Definition backupPathAt (t : Z) (path : string) : string :=
  Path.join (Path.dirname path)
    (Path.basename path (Some (Path.extname path))
     +:+ ".backup-" +:+ Js.show t +:+ Path.extname path).

(** X5. A backup copies the file found on disk at the session path, not
    the document in memory: when that file exists and the backup path
    accepts the write, the backup path afterwards holds the on-disk
    content, every other path and the session are untouched; when there
    is no file at the session path the backup fails and changes
    nothing. *)
Theorem backup_copies_the_file_on_disk :
  forall (w : World) (s : ProjectSession),
    let bp := backupPathAt (w_now w) (projectPath s) in
    match w_files w !! projectPath s with
    | Some onDisk =>
        w_writable w bp = true ->
        exists w',
          Session.createBackup (w, s) = (Ok bp, (w', s))
          /\ w_files w' !! bp = Some onDisk
          /\ (forall path, path <> bp -> w_files w' !! path = w_files w !! path)
    | None =>
        Session.createBackup (w, s) = (Err (IOFailure (projectPath s)), (w, s))
    end.
Proof.
  intros w s bp. subst bp. unfold backupPathAt.
  unfold Session.createBackup, copyFile. step_monad.
  destruct (w_files w !! projectPath s) as [onDisk|]; [|reflexivity].
  intros Hw. rewrite Hw. eexists. split; [reflexivity|]. cbn. split.
  - apply lookup_insert_eq.
  - intros path Hne. apply lookup_insert_ne. congruence.
Qed.

Lemma backup_copies_the_file_on_disk_witness :
  let onDisk := GD.setProjectName "Saved yesterday" Examples.game in
  let w := setFiles (<["/work/game.json" := onDisk]> ∅) Examples.world in
  exists w',
    Session.createBackup (w, Examples.session)
    = (Ok "/work/game.backup-1000.json", (w', Examples.session))
    /\ w_files w' !! "/work/game.backup-1000.json" = Some onDisk
    /\ w_files w' !! "/work/game.json" = Some onDisk.
Proof.
  intros onDisk w.
  destruct (backup_copies_the_file_on_disk w Examples.session eq_refl)
    as (w' & Hrun & Hcopy & Hother).
  exists w'. split; [exact Hrun|]. split; [exact Hcopy|].
  rewrite Hother by discriminate. reflexivity.
Defined.

(* ===================================================================== *)
(** ** The registry: opening, creating and looking up sessions *)
(* ===================================================================== *)

(** [GDCoreManager.loadProject(path)]: the document decoded from the file
    at [path]. *)
Definition loadProject (path : string) : M World GD.Project :=
  fun w => match w_files w !! path with
           | Some p => (Ok p, w)
           | None => (Err (IOFailure path), w)
           end.

Definition liftManagerWorld {A} (m : M World A) : M ManagerState A :=
  fun '(w, reg) => let '(r, w') := m w in (r, (w', reg)).

(** [new ProjectSession(id, project, projectPath, manager)] at time
    [now]. *)
Definition newSession (now : Z) (sessionId : string) (p : GD.Project)
  (path : string) : ProjectSession :=
  mkSession sessionId p path false now now.

Record SessionSummary : Type := mkSessionSummary {
  sum_sessionId : string;
  sum_projectPath : string;
  sum_projectName : string;
  sum_isDirty : bool;
  sum_createdAt : Z;
  sum_lastModifiedAt : Z
}.

Section SessionRegistry.

(** What the process gets from outside and the code does not fix:
    [path.resolve], the identifier [randomUUID()] returns to the call,
    and the document [new gd.Project()] builds. *)
Variables (resolve : string -> string) (uuid : string)
          (emptyProject : GD.Project).

Definition openProject (projectPath : string) (sessionId : option string)
  : M ManagerState ProjectSession :=
  let sid := Js.or_else sessionId uuid in
  let! taken := gets (fun st => ProjectManager.map_has sid (snd st)) in
  if taken : bool
  then throw (JsError ("Session " +:+ Js.quoted sid +:+ " already exists"))
  else
    let absolutePath := resolve projectPath in
    let! p := liftManagerWorld (loadProject absolutePath) in
    let! now := gets (fun st => w_now (fst st)) in
    let session := newSession now sid p absolutePath in
    do! modify (fun '(w, reg) => (w, ProjectManager.map_set sid session reg)) in
    ret session.

Definition createProject (projectPath name : string)
  (sessionId : option string) : M ManagerState ProjectSession :=
  let sid := Js.or_else sessionId uuid in
  let! taken := gets (fun st => ProjectManager.map_has sid (snd st)) in
  if taken : bool
  then throw (JsError ("Session " +:+ Js.quoted sid +:+ " already exists"))
  else
    let absolutePath := resolve projectPath in
    let p := GD.setProjectName name emptyProject in
    let! now := gets (fun st => w_now (fst st)) in
    let session :=
      Session.setLastModifiedAt now
        (Session.setDirty true (newSession now sid p absolutePath)) in
    do! modify (fun '(w, reg) => (w, ProjectManager.map_set sid session reg)) in
    ret session.

Definition getSession (sessionId : string) : M ManagerState ProjectSession :=
  let! found := gets (fun st => ProjectManager.map_get sessionId (snd st)) in
  match found with
  | Some session => ret session
  | None =>
      throw (JsError ("Session " +:+ Js.quoted sessionId +:+ " not found"))
  end.

Definition listSessions : M ManagerState (list SessionSummary) :=
  gets (fun st =>
          map (fun e =>
                 let session := snd e in
                 mkSessionSummary (id session) (projectPath session)
                   (GD.name (project session)) (dirty session)
                   (createdAt session) (lastModifiedAt session))
              (snd st)).

Definition findSessionsByPath (projectPath0 : string)
  : M ManagerState (list ProjectSession) :=
  let absolutePath := resolve projectPath0 in
  gets (fun st =>
          List.filter (fun session => String.eqb (projectPath session) absolutePath)
            (map snd (snd st))).

End SessionRegistry.

(** *** Lookups in the registry *)

Section RegistryLookups.

Implicit Types (reg : Registry) (k : string) (v : ProjectSession).

Lemma map_has_get k reg :
  ProjectManager.map_has k reg = false <-> ProjectManager.map_get k reg = None.
Proof.
  unfold ProjectManager.map_has, ProjectManager.map_get.
  induction reg as [|e rest IH]; cbn; [tauto|].
  destruct (String.eqb (fst e) k); cbn; [split; discriminate | exact IH].
Qed.

Lemma map_has_keys k reg :
  ProjectManager.map_has k reg = false
  <-> ~ In k (ProjectManager.map_keys reg).
Proof. apply (existsb_keyed_false fst k reg). Qed.

Lemma map_get_set_same k v reg :
  ProjectManager.map_get k (ProjectManager.map_set k v reg) = Some v.
Proof.
  unfold ProjectManager.map_get.
  induction reg as [|e rest IH]; cbn.
  - rewrite String.eqb_refl. reflexivity.
  - destruct (String.eqb (fst e) k) eqn:He; cbn.
    + rewrite String.eqb_refl. reflexivity.
    + rewrite He. exact IH.
Qed.

Lemma map_get_delete_other k k' reg :
  k' <> k ->
  ProjectManager.map_get k' (ProjectManager.map_delete k reg)
  = ProjectManager.map_get k' reg.
Proof.
  intros Hne. unfold ProjectManager.map_get, ProjectManager.map_delete.
  induction reg as [|e rest IH]; cbn; [reflexivity|].
  destruct (String.eqb (fst e) k) eqn:He; cbn.
  - apply String.eqb_eq in He.
    replace (String.eqb (fst e) k') with false
      by (symmetry; apply String.eqb_neq; congruence).
    reflexivity.
  - destruct (String.eqb (fst e) k'); [reflexivity | exact IH].
Qed.

Lemma map_set_new k v reg :
  ProjectManager.map_has k reg = false ->
  ProjectManager.map_set k v reg = reg ++ [(k, v)].
Proof.
  unfold ProjectManager.map_has.
  induction reg as [|e rest IH]; cbn; [reflexivity|].
  intros H. apply orb_false_iff in H as [He Hrest]. rewrite He, IH by exact Hrest.
  reflexivity.
Qed.

Lemma map_delete_set_new k v reg :
  ProjectManager.map_has k reg = false ->
  ProjectManager.map_delete k (ProjectManager.map_set k v reg) = reg.
Proof.
  intros H. rewrite map_set_new by exact H.
  unfold ProjectManager.map_delete.
  rewrite remove_first_app_miss by exact H. cbn. rewrite String.eqb_refl.
  apply app_nil_r.
Qed.

End RegistryLookups.

Lemma map_get_has (k : string) (reg : Registry) (s : ProjectSession) :
  ProjectManager.map_get k reg = Some s -> ProjectManager.map_has k reg = true.
Proof.
  intros H. destruct (ProjectManager.map_has k reg) eqn:Hh; [reflexivity|].
  apply map_has_get in Hh. congruence.
Qed.

Lemma map_set_get_same (k : string) (reg : Registry) (s : ProjectSession) :
  ProjectManager.map_get k reg = Some s -> ProjectManager.map_set k s reg = reg.
Proof.
  unfold ProjectManager.map_get.
  induction reg as [|e rest IH]; cbn; [discriminate|].
  destruct (String.eqb (fst e) k) eqn:He; cbn.
  - intros [= <-]. apply String.eqb_eq in He. subst k. destruct e; reflexivity.
  - intros H. rewrite IH by exact H. reflexivity.
Qed.

Lemma map_delete_set (k : string) (v : ProjectSession) (reg : Registry) :
  ProjectManager.map_has k reg = true ->
  ProjectManager.map_delete k (ProjectManager.map_set k v reg)
  = ProjectManager.map_delete k reg.
Proof.
  unfold ProjectManager.map_has, ProjectManager.map_delete.
  induction reg as [|e rest IH]; cbn; [discriminate|].
  destruct (String.eqb (fst e) k) eqn:He; cbn.
  - intros _. rewrite String.eqb_refl. reflexivity.
  - intros H. rewrite He, IH by exact H. reflexivity.
Qed.

Lemma map_has_set (k : string) (v : ProjectSession) (reg : Registry) :
  ProjectManager.map_has k (ProjectManager.map_set k v reg) = true.
Proof.
  destruct (ProjectManager.map_has k (ProjectManager.map_set k v reg)) eqn:H;
    [reflexivity|].
  apply map_has_get in H. rewrite map_get_set_same in H. discriminate.
Qed.

(** What [closeSession] does, for a session anywhere in the registry. *)
Lemma closeSession_unknown (save : bool) (k : string) (w : World)
  (reg : Registry) :
  ProjectManager.map_get k reg = None ->
  ProjectManager.closeSession k save (w, reg) = (Ok false, (w, reg)).
Proof.
  intros H. unfold ProjectManager.closeSession, bind, gets. cbn [snd].
  rewrite H. reflexivity.
Qed.

Lemma closeSession_known (save : bool) (k : string) (w : World)
  (reg : Registry) (s : ProjectSession) :
  ProjectManager.map_get k reg = Some s ->
  ProjectManager.closeSession k save (w, reg) =
    if saveFails save w s
    then (Err (IOFailure (saveLocation (projectPath s))), (w, reg))
    else (Ok true, (closedWorld save w s, ProjectManager.map_delete k reg)).
Proof.
  intros H. pose proof (map_get_has _ _ _ H) as Hhas.
  unfold ProjectManager.closeSession, ProjectManager.withSession,
    saveFails, closedWorld, Session.isDirty, Session.dispose,
    bind, gets, modify, ret.
  cbn [snd fst]. rewrite H. cbn beta iota. rewrite H.
  destruct (save && dirty s) eqn:Hsd; cbn [andb negb].
  - destruct (w_writable w (saveLocation (projectPath s))) eqn:Hw; cbn [negb].
    + rewrite (save_ok w s None Hw). cbn [Js.or_else]. cbn beta iota.
      rewrite map_get_set_same. rewrite !map_delete_set;
        [reflexivity | exact Hhas | apply map_has_set].
    + rewrite (save_fail w s None Hw). cbn [Js.or_else]. cbn beta iota.
      rewrite (map_set_get_same _ _ _ H). reflexivity.
  - cbn beta iota. rewrite map_get_set_same. rewrite !map_delete_set;
        [reflexivity | exact Hhas | apply map_has_set].
Qed.

Lemma map_get_app_keep (k : string) (reg extra : Registry) (s : ProjectSession) :
  ProjectManager.map_get k reg = Some s ->
  ProjectManager.map_get k (reg ++ extra) = Some s.
Proof.
  unfold ProjectManager.map_get.
  induction reg as [|e rest IH]; cbn; [discriminate|].
  destruct (String.eqb (fst e) k); [trivial | exact IH].
Qed.

Section Registering.

Variables (resolve : string -> string) (uuid : string)
          (emptyProject : GD.Project).

Lemma openProject_run (path : string) (sessionId : option string)
  (w : World) (reg : Registry) :
  let sid := Js.or_else sessionId uuid in
  openProject resolve uuid path sessionId (w, reg) =
    if ProjectManager.map_has sid reg
    then (Err (JsError ("Session " +:+ Js.quoted sid +:+ " already exists")),
          (w, reg))
    else match w_files w !! resolve path with
         | None => (Err (IOFailure (resolve path)), (w, reg))
         | Some p =>
             let session := newSession (w_now w) sid p (resolve path) in
             (Ok session, (w, reg ++ [(sid, session)]))
         end.
Proof.
  intros sid. subst sid. unfold openProject, liftManagerWorld, loadProject.
  step_monad.
  destruct (ProjectManager.map_has (Js.or_else sessionId uuid) reg) eqn:Hh;
    [reflexivity|].
  destruct (w_files w !! resolve path); [|reflexivity].
  rewrite map_set_new by exact Hh. reflexivity.
Qed.

Lemma createProject_run (path name : string) (sessionId : option string)
  (w : World) (reg : Registry) :
  let sid := Js.or_else sessionId uuid in
  createProject resolve uuid emptyProject path name sessionId (w, reg) =
    if ProjectManager.map_has sid reg
    then (Err (JsError ("Session " +:+ Js.quoted sid +:+ " already exists")),
          (w, reg))
    else
      let session :=
        mkSession sid (GD.setProjectName name emptyProject) (resolve path)
                  true (w_now w) (w_now w) in
      (Ok session, (w, reg ++ [(sid, session)])).
Proof.
  intros sid. subst sid. unfold createProject. step_monad.
  destruct (ProjectManager.map_has (Js.or_else sessionId uuid) reg) eqn:Hh;
    [reflexivity|].
  rewrite map_set_new by exact Hh. reflexivity.
Qed.

End Registering.

(** X6. Opening or creating a project never drops or replaces a session
    that is already registered, and touches nothing outside the registry:
    whatever the outcome, every identifier registered before the call
    still gives the same session after it. When the call succeeds, the
    session it returns is registered last, under its own identifier, and
    that identifier was free before; when it fails (identifier in use,
    file not readable) nothing has changed. *)
Theorem registering_keeps_registered_sessions
  (resolve : string -> string) (uuid : string) (emptyProject : GD.Project)
  (path name : string) (sessionId : option string) (st : ManagerState) :
  let kept (run : Result ProjectSession * ManagerState) :=
    fst (snd run) = fst st
    /\ (forall k s, ProjectManager.map_get k (snd st) = Some s ->
                    ProjectManager.map_get k (snd (snd run)) = Some s)
    /\ match fst run with
       | Ok session =>
           ProjectManager.map_has (id session) (snd st) = false
           /\ snd (snd run) = snd st ++ [(id session, session)]
           /\ ProjectManager.map_get (id session) (snd (snd run)) = Some session
       | Err _ => snd run = st
       end in
  kept (openProject resolve uuid path sessionId st)
  /\ kept (createProject resolve uuid emptyProject path name sessionId st).
Proof.
  destruct st as [w reg]. cbv zeta.
  rewrite openProject_run, createProject_run. cbv zeta.
  destruct (ProjectManager.map_has (Js.or_else sessionId uuid) reg) eqn:Hh;
    [cbn [fst snd]; auto|].
  split.
  - destruct (w_files w !! resolve path) as [p|]; cbn [fst snd id newSession];
        [|auto].
      split; [reflexivity|]. split; [intros k s; apply map_get_app_keep|].
      split; [exact Hh|]. split; [reflexivity|].
      rewrite <- (map_set_new _ _ _ Hh). apply map_get_set_same.
  - cbn [fst snd id].
      split; [reflexivity|]. split; [intros k s; apply map_get_app_keep|].
      split; [exact Hh|]. split; [reflexivity|].
      rewrite <- (map_set_new _ _ _ Hh). apply map_get_set_same.
Qed.

(** X7. A project that is created and then closed leaves the registry as
    it was before, and the session is disposed of. Closed without saving,
    it leaves every file as it was; closed with saving, the new document
    (it is dirty from the start) is what the storage then holds at the
    resolved path, every other file being as it was, and if that write
    fails the close throws, nothing is written and the session stays
    registered. *)
Theorem create_then_close
  (resolve : string -> string) (uuid : string) (emptyProject : GD.Project)
  (path name : string) (sessionId : option string) (save : bool)
  (w : World) (reg : Registry) :
  let sid := Js.or_else sessionId uuid in
  let target := saveLocation (resolve path) in
  ProjectManager.map_has sid reg = false ->
  exists session,
    let created := (w, reg ++ [(sid, session)]) in
    createProject resolve uuid emptyProject path name sessionId (w, reg)
      = (Ok session, created)
    /\ id session = sid /\ dirty session = true
    /\ project session = GD.setProjectName name emptyProject
    /\ let '(r, (w', reg')) := ProjectManager.closeSession sid save created in
       match save, w_writable w target with
       | false, _ =>
           r = Ok true /\ reg' = reg
           /\ w_files w' = w_files w
           /\ w_released w' = w_released w ++ [sid]
       | true, true =>
           r = Ok true /\ reg' = reg
           /\ w_files w' !! target = Some (GD.setProjectName name emptyProject)
           /\ (forall other : string,
                  other <> target -> w_files w' !! other = w_files w !! other)
           /\ w_released w' = w_released w ++ [sid]
       | true, false =>
           r = Err (IOFailure target) /\ w' = w
           /\ reg' = reg ++ [(sid, session)]
       end.
Proof.
  intros sid target Hfree. eexists. cbv zeta.
  rewrite createProject_run. cbv zeta. fold sid. rewrite Hfree.
  split; [reflexivity|]. split; [reflexivity|]. split; [reflexivity|].
  split; [reflexivity|].
  erewrite closeSession_known.
  2:{ rewrite <- (map_set_new _ _ _ Hfree). apply map_get_set_same. }
  unfold saveFails, closedWorld. cbn [dirty projectPath id project].
  rewrite <- (map_set_new _ _ _ Hfree), (map_delete_set_new _ _ _ Hfree).
  fold target.
  destruct save, (w_writable w target); cbn.
  - split; [reflexivity|]. split; [reflexivity|].
    split; [apply lookup_insert_eq|].
    split; [|reflexivity].
    intros other Hother. apply lookup_insert_ne. intros Heq.
    apply Hother. symmetry. exact Heq.
  - repeat split.
  - repeat split.
  - repeat split.
Qed.

(** A document without scenes or objects, standing for what the engine
    builds, in the examples. *)
Definition untitled : GD.Project :=
  GD.mkProject "Project" "1.0.0" "" "" "com.example.gamename" 800 600 60 20
               "" [] [] [].

(** Creating a project at a writable path and closing it with saving:
    the registry is as before and the file holds the new document. *)
Lemma create_then_close_witness :
  exists session,
    createProject (fun p => p) "u1" untitled "/work/new.json" "New" None
      (Examples.world, Examples.registry)
    = (Ok session, (Examples.world, Examples.registry ++ [("u1", session)]))
    /\ let run :=
         ProjectManager.closeSession "u1" true
           (Examples.world, Examples.registry ++ [("u1", session)]) in
       fst run = Ok true
       /\ snd (snd run) = Examples.registry
       /\ w_files (fst (snd run)) !! "/work/new.json"
          = Some (GD.setProjectName "New" untitled)
       /\ w_files (fst (snd run)) !! "/work/game.json" = None
       /\ w_released (fst (snd run)) = ["u1"].
Proof.
  destruct (create_then_close (fun p => p) "u1" untitled "/work/new.json"
              "New" None true Examples.world Examples.registry eq_refl)
    as [session (Hc & _ & _ & _ & Hclose)].
  exists session. split; [exact Hc|]. intros run.
  change (Js.or_else None "u1") with "u1" in Hclose.
  change (w_writable Examples.world (saveLocation "/work/new.json"))
    with true in Hclose.
  change (saveLocation "/work/new.json") with "/work/new.json" in Hclose.
  cbv beta iota zeta in Hclose. fold run in Hclose.
  destruct run as [r [w' reg']].
  destruct Hclose as (Hr & Hreg & Hfile & Hframe & Hrel).
  cbn [fst snd]. split; [exact Hr|]. split; [exact Hreg|].
  split; [exact Hfile|].
  split; [rewrite (Hframe "/work/game.json") by discriminate; reflexivity|].
  exact Hrel.
Defined.

(** X8. A project that is opened and closed again, with nothing done in
    between, is never written back, whether or not saving was asked for:
    the session starts clean, so the close releases it and leaves the
    registry and every file as they were. *)
Theorem open_then_close_writes_nothing
  (resolve : string -> string) (uuid : string)
  (path : string) (sessionId : option string) (save : bool)
  (w : World) (reg : Registry) (onDisk : GD.Project) :
  let sid := Js.or_else sessionId uuid in
  ProjectManager.map_has sid reg = false ->
  w_files w !! resolve path = Some onDisk ->
  exists session,
    let opened := (w, reg ++ [(sid, session)]) in
    openProject resolve uuid path sessionId (w, reg) = (Ok session, opened)
    /\ project session = onDisk /\ dirty session = false
    /\ ProjectManager.closeSession sid save opened
       = (Ok true, (addReleased sid w, reg)).
Proof.
  intros sid Hfree Hfile. eexists. cbv zeta.
  rewrite openProject_run. cbv zeta. fold sid. rewrite Hfree, Hfile.
  split; [reflexivity|]. split; [reflexivity|]. split; [reflexivity|].
  erewrite closeSession_known.
  2:{ rewrite <- (map_set_new _ _ _ Hfree). apply map_get_set_same. }
  unfold saveFails, closedWorld, newSession. cbn [dirty projectPath id project].
  rewrite <- (map_set_new _ _ _ Hfree), (map_delete_set_new _ _ _ Hfree).
  rewrite !andb_false_r. reflexivity.
Qed.

Lemma open_then_close_writes_nothing_witness :
  let w := setFiles (<["/work/game.json" := Examples.game]> ∅) Examples.world in
  exists session,
    openProject (fun p => p) "u1" "/work/game.json" (Some "mine")
      (w, Examples.registry)
    = (Ok session, (w, Examples.registry ++ [("mine", session)]))
    /\ ProjectManager.closeSession "mine" true
         (w, Examples.registry ++ [("mine", session)])
       = (Ok true, (addReleased "mine" w, Examples.registry)).
Proof.
  intros w.
  destruct (open_then_close_writes_nothing (fun p => p) "u1" "/work/game.json"
              (Some "mine") true w Examples.registry Examples.game
              eq_refl eq_refl)
    as [session (Ho & _ & _ & Hclose)].
  exists session. split; [exact Ho | exact Hclose].
Defined.

(** ** The registry stays well formed *)

Section RemovingByName.

Context {A : Type} (key : A -> string).

Lemma existsb_remove_first_unique (n : string) (l : list A) :
  List.NoDup (map key l) ->
  existsb (keyed key n) (GD.remove_first (keyed key n) l) = false.
Proof.
  induction l as [|a l IH]; cbn; [reflexivity|].
  intros H. apply List.NoDup_cons_iff in H as [Ha Hl].
  destruct (keyed key n a) eqn:Hk; cbn.
  - apply existsb_keyed_false. unfold keyed in Hk. apply String.eqb_eq in Hk.
    rewrite <- Hk. exact Ha.
  - rewrite Hk. cbn. apply IH. exact Hl.
Qed.

Lemma Forall_remove_first (P : A -> Prop) (p : A -> bool) (l : list A) :
  Forall P l -> Forall P (GD.remove_first p l).
Proof.
  induction 1 as [|a l Ha Hl IH]; cbn; [constructor|].
  destruct (p a); [exact Hl | constructor; assumption].
Qed.

End RemovingByName.

(** No identifier is registered twice, and every session is registered
    under its own identifier. *)
Definition registryWellFormed (reg : Registry) : Prop :=
  List.NoDup (ProjectManager.map_keys reg)
  /\ Forall (fun e => id (snd e) = fst e) reg.

(** The calls a client can make on the registry; [uuid] is the identifier
    the call would generate if none is given. *)
Inductive RegistryCall : Type :=
| OpenProject (path : string) (sessionId : option string) (uuid : string)
| CreateProject (path name : string) (sessionId : option string) (uuid : string)
| CloseSession (sessionId : string) (save : bool)
| CloseAllSessions (save : bool).

Section RegistryCalls.

Variables (resolve : string -> string) (emptyProject : GD.Project).

Definition performRegistryCall (c : RegistryCall) : M ManagerState unit :=
  match c with
  | OpenProject path sessionId uuid =>
      let! _ := openProject resolve uuid path sessionId in ret tt
  | CreateProject path name sessionId uuid =>
      let! _ := createProject resolve uuid emptyProject path name sessionId in
      ret tt
  | CloseSession sessionId save =>
      let! _ := ProjectManager.closeSession sessionId save in ret tt
  | CloseAllSessions save => ProjectManager.closeAllSessions save
  end.

(** The registry states along a sequence of calls, each made in the world
    the previous one left, whether it returned or threw. *)
Fixpoint registryStates (calls : list RegistryCall) (st : ManagerState)
  : list ManagerState :=
  st :: match calls with
        | [] => []
        | c :: rest => registryStates rest (snd (performRegistryCall c st))
        end.

Lemma wellFormed_register (reg : Registry) (session : ProjectSession) :
  ProjectManager.map_has (id session) reg = false ->
  registryWellFormed reg ->
  registryWellFormed (reg ++ [(id session, session)]).
Proof.
  intros Hfree [Hkeys Hids]. split.
  - unfold ProjectManager.map_keys in *. rewrite map_app. cbn.
    apply (Permutation_NoDup (l := id session :: map fst reg)).
    + apply Permutation_cons_append.
    + apply List.NoDup_cons; [|exact Hkeys].
      apply (map_has_keys (id session) reg). exact Hfree.
  - apply Forall_app. split; [exact Hids|]. constructor; [reflexivity|constructor].
Qed.

Lemma wellFormed_delete (k : string) (reg : Registry) :
  registryWellFormed reg -> registryWellFormed (ProjectManager.map_delete k reg).
Proof.
  intros [Hkeys Hids]. split.
  - apply (NoDup_remove_first fst). exact Hkeys.
  - apply Forall_remove_first. exact Hids.
Qed.

Lemma wellFormed_drop (n : nat) (reg : Registry) :
  registryWellFormed reg -> registryWellFormed (drop n reg).
Proof.
  intros [Hkeys Hids]. split.
  - unfold ProjectManager.map_keys in *.
    rewrite <- (take_drop n reg), map_app in Hkeys.
    apply NoDup_app_remove_l in Hkeys. exact Hkeys.
  - rewrite <- (take_drop n reg) in Hids. apply Forall_app in Hids. tauto.
Qed.

Lemma performRegistryCall_wellFormed (c : RegistryCall) (st : ManagerState) :
  registryWellFormed (snd st) ->
  registryWellFormed (snd (snd (performRegistryCall c st))).
Proof.
  destruct st as [w reg]. cbn [snd]. intros Hwf.
  destruct c as [path sessionId uuid | path name sessionId uuid
                | sessionId save | save]; cbn [performRegistryCall].
  - unfold bind. rewrite openProject_run. cbv zeta.
    destruct (ProjectManager.map_has (Js.or_else sessionId uuid) reg) eqn:Hh;
      [exact Hwf|].
    destruct (w_files w !! resolve path) as [p|]; [|exact Hwf].
    cbn [snd ret].
    apply (wellFormed_register reg
             (newSession (w_now w) (Js.or_else sessionId uuid) p (resolve path)));
      assumption.
  - unfold bind. rewrite createProject_run. cbv zeta.
    destruct (ProjectManager.map_has (Js.or_else sessionId uuid) reg) eqn:Hh;
      [exact Hwf|].
    cbn [snd ret].
    apply (wellFormed_register reg
             (mkSession (Js.or_else sessionId uuid)
                (GD.setProjectName name emptyProject) (resolve path) true
                (w_now w) (w_now w)));
      assumption.
  - unfold bind.
    destruct (ProjectManager.map_get sessionId reg) as [s|] eqn:Hg.
    + rewrite (closeSession_known save sessionId w reg s Hg).
      destruct (saveFails save w s); cbn [snd ret]; [exact Hwf|].
      apply wellFormed_delete. exact Hwf.
    + rewrite (closeSession_unknown save sessionId w reg Hg). exact Hwf.
  - unfold ProjectManager.closeAllSessions.
    unfold bind at 1. unfold gets. cbv beta iota. cbn [snd].
    pose proof (closing_loop save reg w) as H.
    destruct (for_each _ _ _) as [r [w' reg']]. cbn [snd].
    destruct (firstFailing save w reg) as [n|].
    + destruct H as [_ ->]. apply wellFormed_drop. exact Hwf.
    + destruct H as (_ & -> & _). split; constructor.
Qed.

End RegistryCalls.

(** X9. The registry stays well formed: along every sequence of open,
    create, close and close-all calls, whether they return or throw, no
    identifier is registered twice and every session is registered under
    its own identifier, provided that held at the start (it does for the
    empty registry a server starts with). *)
Theorem registry_stays_well_formed
  (resolve : string -> string) (emptyProject : GD.Project) :
  forall (calls : list RegistryCall) (st : ManagerState),
    List.NoDup (ProjectManager.map_keys (snd st)) ->
    Forall (fun e => id (snd e) = fst e) (snd st) ->
    Forall (fun st' =>
              List.NoDup (ProjectManager.map_keys (snd st'))
              /\ Forall (fun e => id (snd e) = fst e) (snd st'))
           (registryStates resolve emptyProject calls st).
Proof.
  intros calls st Hkeys Hids.
  assert (Hwf : registryWellFormed (snd st)) by (split; assumption).
  clear Hkeys Hids. revert st Hwf.
  induction calls as [|c rest IH]; intros st Hwf; cbn.
  - constructor; [exact Hwf | constructor].
  - constructor; [exact Hwf|]. apply IH.
    apply performRegistryCall_wellFormed. exact Hwf.
Qed.

Lemma registry_stays_well_formed_witness :
  let w := setFiles (<["/work/game.json" := Examples.game]> ∅) Examples.world in
  let calls :=
    [ OpenProject "/work/game.json" None "u1";
      CreateProject "/ro/game.json" "Second" (Some "mine") "u2";
      OpenProject "/work/game.json" (Some "mine") "u3";
      CloseAllSessions true;
      CloseSession "u1" false ] in
  Forall (fun st' =>
            List.NoDup (ProjectManager.map_keys (snd st'))
            /\ Forall (fun e => id (snd e) = fst e) (snd st'))
         (registryStates (fun p => p) untitled calls (w, [])).
Proof.
  intros w calls.
  apply (registry_stays_well_formed (fun p => p) untitled calls (w, []));
    constructor.
Defined.

(** X10. Closing a session touches no other session: whatever the
    outcome, every other identifier gives the same session as before.
    The call returns whether the identifier was registered; after it has
    returned the identifier is free, and when it was not registered
    nothing at all has changed. When the call throws (the save failed)
    nothing has changed either. *)
Theorem closing_touches_one_session :
  forall (save : bool) (k : string) (w : World) (reg : Registry),
    List.NoDup (ProjectManager.map_keys reg) ->
    let '(r, (w', reg')) := ProjectManager.closeSession k save (w, reg) in
    (forall k', k' <> k ->
                ProjectManager.map_get k' reg' = ProjectManager.map_get k' reg)
    /\ match r with
       | Ok closed =>
           closed = ProjectManager.map_has k reg
           /\ ProjectManager.map_has k reg' = false
           /\ (closed = false -> w' = w /\ reg' = reg)
       | Err _ => w' = w /\ reg' = reg
       end.
Proof.
  intros save k w reg Hkeys.
  destruct (ProjectManager.map_get k reg) as [s|] eqn:Hg.
  - rewrite (closeSession_known save k w reg s Hg).
    destruct (saveFails save w s); [auto|].
    split; [intros k' Hne; apply map_get_delete_other; exact Hne|].
    split; [symmetry; eapply map_get_has; exact Hg|].
    split; [|discriminate].
    apply (existsb_remove_first_unique fst k reg). exact Hkeys.
  - rewrite (closeSession_unknown save k w reg Hg).
    apply map_has_get in Hg. auto.
Qed.

Lemma closing_touches_one_session_witness :
  let '(r, (w', reg')) :=
    ProjectManager.closeSession "s2" false (Examples.world, Examples.registry) in
  (forall k', k' <> "s2" ->
              ProjectManager.map_get k' reg'
              = ProjectManager.map_get k' Examples.registry)
  /\ match r with
     | Ok closed =>
         closed = ProjectManager.map_has "s2" Examples.registry
         /\ ProjectManager.map_has "s2" reg' = false
         /\ (closed = false -> w' = Examples.world /\ reg' = Examples.registry)
     | Err _ => w' = Examples.world /\ reg' = Examples.registry
     end.
Proof.
  apply (closing_touches_one_session false "s2" Examples.world Examples.registry).
  cbn. distinct_names.
Defined.

(** ** [gdevelop_project_close] and [gdevelop_project_create] *)

Record CloseResponse : Type := mkCloseResponse {
  close_success : bool;
  close_unsavedChanges : bool
}.

Definition gdevelop_project_close (sessionId : string) (saveBeforeClose : bool)
  : M ManagerState CloseResponse :=
  let! session := getSession sessionId in
  let unsavedChanges := dirty session in
  let! success := ProjectManager.closeSession sessionId saveBeforeClose in
  ret (mkCloseResponse success unsavedChanges).

Record CreateResponse : Type := mkCreateResponse {
  create_sessionId : string;
  create_projectPath : string;
  create_initialSceneName : option string
}.

Section CreatingProjects.

Variables (resolve : string -> string) (uuid : string)
          (emptyProject : GD.Project).

(** The handler works on the session object [createProject] returned,
    which is the one the registry holds under its identifier. *)
Definition gdevelop_project_create (projectPath0 name : string)
  (windowWidth windowHeight maxFPS : Z) (createInitialScene : bool)
  : M ManagerState CreateResponse :=
  let! session :=
    createProject resolve uuid emptyProject projectPath0 name None in
  ProjectManager.withSession (id session)
    (do! Session.updateProject (GD.setDefaultWidth windowWidth) in
     do! Session.updateProject (GD.setDefaultHeight windowHeight) in
     do! Session.updateProject (GD.setMaximumFPS maxFPS) in
     let! initialSceneName :=
       (if createInitialScene
        then do! Session.createLayout "Main Scene" None in
             do! Session.updateProject (GD.setFirstLayout "Main Scene") in
             ret (Some "Main Scene")
        else ret None) in
     let! _ := Session.save None in
     let! s := Session.this in
     ret (mkCreateResponse (id s) (projectPath s) initialSceneName)).

End CreatingProjects.

(** X11. [gdevelop_project_close] never answers [success: false]: for an
    unknown session it throws instead, and for a known one it either
    throws because the requested save failed (the session stays
    registered) or answers [success: true] with the session removed.
    [unsavedChanges] is the dirty flag as it was before the call, so it is
    [true] also when the call itself has just saved the changes. *)
Theorem project_close_never_reports_failure :
  forall (sessionId : string) (saveBeforeClose : bool) (w : World)
         (reg : Registry),
    gdevelop_project_close sessionId saveBeforeClose (w, reg) =
      match ProjectManager.map_get sessionId reg with
      | None =>
          (Err (JsError ("Session " +:+ Js.quoted sessionId +:+ " not found")),
           (w, reg))
      | Some s =>
          if saveBeforeClose && dirty s
             && negb (w_writable w (saveLocation (projectPath s)))
          then (Err (IOFailure (saveLocation (projectPath s))), (w, reg))
          else (Ok (mkCloseResponse true (dirty s)),
                (addReleased (id s)
                   (if saveBeforeClose && dirty s
                    then setFiles (<[saveLocation (projectPath s) := project s]>
                                     (w_files w)) w
                    else w),
                 ProjectManager.map_delete sessionId reg))
      end.
Proof.
  intros sessionId save w reg.
  unfold gdevelop_project_close, getSession.
  unfold bind at 1. unfold bind at 1. unfold gets. cbn [snd].
  destruct (ProjectManager.map_get sessionId reg) as [s|] eqn:Hg;
    [|reflexivity].
  cbn [ret]. unfold bind.
  rewrite (closeSession_known save sessionId w reg s Hg).
  unfold saveFails, closedWorld.
  destruct (save && dirty s && negb (w_writable w (saveLocation (projectPath s))));
    reflexivity.
Qed.

Lemma map_set_last (k : string) (v v0 : ProjectSession) (reg : Registry) :
  ProjectManager.map_has k reg = false ->
  ProjectManager.map_set k v (reg ++ [(k, v0)]) = reg ++ [(k, v)].
Proof.
  unfold ProjectManager.map_has.
  induction reg as [|e rest IH]; cbn.
  - rewrite String.eqb_refl. reflexivity.
  - intros H. apply orb_false_iff in H as [He Hrest]. rewrite He, IH by exact Hrest.
    reflexivity.
Qed.

Lemma withSession_last {A} (k : string) (body : M SessionState A) (w : World)
  (reg : Registry) (s : ProjectSession) :
  ProjectManager.map_has k reg = false ->
  ProjectManager.withSession k body (w, reg ++ [(k, s)]) =
    let '(r, (w', s')) := body (w, s) in (r, (w', reg ++ [(k, s')])).
Proof.
  intros Hfree. unfold ProjectManager.withSession.
  rewrite <- (map_set_new _ s _ Hfree) at 1. rewrite map_get_set_same.
  destruct (body (w, s)) as [r [w' s']].
  rewrite map_set_last by exact Hfree. reflexivity.
Qed.

(** The document [gdevelop_project_create] builds from the engine's empty
    one. *)
Definition createdDocument (emptyProject : GD.Project) (name : string)
  (windowWidth windowHeight maxFPS : Z) (createInitialScene : bool)
  : GD.Project :=
  let sized :=
    GD.setMaximumFPS maxFPS
      (GD.setDefaultHeight windowHeight
         (GD.setDefaultWidth windowWidth
            (GD.setProjectName name emptyProject))) in
  if createInitialScene
  then GD.setFirstLayout "Main Scene"
         (GD.setLayouts [GD.newLayout "Main Scene"] sized)
  else sized.

(** X12. [gdevelop_project_create] registers the new session before it
    saves it (the engine's new document has no scene). When the file can
    be written, the answer names the session and the resolved path, the
    storage then holds the new document at the save location (with
    [Main Scene] as its only scene and first scene, if asked for) and
    what it held elsewhere, and the registered session is clean. When
    the file cannot be written the call throws, no file changes, and the
    new session stays registered, dirty, under the generated
    identifier. *)
Theorem project_create_registers_before_saving
  (resolve : string -> string) (uuid : string) (emptyProject : GD.Project)
  (path name : string) (windowWidth windowHeight maxFPS : Z)
  (createInitialScene : bool) (w : World) (reg : Registry) :
  let target := saveLocation (resolve path) in
  let doc := createdDocument emptyProject name windowWidth windowHeight maxFPS
               createInitialScene in
  let session (isDirty : bool) :=
    mkSession uuid doc (resolve path) isDirty (w_now w) (w_now w) in
  let run :=
    gdevelop_project_create resolve uuid emptyProject path name
      windowWidth windowHeight maxFPS createInitialScene (w, reg) in
  ProjectManager.map_has uuid reg = false ->
  GD.layouts emptyProject = [] ->
  run =
    (if w_writable w target
     then (Ok (mkCreateResponse uuid (resolve path)
                 (if createInitialScene then Some "Main Scene" else None)),
           (setFiles (<[target := doc]> (w_files w)) w,
            reg ++ [(uuid, session false)]))
     else (Err (IOFailure target), (w, reg ++ [(uuid, session true)])))
  /\ (if w_writable w target
      then w_files (fst (snd run)) !! target = Some doc
           /\ (forall other : string,
                  other <> target ->
                  w_files (fst (snd run)) !! other = w_files w !! other)
           /\ ProjectManager.map_get uuid (snd (snd run))
              = Some (session false)
      else w_files (fst (snd run)) = w_files w
           /\ ProjectManager.map_get uuid (snd (snd run))
              = Some (session true)).
Proof.
  intros target doc session run Hfree Hnone.
  assert (Hrun : run =
    (if w_writable w target
     then (Ok (mkCreateResponse uuid (resolve path)
                 (if createInitialScene then Some "Main Scene" else None)),
           (setFiles (<[target := doc]> (w_files w)) w,
            reg ++ [(uuid, session false)]))
     else (Err (IOFailure target), (w, reg ++ [(uuid, session true)])))).
  { subst run.
    unfold gdevelop_project_create. unfold bind at 1.
    rewrite createProject_run. cbv zeta. cbn [Js.or_else]. rewrite Hfree.
    cbn [id]. rewrite withSession_last by exact Hfree.
    set (body := bind _ _).
    assert (Hbody :
      body (w, mkSession uuid (GD.setProjectName name emptyProject)
                 (resolve path) true (w_now w) (w_now w))
      = if w_writable w target
        then (Ok (mkCreateResponse uuid (resolve path)
                    (if createInitialScene then Some "Main Scene" else None)),
              (setFiles (<[target := doc]> (w_files w)) w, session false))
        else (Err (IOFailure target), (w, session true))).
    { subst body. unfold Session.createLayout. step_monad.
      cbv beta iota delta
        [project Session.setProject Session.setDirty Session.setLastModifiedAt
         id projectPath dirty createdAt lastModifiedAt].
      assert (Hdoc : forall d, project (session d) = doc) by reflexivity.
      destruct createInitialScene.
      - unfold GD.hasLayoutNamed.
        cbn [GD.layouts GD.setMaximumFPS GD.setDefaultHeight GD.setDefaultWidth
             GD.setProjectName]. rewrite Hnone. cbn [existsb].
        cbv beta iota delta
          [project Session.setProject Session.setDirty Session.setLastModifiedAt
           id projectPath dirty createdAt lastModifiedAt].
        match goal with
        | |- context [Session.save None (w, ?s)] =>
            replace s with (session true)
        end.
        + destruct (w_writable w target) eqn:Hw.
          * rewrite (save_ok w (session true) None Hw). reflexivity.
          * rewrite (save_fail w (session true) None Hw). reflexivity.
        + unfold session, doc, createdDocument, GD.insertNewLayout, GD.insert_at,
            Js.nullish, GD.getLayoutsCount.
          cbn [GD.layouts GD.setMaximumFPS GD.setDefaultHeight GD.setDefaultWidth
               GD.setProjectName].
          rewrite Hnone. reflexivity.
      - match goal with
        | |- context [Session.save None (w, ?s)] =>
            change s with (session true)
        end.
        destruct (w_writable w target) eqn:Hw.
        + rewrite (save_ok w (session true) None Hw). reflexivity.
        + rewrite (save_fail w (session true) None Hw). reflexivity. }
    rewrite Hbody. destruct (w_writable w target); reflexivity. }
  split; [exact Hrun|]. rewrite Hrun.
  destruct (w_writable w target); cbn [fst snd setFiles w_files].
  - split; [apply lookup_insert_eq|]. split.
    + intros other Hother. apply lookup_insert_ne. intros Heq.
      apply Hother. symmetry. exact Heq.
    + rewrite <- (map_set_new _ _ _ Hfree). apply map_get_set_same.
  - split; [reflexivity|].
    rewrite <- (map_set_new _ _ _ Hfree). apply map_get_set_same.
Qed.

(** A project created at a writable path: the file holds the new
    document, with its first scene, and the session is registered clean.
    At a path that rejects the write: the call throws, nothing is
    written, and the session is registered all the same, dirty. *)
Lemma project_create_registers_before_saving_witness :
  let created :=
    GD.mkProject "Mine" "1.0.0" "" "" "com.example.gamename"
      1280 720 60 20 "Main Scene" [GD.newLayout "Main Scene"] [] [] in
  (let run :=
     gdevelop_project_create (fun p => p) "u1" untitled "/work/new.json" "Mine"
       1280 720 60 true (Examples.world, Examples.registry) in
   fst run = Ok (mkCreateResponse "u1" "/work/new.json" (Some "Main Scene"))
   /\ w_files (fst (snd run)) !! "/work/new.json" = Some created
   /\ ProjectManager.map_get "u1" (snd (snd run))
      = Some (mkSession "u1" created "/work/new.json" false 1000 1000))
  /\ (let run :=
        gdevelop_project_create (fun p => p) "u1" untitled "/ro/game.json"
          "Mine" 1280 720 60 true (Examples.world, Examples.registry) in
      fst run = Err (IOFailure "/ro/game.json")
      /\ w_files (fst (snd run)) = w_files Examples.world
      /\ ProjectManager.map_get "u1" (snd (snd run))
         = Some (mkSession "u1" created "/ro/game.json" true 1000 1000)).
Proof.
  intros created. split.
  - destruct (project_create_registers_before_saving (fun p => p) "u1" untitled
                "/work/new.json" "Mine" 1280 720 60 true
                Examples.world Examples.registry eq_refl eq_refl)
      as [Hrun Hread].
    intros run.
    change (w_writable Examples.world (saveLocation "/work/new.json"))
      with true in Hrun, Hread.
    change (saveLocation "/work/new.json") with "/work/new.json" in Hread.
    cbv beta iota in Hrun, Hread.
    destruct Hread as (Hfile & _ & Hsession).
    split; [exact (f_equal fst Hrun)|].
    split; [exact Hfile | exact Hsession].
  - destruct (project_create_registers_before_saving (fun p => p) "u1" untitled
                "/ro/game.json" "Mine" 1280 720 60 true
                Examples.world Examples.registry eq_refl eq_refl)
      as [Hrun Hread].
    intros run.
    change (w_writable Examples.world (saveLocation "/ro/game.json"))
      with false in Hrun, Hread.
    cbv beta iota in Hrun, Hread.
    destruct Hread as (Hfile & Hsession).
    split; [exact (f_equal fst Hrun)|].
    split; [exact Hfile | exact Hsession].
Defined.

(* ===================================================================== *)
(** * Instance tools of [tools/instances.ts] *)
(* ===================================================================== *)

(** Further calls of the engine on instances and their container
    ([types/gdcore.ts]). *)
Module GDInstances.

Definition setHasCustomSize (v : bool) (i : GD.InitialInstance)
  : GD.InitialInstance :=
  GD.mkInstance (GD.inst_objectName i) (GD.inst_x i) (GD.inst_y i)
    (GD.inst_z i) (GD.inst_angle i) (GD.inst_zOrder i) (GD.inst_layer i)
    (GD.inst_locked i) v (GD.inst_customWidth i) (GD.inst_customHeight i)
    (GD.inst_flippedX i) (GD.inst_flippedY i).

Definition setCustomWidth (v : Z) (i : GD.InitialInstance)
  : GD.InitialInstance :=
  GD.mkInstance (GD.inst_objectName i) (GD.inst_x i) (GD.inst_y i)
    (GD.inst_z i) (GD.inst_angle i) (GD.inst_zOrder i) (GD.inst_layer i)
    (GD.inst_locked i) (GD.inst_hasCustomSize i) v (GD.inst_customHeight i)
    (GD.inst_flippedX i) (GD.inst_flippedY i).

Definition setCustomHeight (v : Z) (i : GD.InitialInstance)
  : GD.InitialInstance :=
  GD.mkInstance (GD.inst_objectName i) (GD.inst_x i) (GD.inst_y i)
    (GD.inst_z i) (GD.inst_angle i) (GD.inst_zOrder i) (GD.inst_layer i)
    (GD.inst_locked i) (GD.inst_hasCustomSize i) (GD.inst_customWidth i) v
    (GD.inst_flippedX i) (GD.inst_flippedY i).

Definition setFlippedX (v : bool) (i : GD.InitialInstance)
  : GD.InitialInstance :=
  GD.mkInstance (GD.inst_objectName i) (GD.inst_x i) (GD.inst_y i)
    (GD.inst_z i) (GD.inst_angle i) (GD.inst_zOrder i) (GD.inst_layer i)
    (GD.inst_locked i) (GD.inst_hasCustomSize i) (GD.inst_customWidth i)
    (GD.inst_customHeight i) v (GD.inst_flippedY i).

Definition setFlippedY (v : bool) (i : GD.InitialInstance)
  : GD.InitialInstance :=
  GD.mkInstance (GD.inst_objectName i) (GD.inst_x i) (GD.inst_y i)
    (GD.inst_z i) (GD.inst_angle i) (GD.inst_zOrder i) (GD.inst_layer i)
    (GD.inst_locked i) (GD.inst_hasCustomSize i) (GD.inst_customWidth i)
    (GD.inst_customHeight i) (GD.inst_flippedX i) v.

(** [removeInitialInstancesOfObject(objectName)]: every instance of the
    object goes, the others keep their order. *)
Definition removeInitialInstancesOfObject (objectName : string)
  (c : GD.InitialInstancesContainer) : GD.InitialInstancesContainer :=
  List.filter (fun i => negb (String.eqb (GD.inst_objectName i) objectName)) c.

(** [removeAllInstancesOnLayer(layerName)]: every instance on the layer
    goes, the others keep their order. *)
Definition removeAllInstancesOnLayer (layerName : string)
  (c : GD.InitialInstancesContainer) : GD.InitialInstancesContainer :=
  List.filter (fun i => negb (String.eqb (GD.inst_layer i) layerName)) c.

(** [iterateOverInstances(callback)], called as the handlers call it,
    with a plain function. The engine takes the visitor as an object of
    its functor class ([gd.InitialInstanceJSFunctor]) and cannot invoke a
    plain function: on a container holding an instance the call faults
    at the first one, and on an empty container there is nothing to
    invoke. The callback is never run, so what it accumulates is what it
    started with. *)
Definition iterateOverInstances {St S}
  (callback : GD.InitialInstance -> S -> S)
  (c : GD.InitialInstancesContainer) (start : S) : M St S :=
  match c with
  | [] => ret start
  | _ :: _ => throw (EngineFault "iterateOverInstances")
  end.

End GDInstances.

Module InstanceHandlers.

(** One entry of the [instances] array of [gdevelop_instance_list]. *)
Record InstanceInfo : Type := mkInstanceInfo {
  i_objectName : string;
  i_layer : string;
  i_x : Z;
  i_y : Z;
  i_z : Z;
  i_angle : Z;
  i_zOrder : Z;
  i_customSize : option (Z * Z);
  i_locked : bool;
  i_flipped : bool * bool
}.

Record ListResponse : Type := mkListResponse {
  instances : list InstanceInfo;
  totalCount : Z
}.

Definition describe (instance : GD.InitialInstance) : InstanceInfo :=
  let layer := GD.inst_layer instance in
  mkInstanceInfo (GD.inst_objectName instance)
    (if Js.truthy layer then layer else "(Base layer)")
    (GD.inst_x instance) (GD.inst_y instance) (GD.inst_z instance)
    (GD.inst_angle instance) (GD.inst_zOrder instance)
    (if GD.inst_hasCustomSize instance
     then Some (GD.inst_customWidth instance, GD.inst_customHeight instance)
     else None)
    (GD.inst_locked instance)
    (GD.inst_flippedX instance, GD.inst_flippedY instance).

(** The callback given to [iterateOverInstances]. *)
Definition visit (filterByObject filterByLayer : option string)
  (instance : GD.InitialInstance) (found : list InstanceInfo)
  : list InstanceInfo :=
  let objectName := GD.inst_objectName instance in
  let layer := GD.inst_layer instance in
  if Js.truthy_opt filterByObject
     && negb (bool_decide (Some objectName = filterByObject))
  then found
  else if Js.truthy_opt filterByLayer
          && negb (bool_decide (Some layer = filterByLayer))
  then found
  else found ++ [describe instance].

Definition gdevelop_instance_list (sceneName : string)
  (filterByObject filterByLayer : option string)
  : M SessionState ListResponse :=
  let! layout := Session.getLayout sceneName in
  let! found :=
    GDInstances.iterateOverInstances (visit filterByObject filterByLayer)
      (GD.lay_initialInstances layout) [] in
  ret (mkListResponse found (Z.of_nat (length found))).

Record CreateResponse : Type := mkCreateResponse {
  created_objectName : string;
  created_position : Z * Z * option Z
}.

(** The instance as the setters of [gdevelop_instance_create] leave
    it. *)
Definition place (objectName : string) (x y : Z) (z : option Z)
  (layer : string) (angle : Z) (zOrder customWidth customHeight : option Z)
  (flippedX flippedY : bool) : GD.InitialInstance :=
  let sized (i : GD.InitialInstance) :=
    match customWidth, customHeight with
    | None, None => i
    | _, _ =>
        GD.set_if_defined GDInstances.setCustomHeight customHeight
          (GD.set_if_defined GDInstances.setCustomWidth customWidth
             (GDInstances.setHasCustomSize true i))
    end in
  GDInstances.setFlippedY flippedY
    (GDInstances.setFlippedX flippedX
       (sized
          (GD.set_if_defined GD.setZOrder zOrder
             (GD.setAngle angle
                (GD.setLayer layer
                   (GD.set_if_defined GD.setZ z
                      (GD.setY y
                         (GD.setX x
                            (GD.setObjectName objectName
                               GD.newInitialInstance))))))))).

Definition gdevelop_instance_create (sceneName objectName : string)
  (x y : Z) (z : option Z) (layer : string) (angle : Z)
  (zOrder customWidth customHeight : option Z) (flippedX flippedY : bool)
  : M SessionState CreateResponse :=
  let! layout := Session.getLayout sceneName in
  let! isGlobal := Session.hasGlobalObject objectName in
  if negb (GD.hasObjectNamed objectName (GD.lay_objects layout))
     && negb isGlobal
  then throw (JsError ("Object " +:+ Js.quoted objectName
                       +:+ " not found in scene or globally"))
  else
    do! Session.updateProject
          (GD.updateLayout sceneName
             (fun l =>
                GD.setInitialInstances
                  (GD.lay_initialInstances l
                   ++ [place objectName x y z layer angle zOrder
                         customWidth customHeight flippedX flippedY])
                  l)) in
    do! Session.markDirty in
    ret (mkCreateResponse objectName (x, y, z)).

(** [if (inst.getObjectName() === objectName) deletedCount++]. *)
Definition countWhen (test : GD.InitialInstance -> bool)
  (inst : GD.InitialInstance) (deletedCount : Z) : Z :=
  if test inst then deletedCount + 1 else deletedCount.

Definition gdevelop_instance_delete (sceneName : string)
  (objectName layer : option string) : M SessionState Z :=
  let! layout := Session.getLayout sceneName in
  let instances := GD.lay_initialInstances layout in
  let onInstances (f : GD.InitialInstancesContainer
                       -> GD.InitialInstancesContainer) :=
    Session.updateProject
      (GD.updateLayout sceneName
         (fun l => GD.setInitialInstances (f (GD.lay_initialInstances l)) l)) in
  let byLayer : M SessionState Z :=
    match layer with
    | Some ly =>
        let! counted :=
          GDInstances.iterateOverInstances
            (countWhen (fun inst => String.eqb (GD.inst_layer inst) ly))
            instances 0 in
        do! onInstances (GDInstances.removeAllInstancesOnLayer ly) in
        ret counted
    | None => throw (JsError "Must specify either objectName or layer")
    end in
  let! deletedCount :=
    match objectName with
    | Some n =>
        if Js.truthy n then
          let! counted :=
            GDInstances.iterateOverInstances
              (countWhen (fun inst => String.eqb (GD.inst_objectName inst) n))
              instances 0 in
          do! onInstances (GDInstances.removeInitialInstancesOfObject n) in
          ret counted
        else byLayer
    | None => byLayer
    end in
  do! Session.markDirty in
  ret deletedCount.

End InstanceHandlers.

(** ** Listing, placing and deleting instances *)

Lemma getLayout_found (n : string) (w : World) (s : ProjectSession)
  (l : GD.Layout) :
  GD.getLayout n (project s) = Some l ->
  Session.getLayout n (w, s) = (Ok l, (w, s)).
Proof.
  intros H. unfold Session.getLayout. step_monad. rewrite H. reflexivity.
Qed.

Lemma getLayout_missing (n : string) (w : World) (s : ProjectSession) :
  GD.getLayout n (project s) = None ->
  Session.getLayout n (w, s)
  = (Err (JsError ("Layout " +:+ Js.quoted n +:+ " not found")), (w, s)).
Proof.
  intros H. unfold Session.getLayout. step_monad. rewrite H. reflexivity.
Qed.

(** X13. [gdevelop_instance_list] answers only for a scene without
    instances, with an empty list and a count of zero; on a scene holding
    an instance it throws the fault of the engine's iteration, whatever
    the filters. It changes nothing in either case. *)
Theorem instance_list_faults_on_any_instance :
  forall (sceneName : string) (filterByObject filterByLayer : option string)
         (w : World) (s : ProjectSession) (layout : GD.Layout),
    GD.getLayout sceneName (project s) = Some layout ->
    InstanceHandlers.gdevelop_instance_list sceneName filterByObject
      filterByLayer (w, s)
    = match GD.lay_initialInstances layout with
      | [] => (Ok (InstanceHandlers.mkListResponse [] 0), (w, s))
      | _ :: _ => (Err (EngineFault "iterateOverInstances"), (w, s))
      end.
Proof.
  intros sceneName fO fL w s layout Hl.
  unfold InstanceHandlers.gdevelop_instance_list. unfold bind at 1.
  rewrite (getLayout_found _ w s layout Hl).
  destruct (GD.lay_initialInstances layout); reflexivity.
Qed.

(** The example session with one more scene, [Credits], which has no
    instance. *)
Definition withCredits : ProjectSession :=
  Session.setProject
    (GD.setLayouts [Examples.menu; Examples.level; GD.newLayout "Credits"]
       Examples.game)
    Examples.session.

(** The scene [Menu] holds two instances and cannot be listed; the scene
    [Credits] holds none and is listed as empty. *)
Lemma instance_list_faults_on_any_instance_witness :
  InstanceHandlers.gdevelop_instance_list "Menu" (Some "Coin") None
    (Examples.world, withCredits)
  = (Err (EngineFault "iterateOverInstances"), (Examples.world, withCredits))
  /\ InstanceHandlers.gdevelop_instance_list "Credits" None None
       (Examples.world, withCredits)
     = (Ok (InstanceHandlers.mkListResponse [] 0), (Examples.world, withCredits)).
Proof.
  split.
  - exact (instance_list_faults_on_any_instance "Menu" (Some "Coin") None
             Examples.world withCredits Examples.menu eq_refl).
  - exact (instance_list_faults_on_any_instance "Credits" None None
             Examples.world withCredits (GD.newLayout "Credits") eq_refl).
Defined.

Section UpdatingInPlace.

Context {A : Type}.

Lemma update_first_compose (p : A -> bool) (f g : A -> A) (l : list A) :
  (forall a, p a = true -> p (f a) = true) ->
  GD.update_first p g (GD.update_first p f l)
  = GD.update_first p (fun a => g (f a)) l.
Proof.
  intros Hp. induction l as [|a l IH]; cbn; [reflexivity|].
  destruct (p a) eqn:Ha; cbn.
  - rewrite (Hp a Ha). reflexivity.
  - rewrite Ha, IH. reflexivity.
Qed.

Lemma update_first_fixed (p : A -> bool) (h : A -> A) (l : list A) (a : A) :
  find p l = Some a -> h a = a -> GD.update_first p h l = l.
Proof.
  intros Hfind Hh. induction l as [|b l IH]; cbn in *; [reflexivity|].
  destruct (p b); [|rewrite IH by exact Hfind; reflexivity].
  injection Hfind as ->. rewrite Hh. reflexivity.
Qed.

Lemma find_update_first_other (p q : A -> bool) (f : A -> A) (l : list A) :
  (forall a, p a = true -> q a = false /\ q (f a) = false) ->
  find q (GD.update_first p f l) = find q l.
Proof.
  intros Hpq. induction l as [|a l IH]; cbn; [reflexivity|].
  destruct (p a) eqn:Ha; cbn.
  - destruct (Hpq a Ha) as [-> ->]. reflexivity.
  - rewrite IH. reflexivity.
Qed.

Lemma filter_none (test : A -> bool) (l : list A) :
  List.filter test l = [] ->
  List.filter (fun x => negb (test x)) l = l.
Proof.
  induction l as [|a l IH]; cbn; [reflexivity|].
  destruct (test a); cbn; [discriminate|]. intros H. rewrite IH by exact H.
  reflexivity.
Qed.

End UpdatingInPlace.

Lemma getLayout_updateLayout_other (n m : string) (f : GD.Layout -> GD.Layout)
  (p : GD.Project) :
  (forall l, GD.lay_name (f l) = GD.lay_name l) ->
  m <> n ->
  GD.getLayout m (GD.updateLayout n f p) = GD.getLayout m p.
Proof.
  intros Hname Hne. unfold GD.getLayout, GD.updateLayout. cbn.
  apply find_update_first_other. intros l Hl.
  unfold GD.layout_named in *. rewrite Hname.
  apply String.eqb_eq in Hl. rewrite Hl.
  split; apply String.eqb_neq; congruence.
Qed.

(** The session after a change [f] of its document followed by
    [markDirty()], at clock [now]. *)
Definition edited (now : Z) (f : GD.Project -> GD.Project)
  (s : ProjectSession) : ProjectSession :=
  mkSession (id s) (f (project s)) (projectPath s) true (createdAt s) now.

(** The scene with one more instance at the end of its container. *)
Definition withInstance (i : GD.InitialInstance) (l : GD.Layout) : GD.Layout :=
  GD.setInitialInstances (GD.lay_initialInstances l ++ [i]) l.

(** X14. [gdevelop_instance_create], for an object known in the scene or
    globally, appends exactly one instance to the scene, carrying the
    given values, marks the session dirty and leaves every other scene
    alone. The scene then holds an instance, so listing it afterwards
    throws the fault of the engine's iteration, whatever the filters. *)
Theorem instance_create_appends_one_instance :
  forall (sceneName objectName : string) (x y : Z) (z : option Z)
         (layer : string) (angle : Z) (zOrder customWidth customHeight : option Z)
         (flippedX flippedY : bool) (filterByObject filterByLayer : option string)
         (w : World) (s : ProjectSession) (layout : GD.Layout),
    GD.getLayout sceneName (project s) = Some layout ->
    GD.hasObjectNamed objectName (GD.lay_objects layout)
    || GD.hasObjectNamed objectName (GD.objects (project s)) = true ->
    let placed :=
      InstanceHandlers.place objectName x y z layer angle zOrder
        customWidth customHeight flippedX flippedY in
    exists s',
      InstanceHandlers.gdevelop_instance_create sceneName objectName x y z
        layer angle zOrder customWidth customHeight flippedX flippedY (w, s)
      = (Ok (InstanceHandlers.mkCreateResponse objectName (x, y, z)), (w, s'))
      /\ dirty s' = true
      /\ GD.getLayout sceneName (project s') = Some (withInstance placed layout)
      /\ GD.lay_initialInstances (withInstance placed layout)
         = GD.lay_initialInstances layout ++ [placed]
      /\ (forall other, other <> sceneName ->
                        GD.getLayout other (project s')
                        = GD.getLayout other (project s))
      /\ InstanceHandlers.gdevelop_instance_list sceneName filterByObject
           filterByLayer (w, s')
         = (Err (EngineFault "iterateOverInstances"), (w, s')).
Proof.
  intros sceneName objectName x y z layer angle zOrder cw ch fx fy fO fL w s
    layout Hl Hknown placed.
  exists (edited (w_now w) (GD.updateLayout sceneName (withInstance placed)) s).
  assert (Hafter :
    GD.getLayout sceneName
      (GD.updateLayout sceneName (withInstance placed) (project s))
    = Some (withInstance placed layout)).
  { rewrite getLayout_updateLayout by reflexivity. rewrite Hl. reflexivity. }
  split; [|split; [reflexivity | split; [exact Hafter |
           split; [reflexivity | split]]]].
  - unfold InstanceHandlers.gdevelop_instance_create. unfold bind at 1.
    rewrite (getLayout_found _ w s layout Hl).
    unfold bind at 1. unfold Session.hasGlobalObject, gets. cbn [snd].
    apply orb_true_iff in Hknown.
    replace (negb (GD.hasObjectNamed objectName (GD.lay_objects layout))
             && negb (GD.hasObjectNamed objectName (GD.objects (project s))))
      with false
      by (destruct Hknown as [-> | ->]; cbn; rewrite ?andb_false_r; reflexivity).
    reflexivity.
  - intros other Hne. cbn [project edited].
    apply getLayout_updateLayout_other; [reflexivity | exact Hne].
  - unfold InstanceHandlers.gdevelop_instance_list. unfold bind at 1.
    rewrite (getLayout_found sceneName w
               (edited (w_now w)
                  (GD.updateLayout sceneName (withInstance placed)) s)
               _ Hafter).
    cbn [withInstance GD.lay_initialInstances GD.setInitialInstances].
    destruct (GD.lay_initialInstances layout); reflexivity.
Qed.

(** A coin placed in the scene [Level]: the scene holds it after its two
    former instances, with the values given. *)
Lemma instance_create_appends_one_instance_witness :
  exists s',
    InstanceHandlers.gdevelop_instance_create "Level" "Coin" 40 50 None
      "" 90 (Some 3) (Some 16) None true false
      (Examples.world, Examples.session)
    = (Ok (InstanceHandlers.mkCreateResponse "Coin" (40, 50, None)),
       (Examples.world, s'))
    /\ dirty s' = true
    /\ (map InstanceHandlers.describe
          <$> (GD.lay_initialInstances <$> GD.getLayout "Level" (project s')))
       = Some [InstanceHandlers.mkInstanceInfo "Coin" "(Base layer)" 5 6 0 0 0
                 None false (false, false);
               InstanceHandlers.mkInstanceInfo "Hero" "(Base layer)" 7 8 0 0 0
                 None false (false, false);
               InstanceHandlers.mkInstanceInfo "Coin" "(Base layer)" 40 50 0
                 90 3 (Some (16, 0)) false (true, false)]
    /\ InstanceHandlers.gdevelop_instance_list "Level" None None
         (Examples.world, s')
       = (Err (EngineFault "iterateOverInstances"), (Examples.world, s')).
Proof.
  destruct (instance_create_appends_one_instance "Level" "Coin" 40 50 None
              "" 90 (Some 3) (Some 16) None true false None None
              Examples.world Examples.session Examples.level eq_refl eq_refl)
    as (s' & Hrun & Hdirty & Hscene & _ & _ & Hlist).
  exists s'. split; [exact Hrun|]. split; [exact Hdirty|].
  split; [rewrite Hscene; reflexivity | exact Hlist].
Defined.

(** X15. [gdevelop_instance_create] throws and leaves the session as it
    was (not even marked dirty) when the scene does not exist, and when
    the object is known neither in the scene nor globally. *)
Theorem instance_create_rejects_unknown_names :
  forall (sceneName objectName : string) (x y : Z) (z : option Z)
         (layer : string) (angle : Z) (zOrder customWidth customHeight : option Z)
         (flippedX flippedY : bool) (w : World) (s : ProjectSession),
    match GD.getLayout sceneName (project s) with
    | Some layout =>
        GD.hasObjectNamed objectName (GD.lay_objects layout)
        || GD.hasObjectNamed objectName (GD.objects (project s))
    | None => false
    end = false ->
    InstanceHandlers.gdevelop_instance_create sceneName objectName x y z
      layer angle zOrder customWidth customHeight flippedX flippedY (w, s)
    = (Err (JsError
              (match GD.getLayout sceneName (project s) with
               | Some _ => "Object " +:+ Js.quoted objectName
                           +:+ " not found in scene or globally"
               | None => "Layout " +:+ Js.quoted sceneName +:+ " not found"
               end)),
       (w, s)).
Proof.
  intros sceneName objectName x y z layer angle zOrder cw ch fx fy w s Hunknown.
  unfold InstanceHandlers.gdevelop_instance_create. unfold bind at 1.
  destruct (GD.getLayout sceneName (project s)) as [layout|] eqn:Hl.
  - rewrite (getLayout_found _ w s layout Hl).
    unfold bind at 1. unfold Session.hasGlobalObject, gets. cbn [snd].
    apply orb_false_iff in Hunknown as [-> ->]. reflexivity.
  - rewrite (getLayout_missing _ w s Hl). reflexivity.
Qed.

Lemma instance_create_rejects_unknown_names_witness :
  InstanceHandlers.gdevelop_instance_create "Level" "Hero" 1 2 None "" 0
    None None None false false (Examples.world, Examples.cleanSession)
  = (Err (JsError ("Object " +:+ Js.quoted "Hero"
                   +:+ " not found in scene or globally")),
     (Examples.world, Examples.cleanSession)).
Proof.
  exact (instance_create_rejects_unknown_names "Level" "Hero" 1 2 None "" 0
           None None None false false Examples.world Examples.cleanSession
           eq_refl).
Defined.

(** Which instances [gdevelop_instance_delete] selects: those of the
    object when a non-empty object name is given, else those on the layer
    when a layer is given (the empty name is the base layer). *)
Definition deletionTest (objectName layer : option string)
  : option (GD.InitialInstance -> bool) :=
  if Js.truthy_opt objectName
  then Some (fun i => String.eqb (GD.inst_objectName i)
                        (Js.or_else objectName ""))
  else match layer with
       | Some ly => Some (fun i => String.eqb (GD.inst_layer i) ly)
       | None => None
       end.

Lemma updateLayout_twice (n : string) (f g : GD.Layout -> GD.Layout)
  (p : GD.Project) :
  (forall l, GD.lay_name (f l) = GD.lay_name l) ->
  GD.updateLayout n g (GD.updateLayout n f p)
  = GD.updateLayout n (fun l => g (f l)) p.
Proof.
  intros Hname. unfold GD.updateLayout. destruct p. unfold GD.setLayouts.
  cbn [GD.layouts GD.name GD.version GD.description GD.author GD.packageName
       GD.windowWidth GD.windowHeight GD.maximumFPS GD.minimumFPS
       GD.firstLayout GD.objects GD.externalEvents].
  rewrite update_first_compose; [reflexivity|].
  intros l Hl. unfold GD.layout_named in *. rewrite Hname. exact Hl.
Qed.

Lemma updateLayout_fixed (n : string) (h : GD.Layout -> GD.Layout)
  (p : GD.Project) (l : GD.Layout) :
  GD.getLayout n p = Some l -> h l = l -> GD.updateLayout n h p = p.
Proof.
  intros Hl Hh. unfold GD.updateLayout, GD.getLayout in *.
  rewrite (update_first_fixed _ h _ l Hl Hh). apply setLayouts_same.
Qed.

(** X16. [gdevelop_instance_delete] with neither a non-empty object name
    nor a layer throws and changes nothing. With a selector (a non-empty
    object name, else a given layer), it counts before it removes, and
    the count is the engine's iteration: on a scene holding an instance
    the call throws the fault of that iteration, before anything is
    removed, and the session is as it was, not marked dirty; on a scene
    without instances it answers zero, leaves the document as it was and
    marks the session dirty. *)
Theorem instance_delete_faults_on_any_instance :
  forall (sceneName : string) (objectName layer : option string)
         (w : World) (s : ProjectSession) (layout : GD.Layout),
    GD.getLayout sceneName (project s) = Some layout ->
    match deletionTest objectName layer with
    | None =>
        InstanceHandlers.gdevelop_instance_delete sceneName objectName layer
          (w, s)
        = (Err (JsError "Must specify either objectName or layer"), (w, s))
    | Some test =>
        match GD.lay_initialInstances layout with
        | [] =>
            exists s',
              InstanceHandlers.gdevelop_instance_delete sceneName objectName
                layer (w, s)
              = (Ok 0, (w, s'))
              /\ dirty s' = true
              /\ lastModifiedAt s' = w_now w
              /\ project s' = project s
        | _ :: _ =>
            InstanceHandlers.gdevelop_instance_delete sceneName objectName
              layer (w, s)
            = (Err (EngineFault "iterateOverInstances"), (w, s))
        end
    end.
Proof.
  intros sceneName objectName layer w s layout Hl.
  assert (Hstart : forall (k : GD.Layout -> M SessionState Z),
             bind (Session.getLayout sceneName) k (w, s) = k layout (w, s)).
  { intros k. unfold bind. rewrite (getLayout_found _ w s layout Hl).
    reflexivity. }
  assert (Hsame : forall remove : GD.InitialInstancesContainer
                                  -> GD.InitialInstancesContainer,
             GD.lay_initialInstances layout = [] -> remove [] = [] ->
             GD.updateLayout sceneName
               (fun l => GD.setInitialInstances
                           (remove (GD.lay_initialInstances l)) l)
               (project s)
             = project s).
  { intros remove Hempty Hremove.
    apply (updateLayout_fixed _ _ _ layout Hl).
    rewrite Hempty, Hremove. destruct layout. cbn in Hempty. subst.
    reflexivity. }
  unfold deletionTest, InstanceHandlers.gdevelop_instance_delete.
  rewrite Hstart.
  destruct objectName as [n|]; cbn [Js.truthy_opt Js.or_else];
    [destruct (Js.truthy n) eqn:Hn|]; [|destruct layer as [ly|]..];
    try reflexivity;
    (destruct (GD.lay_initialInstances layout) eqn:Hempty; [|reflexivity]);
    (eexists; split; [reflexivity|]; split; [reflexivity|];
     split; [reflexivity|]);
    cbn [project Session.setProject Session.setDirty
         Session.setLastModifiedAt];
    apply Hsame; reflexivity.
Qed.

(** Deleting the instances of [Coin] in the scene [Menu], which holds
    two instances, throws and leaves the clean session clean; in the
    scene [Credits], which holds none, it answers zero and the session
    is dirty. *)
Lemma instance_delete_faults_on_any_instance_witness :
  InstanceHandlers.gdevelop_instance_delete "Menu" (Some "Coin") None
    (Examples.world, Examples.cleanSession)
  = (Err (EngineFault "iterateOverInstances"),
     (Examples.world, Examples.cleanSession))
  /\ exists s',
       InstanceHandlers.gdevelop_instance_delete "Credits" (Some "Coin") None
         (Examples.world, withCredits)
       = (Ok 0, (Examples.world, s'))
       /\ dirty s' = true
       /\ project s' = project withCredits.
Proof.
  split.
  - exact (instance_delete_faults_on_any_instance "Menu" (Some "Coin") None
             Examples.world Examples.cleanSession Examples.menu eq_refl).
  - destruct (instance_delete_faults_on_any_instance "Credits" (Some "Coin")
                None Examples.world withCredits (GD.newLayout "Credits")
                eq_refl)
      as (s' & Hrun & Hdirty & _ & Hdoc).
    exists s'. split; [exact Hrun|]. split; [exact Hdirty | exact Hdoc].
Defined.

(** X18. The batch tool and the single-instance tool agree: a batch of
    one item naming a known object leaves the session exactly as
    [gdevelop_instance_create] does when it is called with the item's
    values and the defaults of its schema for the rest (base layer and
    angle zero when the item gives none, no custom size, no flip). *)
Theorem batch_of_one_places_what_create_places :
  forall (sceneName : string) (data : InstanceTools.InstanceData)
         (w : World) (s : ProjectSession) (layout : GD.Layout),
    GD.getLayout sceneName (project s) = Some layout ->
    GD.hasObjectNamed (InstanceTools.d_objectName data) (GD.lay_objects layout)
    || GD.hasObjectNamed (InstanceTools.d_objectName data)
         (GD.objects (project s)) = true ->
    snd (InstanceTools.gdevelop_instance_batch sceneName [data] (w, s))
    = snd (InstanceHandlers.gdevelop_instance_create sceneName
             (InstanceTools.d_objectName data)
             (InstanceTools.d_x data) (InstanceTools.d_y data)
             (InstanceTools.d_z data)
             (Js.nullish (InstanceTools.d_layer data) "")
             (Js.nullish (InstanceTools.d_angle data) 0)
             (InstanceTools.d_zOrder data) None None false false (w, s)).
Proof.
  intros sceneName data w s layout Hl Hknown.
  rewrite (batch_run w s sceneName layout [data] Hl).
  unfold InstanceHandlers.gdevelop_instance_create. unfold bind at 1.
  rewrite (getLayout_found _ w s layout Hl).
  unfold bind at 1. unfold Session.hasGlobalObject, gets. cbn [snd].
  cbn [placeAll]. unfold known at 1. rewrite Hknown.
  apply orb_true_iff in Hknown.
  replace (negb (GD.hasObjectNamed (InstanceTools.d_objectName data)
                   (GD.lay_objects layout))
           && negb (GD.hasObjectNamed (InstanceTools.d_objectName data)
                      (GD.objects (project s))))
    with false
    by (destruct Hknown as [-> | ->]; cbn; rewrite ?andb_false_r; reflexivity).
  step_monad. unfold place.
  replace (InstanceTools.buildInstance data)
    with (InstanceHandlers.place (InstanceTools.d_objectName data)
            (InstanceTools.d_x data) (InstanceTools.d_y data)
            (InstanceTools.d_z data)
            (Js.nullish (InstanceTools.d_layer data) "")
            (Js.nullish (InstanceTools.d_angle data) 0)
            (InstanceTools.d_zOrder data) None None false false);
    [reflexivity|].
  destruct data as [n x y z layer angle zOrder].
  destruct z, layer, angle, zOrder; reflexivity.
Qed.

Lemma batch_of_one_places_what_create_places_witness :
  snd (InstanceTools.gdevelop_instance_batch "Level"
         [InstanceTools.mkInstanceData "Coin" 9 9 None None (Some 30) None]
         (Examples.world, Examples.session))
  = snd (InstanceHandlers.gdevelop_instance_create "Level" "Coin" 9 9 None
           "" 30 None None None false false
           (Examples.world, Examples.session)).
Proof.
  exact (batch_of_one_places_what_create_places "Level"
           (InstanceTools.mkInstanceData "Coin" 9 9 None None (Some 30) None)
           Examples.world Examples.session Examples.level eq_refl eq_refl).
Defined.

(* ===================================================================== *)
(** * Creating and deleting objects *)
(* ===================================================================== *)

(** Further calls of the engine on object containers
    ([types/gdcore.ts]). *)
Module GDObjects.

(** [createObject(type, name)]. *)
Definition createObject (type name : string) : GD.Object :=
  GD.mkObject name type.

Definition getObjectsCount (c : GD.ObjectsContainer) : Z :=
  Z.of_nat (length c).

(** [insertObject(object, position)], with the engine's rule for a
    position outside the container. *)
Definition insertObject (o : GD.Object) (position : Z)
  (c : GD.ObjectsContainer) : GD.ObjectsContainer :=
  GD.insert_at position o c.

(** [removeObject(name)]: the object found under the name goes. *)
Definition removeObject (n : string) (c : GD.ObjectsContainer)
  : GD.ObjectsContainer :=
  GD.remove_first (GD.named n) c.

End GDObjects.

(** Global object operations of [ProjectSession]. *)
Module SessionObjects.

Definition createGlobalObject (name type : string) : M SessionState GD.Object :=
  let! taken := Session.hasGlobalObject name in
  if taken : bool
  then throw (JsError ("Global object " +:+ Js.quoted name
                       +:+ " already exists"))
  else
    let object := GDObjects.createObject type name in
    do! Session.updateProject
          (fun p => GD.setGlobalObjects
                      (GDObjects.insertObject object
                         (GDObjects.getObjectsCount (GD.objects p))
                         (GD.objects p)) p) in
    do! Session.markDirty in
    ret object.

Definition deleteGlobalObject (name : string) : M SessionState unit :=
  let! present := Session.hasGlobalObject name in
  if present : bool then
    do! Session.updateProject
          (fun p => GD.setGlobalObjects
                      (GDObjects.removeObject name (GD.objects p)) p) in
    Session.markDirty
  else throw (JsError ("Global object " +:+ Js.quoted name +:+ " not found")).

End SessionObjects.

Module ObjectHandlers.

Record CreateResponse : Type := mkCreateResponse {
  objectName : string;
  objectType : string;
  isGlobal : bool
}.

Definition gdevelop_object_create (name type : string)
  (sceneName : option string) : M SessionState CreateResponse :=
  do! (match sceneName with
       | Some n =>
           if Js.truthy n then
             let! layout := Session.getLayout n in
             if GD.hasObjectNamed name (GD.lay_objects layout)
             then throw (JsError ("Object " +:+ Js.quoted name
                                  +:+ " already exists in scene "
                                  +:+ Js.quoted n))
             else
               let object := GDObjects.createObject type name in
               Session.updateProject
                 (GD.updateLayout n
                    (fun l =>
                       GD.setObjects
                         (GDObjects.insertObject object
                            (GDObjects.getObjectsCount (GD.lay_objects l))
                            (GD.lay_objects l)) l))
           else let! _ := SessionObjects.createGlobalObject name type in ret tt
       | None => let! _ := SessionObjects.createGlobalObject name type in ret tt
       end) in
  do! Session.markDirty in
  ret (mkCreateResponse name type (negb (Js.truthy_opt sceneName))).

Record DeleteResponse : Type := mkDeleteResponse {
  deletedObject : string;
  instancesRemoved : Z
}.

(** [for (i = 0; i < project.getLayoutsCount(); i++)
      project.getLayoutAt(i).getInitialInstances()
             .removeInitialInstancesOfObject(objectName)]. *)
Definition removeInAllLayouts (objectName0 : string) (p : GD.Project)
  : GD.Project :=
  GD.setLayouts
    (map (fun l => GD.setInitialInstances
                     (GDInstances.removeInitialInstancesOfObject objectName0
                        (GD.lay_initialInstances l)) l)
         (GD.layouts p)) p.

Definition deleteInScene (objectName0 n : string) (removeInstances : bool)
  : M SessionState unit :=
  let! layout := Session.getLayout n in
  if GD.hasObjectNamed objectName0 (GD.lay_objects layout) then
    do! when_ removeInstances
          (Session.updateProject
             (GD.updateLayout n
                (fun l =>
                   GD.setInitialInstances
                     (GDInstances.removeInitialInstancesOfObject objectName0
                        (GD.lay_initialInstances l)) l))) in
    Session.updateProject
      (GD.updateLayout n
         (fun l => GD.setObjects
                     (GDObjects.removeObject objectName0 (GD.lay_objects l)) l))
  else throw (JsError ("Object " +:+ Js.quoted objectName0
                       +:+ " not found in scene " +:+ Js.quoted n)).

Definition deleteGlobally (objectName0 : string) (removeInstances : bool)
  : M SessionState unit :=
  do! SessionObjects.deleteGlobalObject objectName0 in
  when_ removeInstances
    (Session.updateProject (removeInAllLayouts objectName0)).

Definition gdevelop_object_delete (objectName0 : string)
  (sceneName : option string) (removeInstances : bool)
  : M SessionState DeleteResponse :=
  let instancesRemoved := 0 in
  do! (match sceneName with
       | Some n =>
           if Js.truthy n then deleteInScene objectName0 n removeInstances
           else deleteGlobally objectName0 removeInstances
       | None => deleteGlobally objectName0 removeInstances
       end) in
  do! Session.markDirty in
  ret (mkDeleteResponse objectName0 instancesRemoved).

End ObjectHandlers.

(** ** Object names stay unique in every container *)

Section UpdatingFound.

Context {A : Type}.

Lemma Forall_update_first_found (P : A -> Prop) (p : A -> bool) (f : A -> A)
  (l : list A) :
  Forall P l ->
  (forall a, find p l = Some a -> P (f a)) ->
  Forall P (GD.update_first p f l).
Proof.
  induction 1 as [|a l Ha Hl IH]; cbn; [constructor|].
  intros Hf. destruct (p a); constructor; auto.
Qed.

End UpdatingFound.

Definition namesUnique (c : GD.ObjectsContainer) : Prop :=
  List.NoDup (map GD.obj_name c).

(** No two global objects share a name, and in no scene do two objects
    of the scene share a name. *)
Definition objectsUnique (p : GD.Project) : Prop :=
  namesUnique (GD.objects p)
  /\ Forall (fun l => namesUnique (GD.lay_objects l)) (GD.layouts p).

Lemma namesUnique_insert (o : GD.Object) (position : Z)
  (c : GD.ObjectsContainer) :
  GD.hasObjectNamed (GD.obj_name o) c = false ->
  namesUnique c -> namesUnique (GDObjects.insertObject o position c).
Proof.
  intros Hfree Hc. apply (NoDup_insert_at GD.obj_name); [|exact Hc].
  apply (existsb_keyed_false GD.obj_name). exact Hfree.
Qed.

Lemma namesUnique_remove (n : string) (c : GD.ObjectsContainer) :
  namesUnique c -> namesUnique (GDObjects.removeObject n c).
Proof. apply (NoDup_remove_first GD.obj_name). Qed.

Lemma namesUnique_rename (n new : string) (c : GD.ObjectsContainer) :
  GD.hasObjectNamed new c = false ->
  namesUnique c -> namesUnique (GD.renameObject n new c).
Proof.
  intros Hfree Hc.
  apply (NoDup_update_first_rename GD.obj_name _ _ new);
    [reflexivity | apply (existsb_keyed_false GD.obj_name); exact Hfree
    | exact Hc].
Qed.

(** A change of the objects of the scene found under [n]. *)
Lemma objectsUnique_inScene (n : string)
  (f : GD.ObjectsContainer -> GD.ObjectsContainer) (p : GD.Project)
  (layout : GD.Layout) :
  GD.getLayout n p = Some layout ->
  (namesUnique (GD.lay_objects layout) ->
   namesUnique (f (GD.lay_objects layout))) ->
  objectsUnique p ->
  objectsUnique
    (GD.updateLayout n (fun l => GD.setObjects (f (GD.lay_objects l)) l) p).
Proof.
  intros Hl Hf [Hg Hs]. split; [exact Hg|].
  unfold GD.updateLayout. cbn [GD.layouts GD.setLayouts].
  apply Forall_update_first_found; [exact Hs|].
  intros a Ha. unfold GD.getLayout in Hl. rewrite Hl in Ha.
  injection Ha as <-. cbn [GD.lay_objects GD.setObjects]. apply Hf.
  apply find_some in Hl as [Hin _].
  rewrite List.Forall_forall in Hs. apply Hs. exact Hin.
Qed.

(** A change that touches instances only. *)
Lemma objectsUnique_instancesOnly (g : GD.Layout -> GD.Layout) (p : GD.Project) :
  (forall l, GD.lay_objects (g l) = GD.lay_objects l) ->
  objectsUnique p -> objectsUnique (GD.setLayouts (map g (GD.layouts p)) p).
Proof.
  intros Hg [Hglob Hs]. split; [exact Hglob|]. cbn [GD.layouts GD.setLayouts].
  rewrite List.Forall_forall in *. intros l Hin.
  apply in_map_iff in Hin as (l0 & <- & Hin0). rewrite Hg. auto.
Qed.

Lemma objectsUnique_updateInstances (n : string)
  (f : GD.Layout -> GD.Layout) (p : GD.Project) :
  (forall l, GD.lay_objects (f l) = GD.lay_objects l) ->
  objectsUnique p -> objectsUnique (GD.updateLayout n f p).
Proof.
  intros Hf [Hglob Hs]. split; [exact Hglob|].
  unfold GD.updateLayout. cbn [GD.layouts GD.setLayouts].
  apply Forall_update_first_found; [exact Hs|].
  intros a Ha. rewrite Hf. apply find_some in Ha as [Hin _].
  rewrite List.Forall_forall in Hs. auto.
Qed.

Lemma objectsUnique_global (f : GD.ObjectsContainer -> GD.ObjectsContainer)
  (p : GD.Project) :
  (namesUnique (GD.objects p) -> namesUnique (f (GD.objects p))) ->
  objectsUnique p -> objectsUnique (GD.setGlobalObjects (f (GD.objects p)) p).
Proof. intros Hf [Hglob Hs]. split; [apply Hf; exact Hglob | exact Hs]. Qed.

(** The object tools that change the document. *)
Inductive ObjectCall : Type :=
| ObjectCreate (name type : string) (sceneName : option string)
| ObjectDelete (objectName : string) (sceneName : option string)
    (removeInstances : bool)
| ObjectRename (currentName newName : string) (sceneName : option string).

Definition performObjectCall (c : ObjectCall) : M SessionState unit :=
  match c with
  | ObjectCreate name type sceneName =>
      let! _ := ObjectHandlers.gdevelop_object_create name type sceneName in
      ret tt
  | ObjectDelete objectName sceneName removeInstances =>
      let! _ := ObjectHandlers.gdevelop_object_delete objectName sceneName
                  removeInstances in
      ret tt
  | ObjectRename currentName newName sceneName =>
      let! _ := ObjectTools.gdevelop_object_rename currentName newName
                  sceneName in
      ret tt
  end.

(** The states a client can observe along a sequence of calls, each one
    made in the state the previous one left, whether it returned or
    threw. *)
Fixpoint statesAlong {C} (perform : C -> M SessionState unit)
  (calls : list C) (st : SessionState) : list SessionState :=
  st :: match calls with
        | [] => []
        | c :: rest => statesAlong perform rest (snd (perform c st))
        end.

Lemma statesAlong_invariant {C} (perform : C -> M SessionState unit)
  (I : SessionState -> Prop) :
  (forall c st, I st -> I (snd (perform c st))) ->
  forall calls st, I st -> Forall I (statesAlong perform calls st).
Proof.
  intros Hstep. induction calls as [|c rest IH]; intros st Hst; cbn.
  - constructor; [exact Hst | constructor].
  - constructor; [exact Hst|]. apply IH. apply Hstep. exact Hst.
Qed.

Definition objectsUniqueIn (st : SessionState) : Prop :=
  objectsUnique (project (snd st)).

Ltac session_fields :=
  cbn [project Session.setProject Session.setDirty Session.setLastModifiedAt
       fst snd].

Lemma createGlobalObject_keeps_unique (name type : string) (w : World)
  (s : ProjectSession) :
  objectsUnique (project s) ->
  objectsUnique
    (project (snd (snd (SessionObjects.createGlobalObject name type (w, s))))).
Proof.
  intros Hu. unfold SessionObjects.createGlobalObject. step_monad.
  destruct (GD.hasObjectNamed name (GD.objects (project s))) eqn:Hn;
    [exact Hu|].
  session_fields.
  apply (objectsUnique_global
           (fun c => GDObjects.insertObject (GDObjects.createObject type name)
                       (GDObjects.getObjectsCount c) c));
    [|exact Hu].
  apply namesUnique_insert. exact Hn.
Qed.

Lemma object_create_keeps_unique (name type : string)
  (sceneName : option string) (st : SessionState) :
  objectsUniqueIn st ->
  objectsUniqueIn
    (snd (ObjectHandlers.gdevelop_object_create name type sceneName st)).
Proof.
  destruct st as [w s]. unfold objectsUniqueIn. cbn [snd]. intros Hu.
  pose proof (createGlobalObject_keeps_unique name type w s Hu) as Hglobal.
  assert (Hg : objectsUnique
                 (project (snd (snd
                    ((do! (let! _ := SessionObjects.createGlobalObject name type
                           in ret tt) in
                      do! Session.markDirty in
                      ret (ObjectHandlers.mkCreateResponse name type
                             (negb (Js.truthy_opt sceneName)))) (w, s)))))).
  { unfold bind at 1. unfold bind at 1.
    destruct (SessionObjects.createGlobalObject name type (w, s))
      as [[o|e] [w' s']]; exact Hglobal. }
  unfold ObjectHandlers.gdevelop_object_create.
  destruct sceneName as [n|]; [|exact Hg].
  destruct (Js.truthy n) eqn:Hn; [|exact Hg].
  unfold Session.getLayout. step_monad.
  destruct (GD.getLayout n (project s)) as [layout|] eqn:Hl; [|exact Hu].
  step_monad.
  destruct (GD.hasObjectNamed name (GD.lay_objects layout)) eqn:Hname;
    [exact Hu|].
  session_fields.
  apply (objectsUnique_inScene n
           (fun c => GDObjects.insertObject (GDObjects.createObject type name)
                       (GDObjects.getObjectsCount c) c)
           (project s) layout Hl);
    [|exact Hu].
  apply namesUnique_insert. exact Hname.
Qed.

Lemma object_delete_keeps_unique (objectName : string)
  (sceneName : option string) (removeInstances : bool) (st : SessionState) :
  objectsUniqueIn st ->
  objectsUniqueIn
    (snd (ObjectHandlers.gdevelop_object_delete objectName sceneName
            removeInstances st)).
Proof.
  destruct st as [w s]. unfold objectsUniqueIn. cbn [snd]. intros Hu.
  assert (Hg : objectsUnique
                 (project (snd (snd
                    ((do! ObjectHandlers.deleteGlobally objectName
                            removeInstances in
                      do! Session.markDirty in
                      ret (ObjectHandlers.mkDeleteResponse objectName 0))
                       (w, s)))))).
  { unfold ObjectHandlers.deleteGlobally, SessionObjects.deleteGlobalObject.
    step_monad.
    destruct (GD.hasObjectNamed objectName (GD.objects (project s)));
      [|exact Hu].
    assert (Hu1 : objectsUnique
                    (GD.setGlobalObjects
                       (GDObjects.removeObject objectName
                          (GD.objects (project s))) (project s))).
    { apply (objectsUnique_global (GDObjects.removeObject objectName));
        [apply namesUnique_remove | exact Hu]. }
    destruct removeInstances; session_fields; [|exact Hu1].
    apply objectsUnique_instancesOnly; [reflexivity | exact Hu1]. }
  unfold ObjectHandlers.gdevelop_object_delete.
  destruct sceneName as [n|]; [|exact Hg].
  destruct (Js.truthy n) eqn:Hn; [|exact Hg].
  unfold ObjectHandlers.deleteInScene, Session.getLayout. step_monad.
  destruct (GD.getLayout n (project s)) as [layout|] eqn:Hl; [|exact Hu].
  step_monad.
  destruct (GD.hasObjectNamed objectName (GD.lay_objects layout)); [|exact Hu].
  assert (Hrm : forall p l,
             GD.getLayout n p = Some l -> objectsUnique p ->
             objectsUnique
               (GD.updateLayout n
                  (fun l => GD.setObjects
                              (GDObjects.removeObject objectName
                                 (GD.lay_objects l)) l) p)).
  { intros p l Hp Hup.
    apply (objectsUnique_inScene n (GDObjects.removeObject objectName) p l Hp);
      [apply namesUnique_remove | exact Hup]. }
  destruct removeInstances; session_fields.
  - eapply Hrm.
    + rewrite getLayout_updateLayout by reflexivity. rewrite Hl. reflexivity.
    + apply objectsUnique_updateInstances; [reflexivity | exact Hu].
  - eapply Hrm; [exact Hl | exact Hu].
Qed.

Lemma object_rename_keeps_unique (currentName newName : string)
  (sceneName : option string) (st : SessionState) :
  objectsUniqueIn st ->
  objectsUniqueIn
    (snd (ObjectTools.gdevelop_object_rename currentName newName sceneName st)).
Proof.
  destruct st as [w s]. unfold objectsUniqueIn. cbn [snd]. intros Hu.
  assert (Hg : objectsUnique
                 (project (snd (snd
                    ((let! (ref, container) :=
                        (let! p := Session.getProject in
                         ret (ObjectTools.Global, GD.objects p)) in
                      if GD.hasObjectNamed currentName container then
                        if GD.hasObjectNamed newName container
                        then throw (JsError ("Object " +:+ Js.quoted newName
                                             +:+ " already exists"))
                        else
                          do! ObjectTools.updateContainer ref
                                (GD.renameObject currentName newName) in
                          let! count := Session.getLayoutCount in
                          do! Session.updateProject
                                (ObjectTools.renameInAllLayouts currentName
                                   newName) in
                          do! Session.markDirty in
                          ret (ObjectTools.mkRenameResponse currentName newName
                                 count)
                      else throw (JsError ("Object " +:+ Js.quoted currentName
                                           +:+ " not found"))) (w, s)))))).
  { unfold ObjectTools.updateContainer. step_monad.
    destruct (GD.hasObjectNamed currentName (GD.objects (project s)));
      [|exact Hu].
    destruct (GD.hasObjectNamed newName (GD.objects (project s))) eqn:Hnew;
      [exact Hu|].
    session_fields. unfold ObjectTools.renameInAllLayouts.
    apply objectsUnique_instancesOnly; [reflexivity|].
    apply (objectsUnique_global (GD.renameObject currentName newName));
      [apply namesUnique_rename; exact Hnew | exact Hu]. }
  unfold ObjectTools.gdevelop_object_rename, ObjectTools.resolveContainer.
  destruct sceneName as [n|]; [|exact Hg].
  destruct (Js.truthy n) eqn:Hn; [|exact Hg].
  unfold Session.getLayout, ObjectTools.updateContainer. step_monad.
  destruct (GD.getLayout n (project s)) as [layout|] eqn:Hl; [|exact Hu].
  step_monad.
  destruct (GD.hasObjectNamed currentName (GD.lay_objects layout)); [|exact Hu].
  destruct (GD.hasObjectNamed newName (GD.lay_objects layout)) eqn:Hnew;
    [exact Hu|].
  session_fields. unfold ObjectTools.renameInAllLayouts.
  apply objectsUnique_instancesOnly; [reflexivity|].
  apply (objectsUnique_inScene n (GD.renameObject currentName newName)
           (project s) layout Hl);
    [apply namesUnique_rename; exact Hnew | exact Hu].
Qed.

(** X19. Object names stay unique in every container: along every
    sequence of object create, delete and rename calls, on scenes or on
    the global container, whether the calls return or throw, no two
    global objects share a name and no two objects of a scene share a
    name, provided that held at the start. *)
Theorem object_names_stay_unique :
  forall (calls : list ObjectCall) (st : SessionState),
    List.NoDup (map GD.obj_name (GD.objects (project (snd st)))) ->
    Forall (fun l => List.NoDup (map GD.obj_name (GD.lay_objects l)))
           (GD.layouts (project (snd st))) ->
    Forall (fun st' =>
              List.NoDup (map GD.obj_name (GD.objects (project (snd st'))))
              /\ Forall (fun l => List.NoDup (map GD.obj_name (GD.lay_objects l)))
                        (GD.layouts (project (snd st'))))
           (statesAlong performObjectCall calls st).
Proof.
  intros calls st Hglob Hscenes.
  apply (statesAlong_invariant performObjectCall objectsUniqueIn);
    [|split; assumption].
  clear. intros c st Hst.
  destruct c as [name type sceneName | objectName sceneName removeInstances
                | currentName newName sceneName]; cbn [performObjectCall];
    unfold bind.
  - pose proof (object_create_keeps_unique name type sceneName st Hst) as H.
    destruct (ObjectHandlers.gdevelop_object_create _ _ _ _) as [[x|e] st'];
      exact H.
  - pose proof (object_delete_keeps_unique objectName sceneName
                  removeInstances st Hst) as H.
    destruct (ObjectHandlers.gdevelop_object_delete _ _ _ _) as [[x|e] st'];
      exact H.
  - pose proof (object_rename_keeps_unique currentName newName sceneName
                  st Hst) as H.
    destruct (ObjectTools.gdevelop_object_rename _ _ _ _) as [[x|e] st'];
      exact H.
Qed.

Lemma object_names_stay_unique_witness :
  let calls :=
    [ ObjectCreate "Coin" "Sprite" (Some "Menu");
      ObjectCreate "Coin" "Sprite" None;
      ObjectRename "Hero" "Coin" (Some "Menu");
      ObjectRename "Coin" "Gem" (Some "");
      ObjectDelete "Hero" (Some "Menu") true;
      ObjectDelete "Gem" None false ] in
  Forall (fun st' =>
            List.NoDup (map GD.obj_name (GD.objects (project (snd st'))))
            /\ Forall (fun l => List.NoDup (map GD.obj_name (GD.lay_objects l)))
                      (GD.layouts (project (snd st'))))
         (statesAlong performObjectCall calls (Examples.world, Examples.session)).
Proof.
  intros calls.
  apply (object_names_stay_unique calls (Examples.world, Examples.session)).
  - cbn. distinct_names.
  - cbn. repeat constructor; cbn; intuition discriminate.
Defined.

(** ** What creating and deleting an object changes *)

(** The container a [sceneName] argument addresses: the objects of that
    scene, or the global objects when the argument is absent or empty. *)
Definition containerOf (sceneName : option string) (p : GD.Project)
  : option GD.ObjectsContainer :=
  if Js.truthy_opt sceneName
  then GD.lay_objects <$> GD.getLayout (Js.or_else sceneName "") p
  else Some (GD.objects p).

Lemma containerOf_scene (n : string) (p : GD.Project) :
  Js.truthy n = true ->
  containerOf (Some n) p = GD.lay_objects <$> GD.getLayout n p.
Proof. intros H. unfold containerOf. cbn. rewrite H. reflexivity. Qed.

Lemma containerOf_global (sceneName : option string) (p : GD.Project) :
  Js.truthy_opt sceneName = false ->
  containerOf sceneName p = Some (GD.objects p).
Proof. intros H. unfold containerOf. rewrite H. reflexivity. Qed.

(** A change of the objects of one scene is not seen through another
    [sceneName] argument. *)
Lemma containerOf_updateLayout_other (n : string) (other : option string)
  (f : GD.ObjectsContainer -> GD.ObjectsContainer) (p : GD.Project) :
  Js.or_else other "" <> n ->
  containerOf other
    (GD.updateLayout n (fun l => GD.setObjects (f (GD.lay_objects l)) l) p)
  = containerOf other p.
Proof.
  intros Hne. unfold containerOf.
  destruct (Js.truthy_opt other); [|reflexivity].
  rewrite getLayout_updateLayout_other; [reflexivity | reflexivity | exact Hne].
Qed.

Lemma containerOf_setGlobalObjects (other : option string)
  (c : GD.ObjectsContainer) (p : GD.Project) :
  Js.truthy_opt other = true ->
  containerOf other (GD.setGlobalObjects c p) = containerOf other p.
Proof. intros H. unfold containerOf. rewrite H. reflexivity. Qed.

Lemma or_else_empty (o : option string) :
  Js.truthy_opt o = false -> Js.or_else o "" = "".
Proof.
  destruct o as [n|]; cbn; [|reflexivity]. intros ->. reflexivity.
Qed.

(** X20. [gdevelop_object_create] checks the name against the addressed
    container only. When the name is free there, the call succeeds: the
    container gains the object (it holds the former objects and the new
    one), the session is marked dirty, and what any other [sceneName]
    argument addresses is unchanged; so an object of a scene may get the
    name of a global object, and the other way round. *)
Theorem object_create_checks_only_its_container :
  forall (name type : string) (sceneName : option string) (w : World)
         (s : ProjectSession) (c : GD.ObjectsContainer),
    containerOf sceneName (project s) = Some c ->
    GD.hasObjectNamed name c = false ->
    exists s' c',
      ObjectHandlers.gdevelop_object_create name type sceneName (w, s)
      = (Ok (ObjectHandlers.mkCreateResponse name type
               (negb (Js.truthy_opt sceneName))),
         (w, s'))
      /\ dirty s' = true
      /\ containerOf sceneName (project s') = Some c'
      /\ Permutation c' (GD.mkObject name type :: c)
      /\ (forall other,
             Js.or_else other "" <> Js.or_else sceneName "" ->
             containerOf other (project s') = containerOf other (project s)).
Proof.
  intros name type sceneName w s c Hc Hfree.
  destruct (Js.truthy_opt sceneName) eqn:Hscene.
  - destruct sceneName as [n|]; [|discriminate]. cbn in Hscene.
    rewrite (containerOf_scene n _ Hscene) in Hc.
    destruct (GD.getLayout n (project s)) as [layout|] eqn:Hl; [|discriminate].
    injection Hc as <-.
    set (f := fun c0 => GDObjects.insertObject (GDObjects.createObject type name)
                          (GDObjects.getObjectsCount c0) c0).
    exists (edited (w_now w)
              (GD.updateLayout n (fun l => GD.setObjects (f (GD.lay_objects l)) l))
              s),
           (f (GD.lay_objects layout)).
    split; [|split; [reflexivity | split; [|split]]].
    + unfold ObjectHandlers.gdevelop_object_create. cbn [Js.truthy_opt].
      rewrite Hscene. unfold bind at 1. unfold bind at 1.
      rewrite (getLayout_found _ w s layout Hl). rewrite Hfree. reflexivity.
    + rewrite (containerOf_scene n _ Hscene). cbn [project edited].
      rewrite getLayout_updateLayout by reflexivity. rewrite Hl. reflexivity.
    + apply insert_at_Permutation.
    + intros other Hne. cbn [project edited].
      apply containerOf_updateLayout_other.
      cbn [Js.or_else] in Hne. rewrite Hscene in Hne. exact Hne.
  - rewrite (containerOf_global _ _ Hscene) in Hc. injection Hc as <-.
    set (f := fun c0 => GDObjects.insertObject (GDObjects.createObject type name)
                          (GDObjects.getObjectsCount c0) c0).
    exists (edited (w_now w)
              (fun p => GD.setGlobalObjects (f (GD.objects p)) p) s),
           (f (GD.objects (project s))).
    split; [|split; [reflexivity | split; [|split]]].
    + unfold ObjectHandlers.gdevelop_object_create.
      assert (Hrun :
        (let! _ := SessionObjects.createGlobalObject name type in ret tt) (w, s)
        = (Ok tt, (w, edited (w_now w)
                        (fun p => GD.setGlobalObjects (f (GD.objects p)) p) s))).
      { unfold SessionObjects.createGlobalObject. step_monad.
        rewrite Hfree. reflexivity. }
      destruct sceneName as [n|]; cbn in Hscene; [rewrite Hscene|];
        unfold bind at 1; rewrite Hrun; cbn [Js.truthy_opt];
        rewrite ?Hscene; reflexivity.
    + rewrite (containerOf_global _ _ Hscene). reflexivity.
    + apply insert_at_Permutation.
    + intros other Hne. cbn [project edited].
      apply containerOf_setGlobalObjects.
      destruct (Js.truthy_opt other) eqn:Ho; [reflexivity|].
      rewrite (or_else_empty _ Ho), (or_else_empty _ Hscene) in Hne.
      congruence.
Qed.

Lemma object_create_checks_only_its_container_witness :
  exists s' c',
    ObjectHandlers.gdevelop_object_create "Coin" "Sprite" (Some "Menu")
      (Examples.world, Examples.cleanSession)
    = (Ok (ObjectHandlers.mkCreateResponse "Coin" "Sprite" false),
       (Examples.world, s'))
    /\ containerOf (Some "Menu") (project s') = Some c'
    /\ Permutation c' [Examples.coin; Examples.hero]
    /\ containerOf None (project s') = Some [Examples.coin].
Proof.
  destruct (object_create_checks_only_its_container "Coin" "Sprite"
              (Some "Menu") Examples.world Examples.cleanSession
              [Examples.hero] eq_refl eq_refl)
    as (s' & c' & Hrun & _ & Hc & Hperm & Hother).
  exists s', c'. split; [exact Hrun|]. split; [exact Hc|].
  split; [exact Hperm|]. rewrite (Hother None); [reflexivity | discriminate].
Defined.

(** The instances left by [removeInitialInstancesOfObject], when it was
    asked for. *)
Definition instancesKept (removeInstances : bool) (objectName : string)
  (c : GD.InitialInstancesContainer) : GD.InitialInstancesContainer :=
  if removeInstances
  then GDInstances.removeInitialInstancesOfObject objectName c
  else c.

Lemma setInitialInstances_same (l : GD.Layout) :
  GD.setInitialInstances (GD.lay_initialInstances l) l = l.
Proof. destruct l; reflexivity. Qed.

(** The scene after [gdevelop_object_delete] took an object out of
    it. *)
Definition withoutObject (removeInstances : bool) (objectName : string)
  (l : GD.Layout) : GD.Layout :=
  GD.setObjects (GDObjects.removeObject objectName (GD.lay_objects l))
    (GD.setInitialInstances
       (instancesKept removeInstances objectName (GD.lay_initialInstances l))
       l).

Lemma object_delete_in_scene_run (objectName n : string)
  (removeInstances : bool) (w : World) (s : ProjectSession)
  (layout : GD.Layout) :
  Js.truthy n = true ->
  GD.getLayout n (project s) = Some layout ->
  GD.hasObjectNamed objectName (GD.lay_objects layout) = true ->
  ObjectHandlers.gdevelop_object_delete objectName (Some n) removeInstances
    (w, s)
  = (Ok (ObjectHandlers.mkDeleteResponse objectName 0),
     (w, edited (w_now w)
           (GD.updateLayout n (withoutObject removeInstances objectName)) s)).
Proof.
  intros Hn Hl Hhas.
  unfold ObjectHandlers.gdevelop_object_delete. rewrite Hn.
  unfold ObjectHandlers.deleteInScene.
  unfold bind at 1. unfold bind at 1.
  rewrite (getLayout_found _ w s layout Hl). rewrite Hhas.
  unfold edited, withoutObject.
  rewrite <- (updateLayout_twice n
                (fun l => GD.setInitialInstances
                            (instancesKept removeInstances objectName
                               (GD.lay_initialInstances l)) l)
                (fun l => GD.setObjects
                            (GDObjects.removeObject objectName
                               (GD.lay_objects l)) l))
    by reflexivity.
  destruct removeInstances; [reflexivity|].
  step_monad. cbn [project Session.setProject]. unfold instancesKept.
  rewrite (updateLayout_fixed n (fun l => GD.setInitialInstances
                                            (GD.lay_initialInstances l) l)
             (project s) layout Hl) by apply setInitialInstances_same.
  reflexivity.
Qed.

(** X21. [gdevelop_object_delete] on an object of a scene removes the
    object from the scene and, when [removeInstances] is set, every
    instance of it in that scene; without it the instances stay, naming
    an object that is gone. Either way the answer says
    [instancesRemoved: 0]. Other scenes and the global objects are not
    touched. *)
Theorem object_delete_in_scene_reports_no_instances :
  forall (objectName n : string) (removeInstances : bool) (w : World)
         (s : ProjectSession) (layout : GD.Layout),
    Js.truthy n = true ->
    GD.getLayout n (project s) = Some layout ->
    GD.hasObjectNamed objectName (GD.lay_objects layout) = true ->
    exists s',
      ObjectHandlers.gdevelop_object_delete objectName (Some n)
        removeInstances (w, s)
      = (Ok (ObjectHandlers.mkDeleteResponse objectName 0), (w, s'))
      /\ dirty s' = true
      /\ GD.getLayout n (project s')
         = Some (GD.setObjects
                   (GDObjects.removeObject objectName (GD.lay_objects layout))
                   (GD.setInitialInstances
                      (instancesKept removeInstances objectName
                         (GD.lay_initialInstances layout))
                      layout))
      /\ GD.objects (project s') = GD.objects (project s)
      /\ (forall other, other <> n ->
                        GD.getLayout other (project s')
                        = GD.getLayout other (project s)).
Proof.
  intros objectName n removeInstances w s layout Hn Hl Hhas.
  exists (edited (w_now w)
            (GD.updateLayout n (withoutObject removeInstances objectName)) s).
  split; [|split; [reflexivity | split; [|split]]].
  - apply (object_delete_in_scene_run _ _ _ _ _ layout); assumption.
  - cbn [project edited]. rewrite getLayout_updateLayout by reflexivity.
    rewrite Hl. reflexivity.
  - cbn [project edited]. destruct (project s); reflexivity.
  - intros other Hne. cbn [project edited].
    apply getLayout_updateLayout_other; [reflexivity | exact Hne].
Qed.

Lemma object_delete_in_scene_reports_no_instances_witness :
  exists s',
    ObjectHandlers.gdevelop_object_delete "Hero" (Some "Menu") true
      (Examples.world, Examples.session)
    = (Ok (ObjectHandlers.mkDeleteResponse "Hero" 0), (Examples.world, s'))
    /\ GD.getLayout "Menu" (project s')
       = Some (GD.mkLayout "Menu" (0, 0, 0) [] [Examples.coinAt 3 4] []).
Proof.
  destruct (object_delete_in_scene_reports_no_instances "Hero" "Menu" true
              Examples.world Examples.session Examples.menu
              eq_refl eq_refl eq_refl)
    as (s' & Hrun & _ & Hscene & _).
  exists s'. split; [exact Hrun | exact Hscene].
Defined.

Lemma filter_twice_none {A} (test : A -> bool) (l : list A) :
  List.filter test (List.filter (fun a => negb (test a)) l) = [].
Proof.
  induction l as [|a l IH]; cbn; [reflexivity|].
  destruct (test a) eqn:Ha; cbn; [exact IH|]. rewrite Ha. exact IH.
Qed.

(** X22. [gdevelop_object_delete] on a global object removes it from the
    global container and, when [removeInstances] is set, removes the
    instances carrying its name from every scene: also from scenes that
    have an object of their own under that name, whose objects are left
    as they are. The answer says [instancesRemoved: 0] all the same. *)
Theorem object_delete_global_sweeps_every_scene :
  forall (objectName : string) (sceneName : option string)
         (removeInstances : bool) (w : World) (s : ProjectSession),
    Js.truthy_opt sceneName = false ->
    GD.hasObjectNamed objectName (GD.objects (project s)) = true ->
    exists s',
      ObjectHandlers.gdevelop_object_delete objectName sceneName
        removeInstances (w, s)
      = (Ok (ObjectHandlers.mkDeleteResponse objectName 0), (w, s'))
      /\ dirty s' = true
      /\ GD.objects (project s')
         = GDObjects.removeObject objectName (GD.objects (project s))
      /\ GD.layouts (project s')
         = map (fun l => GD.setInitialInstances
                           (instancesKept removeInstances objectName
                              (GD.lay_initialInstances l)) l)
               (GD.layouts (project s))
      /\ (removeInstances = true ->
          Forall (fun l =>
                    List.filter
                      (fun i => String.eqb (GD.inst_objectName i) objectName)
                      (GD.lay_initialInstances l) = [])
                 (GD.layouts (project s'))).
Proof.
  intros objectName sceneName removeInstances w s Hscene Hhas.
  set (sweep := fun l => GD.setInitialInstances
                           (instancesKept removeInstances objectName
                              (GD.lay_initialInstances l)) l).
  set (f := fun p => GD.setLayouts (map sweep (GD.layouts p))
                       (GD.setGlobalObjects
                          (GDObjects.removeObject objectName (GD.objects p)) p)).
  assert (Hrun :
    ObjectHandlers.deleteGlobally objectName removeInstances (w, s)
    = (Ok tt, (w, edited (w_now w) f s))).
  { unfold ObjectHandlers.deleteGlobally, SessionObjects.deleteGlobalObject.
    step_monad. rewrite Hhas.
    destruct removeInstances; [reflexivity|].
    unfold edited, f, sweep, instancesKept.
    rewrite (map_ext _ (fun l => l)) by (intros l; apply setInitialInstances_same).
    rewrite map_id. destruct (project s); reflexivity. }
  exists (edited (w_now w) f s).
  split; [|split; [reflexivity | split; [reflexivity | split; [reflexivity|]]]].
  - unfold ObjectHandlers.gdevelop_object_delete.
    destruct sceneName as [n|]; cbn in Hscene; [rewrite Hscene|];
      unfold bind at 1; rewrite Hrun; reflexivity.
  - intros ->. cbn [project edited f GD.layouts GD.setLayouts].
    apply List.Forall_forall. intros l Hin.
    apply in_map_iff in Hin as (l0 & <- & _).
    cbn [sweep instancesKept GD.lay_initialInstances GD.setInitialInstances].
    apply (filter_twice_none
             (fun i => String.eqb (GD.inst_objectName i) objectName)).
Qed.

Lemma object_delete_global_sweeps_every_scene_witness :
  exists s',
    ObjectHandlers.gdevelop_object_delete "Coin" None true
      (Examples.world, Examples.session)
    = (Ok (ObjectHandlers.mkDeleteResponse "Coin" 0), (Examples.world, s'))
    /\ GD.objects (project s') = []
    /\ map GD.lay_initialInstances (GD.layouts (project s'))
       = [[Examples.heroAt 1 2]; [Examples.heroAt 7 8]].
Proof.
  destruct (object_delete_global_sweeps_every_scene "Coin" None true
              Examples.world Examples.session eq_refl eq_refl)
    as (s' & Hrun & _ & Hobjects & Hlayouts & _).
  exists s'. split; [exact Hrun|]. split; [exact Hobjects|].
  rewrite Hlayouts. reflexivity.
Defined.

Lemma instancesKept_none (removeInstances : bool) (objectName : string)
  (l : GD.Layout) :
  (removeInstances = true ->
   List.filter (fun i => String.eqb (GD.inst_objectName i) objectName)
     (GD.lay_initialInstances l) = []) ->
  GD.setInitialInstances
    (instancesKept removeInstances objectName (GD.lay_initialInstances l)) l
  = l.
Proof.
  intros H. unfold instancesKept. destruct removeInstances.
  - unfold GDInstances.removeInitialInstancesOfObject.
    rewrite (filter_none
               (fun i => String.eqb (GD.inst_objectName i) objectName)
               _ (H eq_refl)).
    apply setInitialInstances_same.
  - apply setInitialInstances_same.
Qed.

(** X23. Creating an object under a name that is free in the addressed
    container and then deleting it gives the document back as it was.
    With [removeInstances] set this needs that no scene had an instance
    under that name before, since the delete would remove those too. *)
Theorem object_create_then_delete_restores_document :
  forall (name type : string) (sceneName : option string)
         (removeInstances : bool) (w : World) (s : ProjectSession)
         (c : GD.ObjectsContainer),
    containerOf sceneName (project s) = Some c ->
    GD.hasObjectNamed name c = false ->
    (removeInstances = true ->
     Forall (fun l =>
               List.filter (fun i => String.eqb (GD.inst_objectName i) name)
                 (GD.lay_initialInstances l) = [])
            (GD.layouts (project s))) ->
    exists s1 s2,
      ObjectHandlers.gdevelop_object_create name type sceneName (w, s)
      = (Ok (ObjectHandlers.mkCreateResponse name type
               (negb (Js.truthy_opt sceneName))),
         (w, s1))
      /\ ObjectHandlers.gdevelop_object_delete name sceneName removeInstances
           (w, s1)
         = (Ok (ObjectHandlers.mkDeleteResponse name 0), (w, s2))
      /\ project s2 = project s.
Proof.
  intros name type sceneName removeInstances w s c Hc Hfree Hclean.
  set (add := fun c0 => GDObjects.insertObject (GDObjects.createObject type name)
                          (GDObjects.getObjectsCount c0) c0).
  assert (Hback : forall c0, GD.hasObjectNamed name c0 = false ->
                             GDObjects.removeObject name (add c0) = c0).
  { intros c0 H0. apply remove_first_insert_at; [exact H0|].
    apply String.eqb_refl. }
  assert (Hadded : forall c0, GD.hasObjectNamed name (add c0) = true).
  { intros c0. unfold GD.hasObjectNamed, add, GDObjects.insertObject.
    apply existsb_exists. exists (GDObjects.createObject type name).
    split; [|apply String.eqb_refl].
    apply (Permutation_in _ (Permutation_sym (insert_at_Permutation _ _ _))).
    left. reflexivity. }
  destruct (Js.truthy_opt sceneName) eqn:Hscene.
  - destruct sceneName as [n|]; [|discriminate]. cbn in Hscene.
    rewrite (containerOf_scene n _ Hscene) in Hc.
    destruct (GD.getLayout n (project s)) as [layout|] eqn:Hl; [|discriminate].
    injection Hc as <-.
    set (grow := fun l => GD.setObjects (add (GD.lay_objects l)) l).
    set (s1 := edited (w_now w) (GD.updateLayout n grow) s).
    assert (Hl1 : GD.getLayout n (project s1) = Some (grow layout)).
    { cbn [project s1 edited]. rewrite getLayout_updateLayout by reflexivity.
      rewrite Hl. reflexivity. }
    pose proof (object_delete_in_scene_run name n removeInstances w s1
                  (grow layout) Hscene Hl1 (Hadded _)) as Hdel.
    exists s1. eexists. split; [|split; [exact Hdel|]].
    + unfold ObjectHandlers.gdevelop_object_create. cbn [Js.truthy_opt].
      rewrite Hscene. unfold bind at 1. unfold bind at 1.
      rewrite (getLayout_found _ w s layout Hl). rewrite Hfree. reflexivity.
    + cbn [project edited s1] in *.
      rewrite updateLayout_twice by reflexivity.
      apply (updateLayout_fixed _ _ _ layout Hl).
      unfold withoutObject, grow.
      cbn [GD.lay_objects GD.lay_initialInstances GD.setObjects
           GD.setInitialInstances].
      rewrite (Hback _ Hfree).
      assert (Hl0 : removeInstances = true ->
                    List.filter
                      (fun i => String.eqb (GD.inst_objectName i) name)
                      (GD.lay_initialInstances layout) = []).
      { intros Hr. specialize (Hclean Hr).
        rewrite List.Forall_forall in Hclean. apply Hclean.
        unfold GD.getLayout in Hl. apply find_some in Hl. tauto. }
      pose proof (instancesKept_none removeInstances name layout Hl0) as Hk.
      destruct layout. cbn in *. injection Hk as ->. reflexivity.
  - rewrite (containerOf_global _ _ Hscene) in Hc. injection Hc as <-.
    set (s1 := edited (w_now w)
                 (fun p => GD.setGlobalObjects (add (GD.objects p)) p) s).
    assert (Hcreate :
      (let! _ := SessionObjects.createGlobalObject name type in ret tt) (w, s)
      = (Ok tt, (w, s1))).
    { unfold SessionObjects.createGlobalObject. step_monad.
      rewrite Hfree. reflexivity. }
    assert (Hdelete :
      ObjectHandlers.deleteGlobally name removeInstances (w, s1)
      = (Ok tt, (w, edited (w_now w) (fun _ => project s) s1))).
    { unfold ObjectHandlers.deleteGlobally, SessionObjects.deleteGlobalObject.
      unfold s1, edited. step_monad.
      cbn [project GD.objects GD.setGlobalObjects].
      rewrite (Hadded (GD.objects (project s))). step_monad.
      cbn [project GD.objects GD.setGlobalObjects].
      rewrite (Hback _ Hfree).
      assert (Hglob : GD.setGlobalObjects (GD.objects (project s))
                        (GD.setGlobalObjects (add (GD.objects (project s)))
                           (project s)) = project s)
        by (destruct (project s); reflexivity).
      rewrite Hglob.
      destruct removeInstances; [|reflexivity].
      step_monad. unfold ObjectHandlers.removeInAllLayouts.
      cbn [project Session.setProject].
      rewrite (map_ext_in _ (fun l => l)).
      - rewrite map_id, setLayouts_same. reflexivity.
      - intros l Hin. specialize (Hclean eq_refl).
        rewrite List.Forall_forall in Hclean.
        apply (instancesKept_none true name l). intros _. auto. }
    exists s1. eexists. split; [|split].
    + unfold ObjectHandlers.gdevelop_object_create.
      destruct sceneName as [n|]; cbn in Hscene; [rewrite Hscene|];
        unfold bind at 1; rewrite Hcreate; cbn [Js.truthy_opt];
        rewrite ?Hscene; reflexivity.
    + unfold ObjectHandlers.gdevelop_object_delete.
      destruct sceneName as [n|]; cbn in Hscene; [rewrite Hscene|];
        unfold bind at 1; rewrite Hdelete; reflexivity.
    + reflexivity.
Qed.

Lemma object_create_then_delete_restores_document_witness :
  exists s1 s2,
    ObjectHandlers.gdevelop_object_create "Key" "Sprite" (Some "Level")
      (Examples.world, Examples.session)
    = (Ok (ObjectHandlers.mkCreateResponse "Key" "Sprite" false),
       (Examples.world, s1))
    /\ ObjectHandlers.gdevelop_object_delete "Key" (Some "Level") true
         (Examples.world, s1)
       = (Ok (ObjectHandlers.mkDeleteResponse "Key" 0), (Examples.world, s2))
    /\ project s2 = Examples.game.
Proof.
  apply (object_create_then_delete_restores_document "Key" "Sprite"
           (Some "Level") true Examples.world Examples.session []
           eq_refl eq_refl).
  intros _. cbn. repeat constructor.
Defined.

(* ===================================================================== *)
(** * Deleting and updating events *)
(* ===================================================================== *)

Section FindingUpdated.

Context {A : Type}.

Lemma find_update_first_same (p : A -> bool) (f : A -> A) (l : list A) :
  (forall a, p a = true -> p (f a) = true) ->
  find p (GD.update_first p f l) = f <$> find p l.
Proof.
  intros Hp. induction l as [|a l IH]; cbn; [reflexivity|].
  destruct (p a) eqn:Ha; cbn.
  - rewrite (Hp a Ha). reflexivity.
  - rewrite Ha. exact IH.
Qed.

End FindingUpdated.

(** The events list the [sceneName] and [externalEventsName] arguments
    address: the scene's when a non-empty scene name is given, else the
    sheet's when a non-empty sheet name is given. *)
Definition eventsOf (sceneName externalEventsName : option string)
  (p : GD.Project) : option GD.EventsList :=
  if Js.truthy_opt sceneName
  then GD.lay_events <$> GD.getLayout (Js.nullish sceneName "") p
  else if Js.truthy_opt externalEventsName
  then GD.ext_events <$> GD.getExternalEvents (Js.nullish externalEventsName "") p
  else None.

(** The document after the addressed list was changed by [f]. *)
Definition written (sceneName externalEventsName : option string)
  (f : GD.EventsList -> GD.EventsList) (p : GD.Project) : GD.Project :=
  if Js.truthy_opt sceneName
  then GD.updateLayout (Js.nullish sceneName "")
         (fun l => GD.setEvents (f (GD.lay_events l)) l) p
  else GD.updateExternalEvents (Js.nullish externalEventsName "") f p.

Lemma resolveUnchecked_run (sceneName externalEventsName : option string)
  (w : World) (s : ProjectSession) (events : GD.EventsList) :
  eventsOf sceneName externalEventsName (project s) = Some events ->
  exists ref,
    EventTools.resolveUnchecked sceneName externalEventsName (w, s)
    = (Ok (ref, events), (w, s))
    /\ forall f w' s',
         EventTools.writeEvents ref f (w', s')
         = (Ok tt,
            (w', Session.setProject
                   (written sceneName externalEventsName f (project s')) s')).
Proof.
  unfold eventsOf, EventTools.resolveUnchecked, written. intros H.
  destruct (Js.truthy_opt sceneName).
  - destruct (GD.getLayout _ (project s)) as [l|] eqn:Hl; [|discriminate].
    injection H as <-. eexists. split.
    + unfold bind. rewrite (getLayout_found _ w s l Hl). reflexivity.
    + reflexivity.
  - destruct (Js.truthy_opt externalEventsName); [|discriminate].
    destruct (GD.getExternalEvents _ (project s)) as [x|] eqn:Hx;
      [|discriminate].
    injection H as <-. eexists. split.
    + step_monad. rewrite Hx. reflexivity.
    + reflexivity.
Qed.

Lemma resolveChecked_run (sceneName externalEventsName : option string)
  (w : World) (s : ProjectSession) (events : GD.EventsList) :
  eventsOf sceneName externalEventsName (project s) = Some events ->
  exists ref,
    EventTools.resolveChecked sceneName externalEventsName (w, s)
    = (Ok (ref, events), (w, s))
    /\ forall f w' s',
         EventTools.writeEvents ref f (w', s')
         = (Ok tt,
            (w', Session.setProject
                   (written sceneName externalEventsName f (project s')) s')).
Proof.
  unfold eventsOf, EventTools.resolveChecked, written. intros H.
  destruct (Js.truthy_opt sceneName).
  - destruct (GD.getLayout _ (project s)) as [l|] eqn:Hl; [|discriminate].
    injection H as <-. eexists. split.
    + unfold bind. rewrite (getLayout_found _ w s l Hl). reflexivity.
    + reflexivity.
  - destruct (Js.truthy_opt externalEventsName); [|discriminate].
    destruct (GD.getExternalEvents _ (project s)) as [x|] eqn:Hx;
      [|discriminate].
    injection H as <-. eexists. split.
    + step_monad. rewrite Hx. reflexivity.
    + reflexivity.
Qed.

Lemma eventsOf_written (sceneName externalEventsName : option string)
  (f : GD.EventsList -> GD.EventsList) (p : GD.Project) :
  eventsOf sceneName externalEventsName
    (written sceneName externalEventsName f p)
  = f <$> eventsOf sceneName externalEventsName p.
Proof.
  unfold eventsOf, written. destruct (Js.truthy_opt sceneName).
  - rewrite getLayout_updateLayout by reflexivity.
    destruct (GD.getLayout _ p); reflexivity.
  - destruct (Js.truthy_opt externalEventsName); [|reflexivity].
    unfold GD.getExternalEvents, GD.updateExternalEvents.
    cbn [GD.externalEvents GD.setExternalEventsList].
    rewrite find_update_first_same by (intros x Hx; exact Hx).
    destruct (find _ _); reflexivity.
Qed.

Lemma written_twice (sceneName externalEventsName : option string)
  (f g : GD.EventsList -> GD.EventsList) (p : GD.Project) :
  written sceneName externalEventsName g
    (written sceneName externalEventsName f p)
  = written sceneName externalEventsName (fun l => g (f l)) p.
Proof.
  unfold written. destruct (Js.truthy_opt sceneName).
  - rewrite updateLayout_twice by reflexivity. reflexivity.
  - unfold GD.updateExternalEvents. destruct p. unfold GD.setExternalEventsList.
    cbn [GD.layouts GD.name GD.version GD.description GD.author GD.packageName
         GD.windowWidth GD.windowHeight GD.maximumFPS GD.minimumFPS
         GD.firstLayout GD.objects GD.externalEvents].
    rewrite update_first_compose by (intros x Hx; exact Hx). reflexivity.
Qed.

Lemma written_fixed (sceneName externalEventsName : option string)
  (f : GD.EventsList -> GD.EventsList) (p : GD.Project)
  (events : GD.EventsList) :
  eventsOf sceneName externalEventsName p = Some events ->
  f events = events ->
  written sceneName externalEventsName f p = p.
Proof.
  unfold eventsOf, written. intros H Hf. destruct (Js.truthy_opt sceneName).
  - destruct (GD.getLayout _ p) as [l|] eqn:Hl; [|discriminate].
    injection H as <-. apply (updateLayout_fixed _ _ _ l Hl).
    rewrite Hf. destruct l; reflexivity.
  - destruct (Js.truthy_opt externalEventsName); [|discriminate].
    unfold GD.getExternalEvents in H.
    destruct (find _ _) as [x|] eqn:Hx; [|discriminate].
    injection H as <-. unfold GD.updateExternalEvents.
    rewrite (update_first_fixed _ _ _ x Hx)
      by (rewrite Hf; destruct x; reflexivity).
    destruct p; reflexivity.
Qed.

Lemma to_uint32_small (z : Z) : 0 <= z < 4294967296 -> Js.to_uint32 z = z.
Proof. intros H. unfold Js.to_uint32. apply Z.mod_small. exact H. Qed.

Lemma removeEventAt_inside (i : Z) (l : GD.EventsList) :
  0 <= i < Z.of_nat (length l) -> i < 4294967296 ->
  GD.removeEventAt i l = take (Z.to_nat i) l ++ drop (S (Z.to_nat i)) l.
Proof.
  intros Hi Hsmall. unfold GD.removeEventAt, GD.getEventsCount.
  rewrite to_uint32_small by lia.
  replace (i <? Z.of_nat (length l)) with true by (symmetry; apply Z.ltb_lt; lia).
  apply delete_take_drop.
Qed.

Lemma removeEventAt_insert_at (pos : Z) (e : GD.BaseEvent) (l : GD.EventsList) :
  0 <= pos <= Z.of_nat (length l) -> pos < 4294967296 ->
  GD.removeEventAt pos (GD.insert_at pos e l) = l.
Proof.
  intros Hpos Hsmall.
  rewrite removeEventAt_inside by (rewrite ?length_insert_at; lia).
  unfold GD.insert_at. rewrite to_uint32_small by lia.
  destruct (pos <? Z.of_nat (length l)) eqn:Hin.
  - apply Z.ltb_lt in Hin.
    assert (Hlen : length (take (Z.to_nat pos) l) = Z.to_nat pos)
      by (rewrite length_take; lia).
    rewrite take_app_length' by (symmetry; exact Hlen).
    rewrite (cons_middle e), app_assoc.
    rewrite drop_app_length' by (rewrite length_app; cbn [length]; lia).
    apply take_drop.
  - apply Z.ltb_ge in Hin. assert (Hend : Z.to_nat pos = length l) by lia.
    rewrite Hend. rewrite take_app_length.
    rewrite drop_ge by (rewrite length_app; cbn; lia).
    apply app_nil_r.
Qed.

(** X24. [gdevelop_event_delete] at an index inside the addressed list
    (a scene's or a sheet's) removes exactly the event at that index:
    the events before it and after it stay, in order. It answers the
    index and marks the session dirty. *)
Theorem event_delete_removes_exactly_one :
  forall (sceneName externalEventsName : option string) (eventIndex : Z)
         (w : World) (s : ProjectSession) (events : GD.EventsList),
    eventsOf sceneName externalEventsName (project s) = Some events ->
    0 <= eventIndex < Z.of_nat (length events) ->
    eventIndex < 4294967296 ->
    exists s',
      EventTools.gdevelop_event_delete sceneName externalEventsName eventIndex
        (w, s)
      = (Ok eventIndex, (w, s'))
      /\ dirty s' = true
      /\ eventsOf sceneName externalEventsName (project s')
         = Some (take (Z.to_nat eventIndex) events
                 ++ drop (S (Z.to_nat eventIndex)) events).
Proof.
  intros sceneName externalEventsName i w s events Hev Hi Hsmall.
  destruct (resolveUnchecked_run _ _ w s events Hev) as (ref & Hres & Hwrite).
  exists (edited (w_now w)
            (written sceneName externalEventsName (GD.removeEventAt i)) s).
  split; [|split; [reflexivity|]].
  - unfold EventTools.gdevelop_event_delete. unfold bind at 1. rewrite Hres.
    unfold GD.getEventsCount.
    replace (i <? 0) with false by (symmetry; apply Z.ltb_ge; lia).
    replace (Z.of_nat (length events) <=? i) with false
      by (symmetry; apply Z.leb_gt; lia).
    cbn [orb]. unfold bind at 1. rewrite Hwrite. reflexivity.
  - cbn [project edited]. rewrite eventsOf_written, Hev. cbn.
    rewrite removeEventAt_inside by assumption. reflexivity.
Qed.

(** Events used by the examples: a comment, and a standard event with
    one condition and one action; and the example session with events in
    the scene [Level] and in an external sheet [Shared]. *)
Definition note : GD.BaseEvent := EventTools.newEvent EventTools.comment.

Definition jump : GD.BaseEvent :=
  GD.mkEvent (EventTools.EVENT_TYPES EventTools.standard) false false
    (Some [EventTools.conditionInstruction
             (EventTools.mkConditionSpec "KeyPressed" ["Space"] None)])
    (Some [EventTools.actionInstruction
             (EventTools.mkActionSpec "AddForce" ["Hero"; "0"; "-300"])])
    true [].

Definition scripted : ProjectSession :=
  Session.setProject
    (GD.setExternalEventsList [GD.mkExternalEvents "Shared" "Menu" [note; jump]]
       (GD.updateLayout "Level" (GD.setEvents [note; jump; note])
          Examples.game))
    Examples.session.

Lemma event_delete_removes_exactly_one_witness :
  exists s',
    EventTools.gdevelop_event_delete None (Some "Shared") 0
      (Examples.world, scripted)
    = (Ok 0, (Examples.world, s'))
    /\ dirty s' = true
    /\ eventsOf None (Some "Shared") (project s') = Some [jump].
Proof.
  apply (event_delete_removes_exactly_one None (Some "Shared") 0
           Examples.world scripted [note; jump] eq_refl);
    cbn; lia.
Defined.

(** The method [gdevelop_event_create] calls on the wrapper of the new
    event without finding it, if any: [getConditions] for a standard
    event given conditions, else [getActions] for one given actions. *)
Definition missingMethod (eventType : EventTools.EventKind)
  (conditions : option (list EventTools.ConditionSpec))
  (actions : option (list EventTools.ActionSpec)) : option string :=
  match eventType, conditions, actions with
  | EventTools.standard, Some _, _ => Some "std.getConditions"
  | EventTools.standard, None, Some _ => Some "std.getActions"
  | _, _, _ => None
  end.

(** X25. Creating an event at a position inside the addressed list, or
    at its end (the default), puts the engine's empty event of that type
    there. For a standard event given conditions or actions the call
    then throws, on the call of the method the wrapper lacks, and the
    session is not marked dirty; otherwise it answers the position and the
    session is dirty. In both cases, deleting the event at that position
    afterwards gives the document back as it was. *)
Theorem event_create_then_delete_restores_events :
  forall (sceneName externalEventsName : option string)
         (eventType : EventTools.EventKind) (position : option Z)
         (conditions : option (list EventTools.ConditionSpec))
         (actions : option (list EventTools.ActionSpec))
         (w : World) (s : ProjectSession) (events : GD.EventsList),
    eventsOf sceneName externalEventsName (project s) = Some events ->
    let pos := Js.nullish position (Z.of_nat (length events)) in
    0 <= pos <= Z.of_nat (length events) ->
    pos < 4294967296 ->
    exists s1 s2,
      match missingMethod eventType conditions actions with
      | None =>
          EventTools.gdevelop_event_create sceneName externalEventsName
            eventType position conditions actions (w, s)
          = (Ok (pos, eventType), (w, s1))
          /\ dirty s1 = true
      | Some callee =>
          EventTools.gdevelop_event_create sceneName externalEventsName
            eventType position conditions actions (w, s)
          = (Err (TypeError (callee +:+ " is not a function")), (w, s1))
          /\ dirty s1 = dirty s
      end
      /\ eventsOf sceneName externalEventsName (project s1)
         = Some (GD.insert_at pos (EventTools.newEvent eventType) events)
      /\ EventTools.gdevelop_event_delete sceneName externalEventsName pos
           (w, s1)
         = (Ok pos, (w, s2))
      /\ project s2 = project s.
Proof.
  intros sceneName externalEventsName k position conditions actions w s events
    Hev pos Hpos Hsmall.
  set (ev := EventTools.newEvent k).
  set (doc1 := written sceneName externalEventsName (GD.insert_at pos ev)
                 (project s)).
  set (s1 := match missingMethod k conditions actions with
             | None =>
                 edited (w_now w)
                   (written sceneName externalEventsName (GD.insert_at pos ev))
                   s
             | Some _ => Session.setProject doc1 s
             end).
  assert (Hp1 : project s1 = doc1)
    by (subst s1; destruct (missingMethod k conditions actions); reflexivity).
  assert (Hev1 : eventsOf sceneName externalEventsName (project s1)
                 = Some (GD.insert_at pos ev events)).
  { rewrite Hp1. unfold doc1. rewrite eventsOf_written, Hev. reflexivity. }
  destruct (resolveChecked_run _ _ w s events Hev) as (ref & Hres & Hwrite).
  destruct (resolveUnchecked_run _ _ w s1 _ Hev1) as (ref1 & Hres1 & Hwrite1).
  exists s1. eexists. split; [|split; [exact Hev1|split]].
  - clear Hres1 Hwrite1 Hev1 Hp1. subst s1 doc1 ev.
    destruct k, conditions as [cs|], actions as [acts|];
      cbn [missingMethod]; (split; [|reflexivity]);
      unfold EventTools.gdevelop_event_create; unfold bind at 1;
      rewrite Hres; cbv beta iota; unfold bind at 1; rewrite Hwrite;
      reflexivity.
  - unfold EventTools.gdevelop_event_delete. unfold bind at 1. rewrite Hres1.
    unfold GD.getEventsCount. rewrite length_insert_at.
    replace (pos <? 0) with false by (symmetry; apply Z.ltb_ge; lia).
    replace (Z.of_nat (S (length events)) <=? pos) with false
      by (symmetry; apply Z.leb_gt; lia).
    cbn [orb]. unfold bind at 1. rewrite Hwrite1. reflexivity.
  - cbn [project Session.setProject Session.setDirty
         Session.setLastModifiedAt].
    rewrite Hp1. unfold doc1.
    rewrite written_twice.
    apply (written_fixed _ _ _ _ events Hev).
    apply removeEventAt_insert_at; assumption.
Qed.

(** A group created at position 1 of the three events of the scene
    [Level], and a standard event with one condition asked for at the
    same place: the first call answers, the second throws; deleting at
    position 1 restores the document after either. *)
Lemma event_create_then_delete_restores_events_witness :
  (exists s1 s2,
      EventTools.gdevelop_event_create (Some "Level") None EventTools.group
        (Some 1) None None (Examples.world, scripted)
      = (Ok (1, EventTools.group), (Examples.world, s1))
      /\ EventTools.gdevelop_event_delete (Some "Level") None 1
           (Examples.world, s1)
         = (Ok 1, (Examples.world, s2))
      /\ project s2 = project scripted)
  /\ (exists s1 s2,
        EventTools.gdevelop_event_create (Some "Level") None
          EventTools.standard (Some 1)
          (Some [EventTools.mkConditionSpec "KeyPressed" ["Space"] None]) None
          (Examples.world, scripted)
        = (Err (TypeError "std.getConditions is not a function"),
           (Examples.world, s1))
        /\ eventsOf (Some "Level") None (project s1)
           = Some [note; EventTools.newEvent EventTools.standard; jump; note]
        /\ EventTools.gdevelop_event_delete (Some "Level") None 1
             (Examples.world, s1)
           = (Ok 1, (Examples.world, s2))
        /\ project s2 = project scripted).
Proof.
  assert (Hpos : 0 <= 1 <= Z.of_nat (length [note; jump; note])) by (cbn; lia).
  assert (Hsmall : 1 < 4294967296) by lia.
  split.
  - destruct (event_create_then_delete_restores_events (Some "Level") None
                EventTools.group (Some 1) None None Examples.world scripted
                [note; jump; note] eq_refl Hpos Hsmall)
      as (s1 & s2 & Hcreate & _ & Hdelete & Hback).
    exists s1, s2. split; [exact (proj1 Hcreate)|].
    split; [exact Hdelete | exact Hback].
  - destruct (event_create_then_delete_restores_events (Some "Level") None
                EventTools.standard (Some 1)
                (Some [EventTools.mkConditionSpec "KeyPressed" ["Space"] None])
                None Examples.world scripted
                [note; jump; note] eq_refl Hpos Hsmall)
      as (s1 & s2 & Hcreate & Hevents & Hdelete & Hback).
    exists s1, s2. split; [exact (proj1 Hcreate)|].
    split; [exact Hevents|]. split; [exact Hdelete | exact Hback].
Defined.

(** ** Flags and instructions of an event *)

Lemma getEventAt_inside (l : GD.EventsList) (i : Z) (e : GD.BaseEvent) :
  0 <= i -> l !! Z.to_nat i = Some e -> GD.getEventAt l i = Some e.
Proof.
  intros Hi He. unfold GD.getEventAt, GD.getEventsCount.
  pose proof (lookup_lt_Some _ _ _ He) as Hlt.
  replace (0 <=? i) with true by (symmetry; apply Z.leb_le; lia).
  replace (i <? Z.of_nat (length l)) with true
    by (symmetry; apply Z.ltb_lt; lia).
  exact He.
Qed.

(** The event with the flags [gdevelop_event_update] was given. *)
Definition flagged (disabled folded : option bool) (e : GD.BaseEvent)
  : GD.BaseEvent :=
  GD.mkEvent (GD.ev_type e)
    (Js.nullish disabled (GD.ev_disabled e))
    (Js.nullish folded (GD.ev_folded e))
    (GD.ev_conditions e) (GD.ev_actions e) (GD.ev_canHaveSubEvents e)
    (GD.ev_subEvents e).

(** X26. [gdevelop_event_update] at an index inside the addressed list
    changes the flags it was given on the event at that index and
    nothing else: type, instructions and sub-events of that event, and
    every other event, stay. Called with neither flag it leaves the
    document as it was and still marks the session dirty. *)
Theorem event_update_changes_only_the_flags :
  forall (sceneName externalEventsName : option string) (eventIndex : Z)
         (disabled folded : option bool) (w : World) (s : ProjectSession)
         (events : GD.EventsList) (e : GD.BaseEvent),
    eventsOf sceneName externalEventsName (project s) = Some events ->
    0 <= eventIndex ->
    events !! Z.to_nat eventIndex = Some e ->
    exists s',
      EventTools.gdevelop_event_update sceneName externalEventsName eventIndex
        disabled folded (w, s)
      = (Ok tt, (w, s'))
      /\ dirty s' = true
      /\ eventsOf sceneName externalEventsName (project s')
         = Some (<[Z.to_nat eventIndex := flagged disabled folded e]> events)
      /\ (disabled = None -> folded = None -> project s' = project s).
Proof.
  intros sceneName externalEventsName i disabled folded w s events e
    Hev Hi He.
  pose proof (lookup_lt_Some _ _ _ He) as Hlt.
  destruct (resolveUnchecked_run _ _ w s events Hev) as (ref & Hres & Hwrite).
  set (e' := flagged disabled folded e).
  exists (edited (w_now w)
            (written sceneName externalEventsName
               (fun l => GD.setEventAt l i e')) s).
  split; [|split; [reflexivity | split]].
  - unfold EventTools.gdevelop_event_update. unfold bind at 1. rewrite Hres.
    unfold GD.getEventsCount.
    replace (i <? 0) with false by (symmetry; apply Z.ltb_ge; lia).
    replace (Z.of_nat (length events) <=? i) with false
      by (symmetry; apply Z.leb_gt; lia).
    cbn [orb]. rewrite (getEventAt_inside events i e Hi He).
    unfold bind at 1. rewrite Hwrite.
    replace (match folded with
             | Some b =>
                 GD.setFolded b
                   match disabled with
                   | Some b0 => GD.setDisabled b0 e
                   | None => e
                   end
             | None =>
                 match disabled with
                 | Some b0 => GD.setDisabled b0 e
                 | None => e
                 end
             end) with e'
      by (subst e'; destruct e, disabled, folded; reflexivity).
    reflexivity.
  - cbn [project edited]. rewrite eventsOf_written, Hev. reflexivity.
  - intros -> ->. cbn [project edited].
    apply (written_fixed _ _ _ _ events Hev).
    unfold GD.setEventAt.
    replace e' with e by (subst e'; destruct e; reflexivity).
    apply list_insert_id. exact He.
Qed.

Lemma event_update_changes_only_the_flags_witness :
  exists s',
    EventTools.gdevelop_event_update (Some "Level") None 1 (Some true) None
      (Examples.world, scripted)
    = (Ok tt, (Examples.world, s'))
    /\ dirty s' = true
    /\ eventsOf (Some "Level") None (project s')
       = Some [note; GD.setDisabled true jump; note].
Proof.
  destruct (event_update_changes_only_the_flags (Some "Level") None 1
              (Some true) None Examples.world scripted [note; jump; note] jump
              eq_refl ltac:(lia) eq_refl)
    as (s' & Hrun & Hdirty & Hevents & _).
  exists s'. split; [exact Hrun|]. split; [exact Hdirty | exact Hevents].
Defined.

(** X27. [gdevelop_condition_add] and [gdevelop_action_add] refuse every
    event inside the addressed list, a standard event with its two
    instruction lists included: the wrapper the lookup returns has no
    [getConditions] and no [getActions], so the call throws
    [Event does not support conditions] (or [actions]) and changes
    nothing, whatever the instruction and the position given. *)
Theorem instruction_add_refuses_every_event :
  forall (outside : Z -> GD.Outside)
         (sceneName externalEventsName : option string) (eventIndex : Z)
         (condition : EventTools.ConditionSpec) (action : EventTools.ActionSpec)
         (position : option Z) (w : World) (s : ProjectSession)
         (events : GD.EventsList) (e : GD.BaseEvent),
    eventsOf sceneName externalEventsName (project s) = Some events ->
    0 <= eventIndex ->
    events !! Z.to_nat eventIndex = Some e ->
    EventTools.gdevelop_condition_add outside sceneName externalEventsName
      eventIndex condition position (w, s)
    = (Err (JsError "Event does not support conditions"), (w, s))
    /\ EventTools.gdevelop_action_add outside sceneName externalEventsName
         eventIndex action position (w, s)
       = (Err (JsError "Event does not support actions"), (w, s)).
Proof.
  intros outside sceneName externalEventsName i condition action position w s
    events e Hev Hi He.
  destruct (resolveUnchecked_run _ _ w s events Hev) as (ref & Hres & _).
  pose proof (getEventAt_inside events i e Hi He) as Hget.
  unfold EventTools.gdevelop_condition_add, EventTools.gdevelop_action_add,
    EventTools.getEventAt, GD.lookupEvent.
  unfold bind. rewrite Hres. cbv beta iota. rewrite Hget.
  split; reflexivity.
Qed.

(** The standard event of the sheet [Shared], which has one condition
    and one action: adding a condition or an action to it is refused. *)
Lemma instruction_add_refuses_every_event_witness :
  let outside (i : Z) := GD.NullWrapper in
  [note; jump] !! Z.to_nat 1 = Some jump
  /\ GD.ev_conditions jump <> None
  /\ EventTools.gdevelop_condition_add outside None (Some "Shared") 1
       (EventTools.mkConditionSpec "KeyPressed" ["Left"] (Some true)) None
       (Examples.world, scripted)
     = (Err (JsError "Event does not support conditions"),
        (Examples.world, scripted))
  /\ EventTools.gdevelop_action_add outside None (Some "Shared") 1
       (EventTools.mkActionSpec "Delete" ["Hero"; ""]) (Some 0)
       (Examples.world, scripted)
     = (Err (JsError "Event does not support actions"),
        (Examples.world, scripted)).
Proof.
  intros outside. split; [reflexivity|]. split; [discriminate|].
  apply (instruction_add_refuses_every_event outside None (Some "Shared") 1
           (EventTools.mkConditionSpec "KeyPressed" ["Left"] (Some true))
           (EventTools.mkActionSpec "Delete" ["Hero"; ""]) (Some 0)
           Examples.world scripted [note; jump] jump eq_refl);
    [lia | reflexivity].
Defined.

(* ===================================================================== *)
(** * Duplicating a scene *)
(* ===================================================================== *)

Module SceneCopy.

Record DuplicateResponse : Type := mkDuplicateResponse {
  newSceneName : string;
  objectsCopied : Z;
  instancesCopied : Z
}.

Definition gdevelop_scene_duplicate (sourceName newName : string)
  : M SessionState DuplicateResponse :=
  let! present := Session.hasLayout sourceName in
  if negb present
  then throw (JsError ("Scene " +:+ Js.quoted sourceName +:+ " not found"))
  else
    let! taken := Session.hasLayout newName in
    if taken : bool
    then throw (JsError ("Scene " +:+ Js.quoted newName +:+ " already exists"))
    else
      let! sourceLayout := Session.getLayout sourceName in
      do! Session.createLayout newName None in
      let '(r, g, b) := GD.lay_backgroundColor sourceLayout in
      do! Session.updateProject
            (GD.updateLayout newName (GD.setBackgroundColor r g b)) in
      ret (mkDuplicateResponse newName 0 0).

End SceneCopy.

Section FindingInserted.

Context {A : Type}.

Lemma find_insert_at_new (p : A -> bool) (pos : Z) (a : A) (l : list A) :
  existsb p l = false -> p a = true ->
  find p (GD.insert_at pos a l) = Some a.
Proof.
  intros Hl Ha.
  assert (Hmiss : forall l1 l2, existsb p l1 = false ->
                                find p (l1 ++ a :: l2) = Some a).
  { induction l1 as [|b l1 IH]; intros l2 H1; cbn.
    - rewrite Ha. reflexivity.
    - cbn in H1. apply orb_false_iff in H1 as [-> H1]. apply IH. exact H1. }
  unfold GD.insert_at. destruct (Js.to_uint32 pos <? Z.of_nat (length l)).
  - apply Hmiss. apply (existsb_take_drop p _ l Hl).
  - apply Hmiss. exact Hl.
Qed.

Lemma find_insert_at_other (p : A -> bool) (pos : Z) (a : A) (l : list A) :
  p a = false -> find p (GD.insert_at pos a l) = find p l.
Proof.
  intros Ha.
  assert (Hskip : forall l1 l2, find p (l1 ++ a :: l2) = find p (l1 ++ l2)).
  { induction l1 as [|b l1 IH]; intros l2; cbn.
    - rewrite Ha. reflexivity.
    - destruct (p b); [reflexivity | apply IH]. }
  unfold GD.insert_at. destruct (Js.to_uint32 pos <? Z.of_nat (length l)).
  - rewrite Hskip, take_drop. reflexivity.
  - rewrite Hskip, app_nil_r. reflexivity.
Qed.

End FindingInserted.

(** X28. [gdevelop_scene_duplicate] does not copy the scene: the scene it
    creates under the new name has the background colour of the source
    and nothing else of it, no object, no instance and no event,
    whatever the source holds; the source is left as it is and the
    session is marked dirty. The answer says that no object and no
    instance was copied. *)
Theorem scene_duplicate_copies_only_the_colour :
  forall (sourceName newName : string) (w : World) (s : ProjectSession)
         (source : GD.Layout),
    GD.getLayout sourceName (project s) = Some source ->
    GD.hasLayoutNamed newName (project s) = false ->
    let '(r, g, b) := GD.lay_backgroundColor source in
    exists s',
      SceneCopy.gdevelop_scene_duplicate sourceName newName (w, s)
      = (Ok (SceneCopy.mkDuplicateResponse newName 0 0), (w, s'))
      /\ dirty s' = true
      /\ GD.getLayout newName (project s')
         = Some (GD.mkLayout newName
                   (Js.to_uint32 r, Js.to_uint32 g, Js.to_uint32 b) [] [] [])
      /\ GD.getLayout sourceName (project s') = Some source
      /\ Permutation (map GD.lay_name (GD.layouts (project s')))
                     (newName :: map GD.lay_name (GD.layouts (project s))).
Proof.
  intros sourceName newName w s source Hsrc Hnew.
  destruct (GD.lay_backgroundColor source) as [[r g] b] eqn:Hcolor.
  assert (Hhas : GD.hasLayoutNamed sourceName (project s) = true).
  { unfold GD.hasLayoutNamed, GD.getLayout in *.
    apply find_some in Hsrc as [Hin Hn]. apply existsb_exists. eauto. }
  assert (Hne : sourceName <> newName) by congruence.
  set (pos := GD.getLayoutsCount (project s)).
  set (f := fun p => GD.updateLayout newName (GD.setBackgroundColor r g b)
                       (GD.insertNewLayout newName pos p)).
  exists (edited (w_now w) f s).
  split; [|split; [reflexivity | split; [|split]]].
  - unfold SceneCopy.gdevelop_scene_duplicate, Session.createLayout,
      Session.getLayout.
    step_monad. rewrite Hhas. cbn [negb]. rewrite Hnew, Hsrc.
    step_monad. rewrite Hnew. step_monad. rewrite Hcolor. reflexivity.
  - cbn [project edited]. unfold f.
    rewrite getLayout_updateLayout by reflexivity.
    unfold GD.getLayout, GD.insertNewLayout. cbn [GD.layouts GD.setLayouts].
    rewrite find_insert_at_new;
      [reflexivity | exact Hnew | apply String.eqb_refl].
  - cbn [project edited]. unfold f.
    rewrite getLayout_updateLayout_other by (reflexivity || exact Hne).
    unfold GD.getLayout, GD.insertNewLayout in *.
    cbn [GD.layouts GD.setLayouts].
    rewrite find_insert_at_other; [exact Hsrc|].
    apply String.eqb_neq. cbn. congruence.
  - cbn [project edited]. unfold f, GD.updateLayout, GD.insertNewLayout.
    cbn [GD.layouts GD.setLayouts].
    rewrite map_key_update_first_keep by reflexivity.
    apply (Permutation_map GD.lay_name
             (insert_at_Permutation pos (GD.newLayout newName) _)).
Qed.

Lemma scene_duplicate_copies_only_the_colour_witness :
  exists s',
    SceneCopy.gdevelop_scene_duplicate "Menu" "Menu copy"
      (Examples.world, Examples.cleanSession)
    = (Ok (SceneCopy.mkDuplicateResponse "Menu copy" 0 0), (Examples.world, s'))
    /\ GD.getLayout "Menu copy" (project s')
       = Some (GD.mkLayout "Menu copy" (0, 0, 0) [] [] [])
    /\ GD.getLayout "Menu" (project s') = Some Examples.menu.
Proof.
  destruct (scene_duplicate_copies_only_the_colour "Menu" "Menu copy"
              Examples.world Examples.cleanSession Examples.menu
              eq_refl eq_refl)
    as (s' & Hrun & _ & Hcopy & Hsource & _).
  exists s'. split; [exact Hrun|]. split; [exact Hcopy | exact Hsource].
Defined.

(* ===================================================================== *)
(** * External events sheets *)
(* ===================================================================== *)

(** Calls of the engine on the sheets of a project
    ([types/gdcore.ts]). *)
Module GDSheets.

Definition getExternalEventsCount (p : GD.Project) : Z :=
  Z.of_nat (length (GD.externalEvents p)).

(** [insertNewExternalEvents(name, position)]: an empty sheet, with no
    associated layout. *)
Definition insertNewExternalEvents (n : string) (position : Z)
  (p : GD.Project) : GD.Project :=
  GD.setExternalEventsList
    (GD.insert_at position (GD.mkExternalEvents n "" []) (GD.externalEvents p))
    p.

Definition removeExternalEvents (n : string) (p : GD.Project) : GD.Project :=
  GD.setExternalEventsList
    (GD.remove_first (GD.external_named n) (GD.externalEvents p)) p.

(** Writes made through the reference [getExternalEvents(name)]
    returned. *)
Definition updateSheet (n : string) (f : GD.ExternalEvents -> GD.ExternalEvents)
  (p : GD.Project) : GD.Project :=
  GD.setExternalEventsList
    (GD.update_first (GD.external_named n) f (GD.externalEvents p)) p.

Definition setAssociatedLayout (layoutName : string) (x : GD.ExternalEvents)
  : GD.ExternalEvents :=
  GD.mkExternalEvents (GD.ext_name x) layoutName (GD.ext_events x).

Definition setName (n : string) (x : GD.ExternalEvents) : GD.ExternalEvents :=
  GD.mkExternalEvents n (GD.ext_associatedLayout x) (GD.ext_events x).

End GDSheets.

Module SheetTools.

(** The [action] argument. *)
Inductive Action : Type := list_ | create | delete | rename.

(** The answers of the four actions. *)
Inductive Response : Type :=
| Count (count : Z)
| Created (name : string)
| Deleted
| Renamed (oldName newName : string).

Definition gdevelop_external_events (action : Action)
  (name newName associatedLayout : option string)
  : M SessionState Response :=
  let! p := Session.getProject in
  match action with
  | list_ => ret (Count (GDSheets.getExternalEventsCount p))
  | create =>
      if negb (Js.truthy_opt name) then throw (JsError "name is required")
      else
        let n := Js.nullish name "" in
        if GD.hasExternalEventsNamed n p
        then throw (JsError ("External events " +:+ Js.quoted n
                             +:+ " already exists"))
        else
          do! Session.updateProject
                (GDSheets.insertNewExternalEvents n
                   (GDSheets.getExternalEventsCount p)) in
          do! when_ (Js.truthy_opt associatedLayout)
                (Session.updateProject
                   (GDSheets.updateSheet n
                      (GDSheets.setAssociatedLayout
                         (Js.nullish associatedLayout "")))) in
          do! Session.markDirty in
          ret (Created n)
  | delete =>
      if negb (Js.truthy_opt name) then throw (JsError "name is required")
      else
        let n := Js.nullish name "" in
        if negb (GD.hasExternalEventsNamed n p)
        then throw (JsError ("External events " +:+ Js.quoted n
                             +:+ " not found"))
        else
          do! Session.updateProject (GDSheets.removeExternalEvents n) in
          do! Session.markDirty in
          ret Deleted
  | rename =>
      if negb (Js.truthy_opt name) || negb (Js.truthy_opt newName)
      then throw (JsError "name and newName are required")
      else
        let n := Js.nullish name "" in
        let n' := Js.nullish newName "" in
        if negb (GD.hasExternalEventsNamed n p)
        then throw (JsError ("External events " +:+ Js.quoted n
                             +:+ " not found"))
        else if GD.hasExternalEventsNamed n' p
        then throw (JsError ("External events " +:+ Js.quoted n'
                             +:+ " already exists"))
        else
          do! Session.updateProject
                (GDSheets.updateSheet n (GDSheets.setName n')) in
          do! Session.markDirty in
          ret (Renamed n n')
  end.

End SheetTools.

(** ** Sheet names stay unique *)

Definition sheetsUnique (p : GD.Project) : Prop :=
  List.NoDup (map GD.ext_name (GD.externalEvents p)).

Lemma external_events_keeps_unique (action : SheetTools.Action)
  (name newName associatedLayout : option string) (st : SessionState) :
  sheetsUnique (project (snd st)) ->
  sheetsUnique
    (project (snd (snd (SheetTools.gdevelop_external_events action name
                          newName associatedLayout st)))).
Proof.
  destruct st as [w s]. cbn [snd]. intros Hu.
  unfold SheetTools.gdevelop_external_events. step_monad.
  destruct action.
  - exact Hu.
  - destruct (Js.truthy_opt name); cbn [negb]; [|exact Hu].
    destruct (GD.hasExternalEventsNamed _ (project s)) eqn:Hfree; [exact Hu|].
    assert (Hins : sheetsUnique
                     (GDSheets.insertNewExternalEvents (Js.nullish name "")
                        (GDSheets.getExternalEventsCount (project s))
                        (project s))).
    { unfold sheetsUnique, GDSheets.insertNewExternalEvents.
      cbn [GD.externalEvents GD.setExternalEventsList].
      apply (NoDup_insert_at GD.ext_name); [|exact Hu].
      apply (existsb_keyed_false GD.ext_name). exact Hfree. }
    destruct (Js.truthy_opt associatedLayout); session_fields; [|exact Hins].
    unfold sheetsUnique, GDSheets.updateSheet in *.
    cbn [GD.externalEvents GD.setExternalEventsList] in *.
    rewrite map_key_update_first_keep by reflexivity. exact Hins.
  - destruct (Js.truthy_opt name); cbn [negb]; [|exact Hu].
    destruct (GD.hasExternalEventsNamed _ (project s)); cbn [negb]; [|exact Hu].
    session_fields. unfold sheetsUnique, GDSheets.removeExternalEvents.
    cbn [GD.externalEvents GD.setExternalEventsList].
    apply (NoDup_remove_first GD.ext_name). exact Hu.
  - destruct (Js.truthy_opt name); cbn [negb orb]; [|exact Hu].
    destruct (Js.truthy_opt newName); cbn [negb]; [|exact Hu].
    destruct (GD.hasExternalEventsNamed (Js.nullish name "") (project s));
      cbn [negb]; [|exact Hu].
    destruct (GD.hasExternalEventsNamed (Js.nullish newName "") (project s))
      eqn:Hfree; [exact Hu|].
    session_fields. unfold sheetsUnique, GDSheets.updateSheet.
    cbn [GD.externalEvents GD.setExternalEventsList].
    apply (NoDup_update_first_rename GD.ext_name _ _ (Js.nullish newName ""));
      [reflexivity | apply (existsb_keyed_false GD.ext_name); exact Hfree
      | exact Hu].
Qed.

(** One call of the tool, whatever it answers. *)
Definition performSheetCall
  (c : SheetTools.Action * option string * option string * option string)
  : M SessionState unit :=
  let '(action, name, newName, associatedLayout) := c in
  let! _ := SheetTools.gdevelop_external_events action name newName
              associatedLayout in
  ret tt.

(** X29. The names of the external events sheets stay unique: along
    every sequence of calls of [gdevelop_external_events], whatever the
    actions and arguments and whether the calls return or throw, no two
    sheets of the document share a name, provided that held at the
    start. *)
Theorem sheet_names_stay_unique :
  forall (calls : list (SheetTools.Action * option string * option string
                        * option string))
         (st : SessionState),
    List.NoDup (map GD.ext_name (GD.externalEvents (project (snd st)))) ->
    Forall (fun st' =>
              List.NoDup
                (map GD.ext_name (GD.externalEvents (project (snd st')))))
           (statesAlong performSheetCall calls st).
Proof.
  intros calls st Hu.
  apply (statesAlong_invariant performSheetCall
           (fun st' => sheetsUnique (project (snd st'))));
    [|exact Hu].
  clear. intros [[[action name] newName] associatedLayout] st Hst.
  pose proof (external_events_keeps_unique action name newName
                associatedLayout st Hst) as H.
  unfold performSheetCall, bind.
  destruct (SheetTools.gdevelop_external_events _ _ _ _ _) as [[x|e] st'];
    exact H.
Qed.

Lemma sheet_names_stay_unique_witness :
  let calls :=
    [ (SheetTools.create, Some "Shared", None, Some "Nowhere");
      (SheetTools.create, Some "Extra", None, None);
      (SheetTools.rename, Some "Extra", Some "Shared", None);
      (SheetTools.rename, Some "Shared", Some "Common", None);
      (SheetTools.delete, Some "Extra", None, None);
      (SheetTools.list_, None, None, None) ] in
  Forall (fun st' =>
            List.NoDup
              (map GD.ext_name (GD.externalEvents (project (snd st')))))
         (statesAlong performSheetCall calls (Examples.world, scripted)).
Proof.
  intros calls.
  apply (sheet_names_stay_unique calls (Examples.world, scripted)).
  cbn. distinct_names.
Defined.

(** X30. Creating an external events sheet under a free name gives an
    empty sheet that the event tools can address by that name, and one
    sheet more in the count; the associated scene is recorded as given,
    without a check that such a scene exists. Deleting the sheet again
    gives the document back as it was. *)
Theorem sheet_create_then_delete_restores_document :
  forall (name : string) (ignored associatedLayout : option string)
         (w : World) (s : ProjectSession),
    Js.truthy name = true ->
    GD.hasExternalEventsNamed name (project s) = false ->
    exists s1 s2,
      SheetTools.gdevelop_external_events SheetTools.create (Some name)
        ignored associatedLayout (w, s)
      = (Ok (SheetTools.Created name), (w, s1))
      /\ GD.getExternalEvents name (project s1)
         = Some (GD.mkExternalEvents name (Js.or_else associatedLayout "") [])
      /\ eventsOf None (Some name) (project s1) = Some []
      /\ SheetTools.gdevelop_external_events SheetTools.list_ None None None
           (w, s1)
         = (Ok (SheetTools.Count
                  (Z.of_nat (length (GD.externalEvents (project s))) + 1)),
            (w, s1))
      /\ SheetTools.gdevelop_external_events SheetTools.delete (Some name)
           ignored associatedLayout (w, s1)
         = (Ok SheetTools.Deleted, (w, s2))
      /\ project s2 = project s.
Proof.
  intros name ignored associatedLayout w s Hname Hfree.
  set (pos := GDSheets.getExternalEventsCount (project s)).
  set (associate := fun x => GDSheets.setAssociatedLayout
                               (Js.or_else associatedLayout "") x).
  set (sheets := GD.update_first (GD.external_named name) associate
                   (GD.insert_at pos (GD.mkExternalEvents name "" [])
                      (GD.externalEvents (project s)))).
  set (s1 := edited (w_now w) (GD.setExternalEventsList sheets) s).
  assert (Hcreate :
    SheetTools.gdevelop_external_events SheetTools.create (Some name)
      ignored associatedLayout (w, s)
    = (Ok (SheetTools.Created name), (w, s1))).
  { unfold SheetTools.gdevelop_external_events. step_monad.
    cbn [Js.truthy_opt Js.nullish]. rewrite Hname. cbn [negb]. rewrite Hfree.
    unfold s1, edited, sheets, associate.
    destruct associatedLayout as [a|]; cbn [Js.truthy_opt Js.or_else Js.nullish].
    - destruct (Js.truthy a); session_fields.
      + unfold GDSheets.updateSheet, GDSheets.insertNewExternalEvents.
        destruct (project s); reflexivity.
      + unfold GDSheets.insertNewExternalEvents.
        rewrite (update_first_fixed _ _ _ (GD.mkExternalEvents name "" []));
          [reflexivity | | reflexivity].
        apply find_insert_at_new; [exact Hfree | apply String.eqb_refl].
    - session_fields. unfold GDSheets.insertNewExternalEvents.
      rewrite (update_first_fixed _ _ _ (GD.mkExternalEvents name "" []));
        [reflexivity | | reflexivity].
      apply find_insert_at_new; [exact Hfree | apply String.eqb_refl]. }
  assert (Hfound : GD.getExternalEvents name (project s1)
                   = Some (GD.mkExternalEvents name
                             (Js.or_else associatedLayout "") [])).
  { unfold GD.getExternalEvents. cbn [project s1 edited GD.externalEvents
                                       GD.setExternalEventsList].
    unfold sheets. rewrite find_update_first_same by (intros x Hx; exact Hx).
    rewrite find_insert_at_new;
      [reflexivity | exact Hfree | apply String.eqb_refl]. }
  assert (Hhas : GD.hasExternalEventsNamed name (project s1) = true).
  { unfold GD.hasExternalEventsNamed, GD.getExternalEvents in *.
    apply find_some in Hfound as [Hin Hn]. apply existsb_exists. eauto. }
  exists s1. eexists.
  split; [exact Hcreate|]. split; [exact Hfound|]. split; [|split; [|split]].
  - unfold eventsOf. cbn [Js.truthy_opt Js.nullish]. rewrite Hname, Hfound.
    reflexivity.
  - unfold SheetTools.gdevelop_external_events. step_monad.
    unfold GDSheets.getExternalEventsCount.
    cbn [project s1 edited GD.externalEvents GD.setExternalEventsList].
    unfold sheets. rewrite length_update_first, length_insert_at.
    rewrite Nat2Z.inj_succ. reflexivity.
  - unfold SheetTools.gdevelop_external_events. step_monad.
    cbn [Js.truthy_opt Js.nullish]. rewrite Hname. cbn [negb]. rewrite Hhas.
    reflexivity.
  - cbn [project Session.setProject Session.setDirty Session.setLastModifiedAt].
    unfold GDSheets.removeExternalEvents.
    cbn [project s1 edited GD.externalEvents GD.setExternalEventsList].
    unfold sheets.
    rewrite remove_first_update_insert_at;
      [| exact Hfree | apply String.eqb_refl | apply String.eqb_refl].
    destruct (project s); reflexivity.
Qed.

Lemma sheet_create_then_delete_restores_document_witness :
  exists s1 s2,
    SheetTools.gdevelop_external_events SheetTools.create (Some "Intro")
      None (Some "Nowhere") (Examples.world, scripted)
    = (Ok (SheetTools.Created "Intro"), (Examples.world, s1))
    /\ GD.getExternalEvents "Intro" (project s1)
       = Some (GD.mkExternalEvents "Intro" "Nowhere" [])
    /\ SheetTools.gdevelop_external_events SheetTools.delete (Some "Intro")
         None (Some "Nowhere") (Examples.world, s1)
       = (Ok SheetTools.Deleted, (Examples.world, s2))
    /\ project s2 = project scripted.
Proof.
  destruct (sheet_create_then_delete_restores_document "Intro" None
              (Some "Nowhere") Examples.world scripted eq_refl eq_refl)
    as (s1 & s2 & Hcreate & Hfound & _ & _ & Hdelete & Hback).
  exists s1, s2. split; [exact Hcreate|]. split; [exact Hfound|].
  split; [exact Hdelete | exact Hback].
Defined.
